(** * Copy Refinery: the text-transformation relay

    A shallow embedding of the JavaScript sources

      - [src/api.js]          the Transform Client ([TextTransformAPI]) and its
                              module-level wrappers,
      - the Prompt Builder and [transform] of the revision of the Transform
        Client that has a JSON template mode,
      - [src/api-browser.js]  the browser variant that talks to the provider
                              with [fetch],
      - [src/server.js]       the Relay Server (express routes),
      - the frontend stub that calls the Relay Server,

    followed by the properties of the specification and by further
    properties of the code, each stated over these definitions. *)

From Stdlib Require Import String Ascii List ZArith Bool Lia DecimalString.
From stdpp Require Import gmap strings list.

Open Scope string_scope.
Open Scope Z_scope.

(** ** JavaScript strings

    A JavaScript string is kept as the UTF-8 bytes of its text (the sources are
    UTF-8 files, so a literal of the source is the same bytes here).
    Concatenation, comparison and substring search act on the bytes exactly as
    they act on the UTF-16 code units of the corresponding well-formed
    string. *)

Definition dq : string := String (ascii_of_nat 34) "".
Definition nl : string := String (ascii_of_nat 10) "".

(** The lines of a template literal, joined by the line breaks of the
    source. *)
Definition lines (l : list string) : string := String.concat nl l.

(** [quoted s] is the text of [s] between two double quotes, as the
    templates write it. *)
Definition quoted (s : string) : string := dq ++ s ++ dq.

Definition byte (c : ascii) : nat := nat_of_ascii c.

(** White space and line terminators of ECMAScript ([String.prototype.trim]
    strips both), by the length of their UTF-8 encoding:
    U+0009..U+000D and U+0020;
    U+00A0;
    U+1680, U+2000..U+200A, U+2028, U+2029, U+202F, U+205F, U+3000, U+FEFF. *)
Definition ws1 (a : ascii) : bool :=
  let n := byte a in ((9 <=? n) && (n <=? 13) || (n =? 32))%nat.

Definition ws2 (a b : ascii) : bool :=
  ((byte a =? 194) && (byte b =? 160))%nat.

Definition ws3 (a b c : ascii) : bool :=
  let x := byte a in
  let y := byte b in
  let z := byte c in
  ((x =? 225) && (y =? 154) && (z =? 128)
   || (x =? 226) && (y =? 128)
        && ((128 <=? z) && (z <=? 138) || (z =? 168) || (z =? 169) || (z =? 175))
   || (x =? 226) && (y =? 129) && (z =? 159)
   || (x =? 227) && (y =? 128) && (z =? 128)
   || (x =? 239) && (y =? 187) && (z =? 191))%nat.

Fixpoint trimStart (s : string) : string :=
  match s with
  | EmptyString => s
  | String a r =>
      if ws1 a then trimStart r
      else match r with
           | EmptyString => s
           | String b r2 =>
               if ws2 a b then trimStart r2
               else match r2 with
                    | EmptyString => s
                    | String c r3 => if ws3 a b c then trimStart r3 else s
                    end
           end
  end.

(** A string that consists of white space only: what [!s.trim()] tests on a
    string. *)
Definition blank (s : string) : bool := (trimStart s =? "")%string.

Fixpoint trimEnd (s : string) : string :=
  match s with
  | EmptyString => s
  | String a r => if blank s then "" else String a (trimEnd r)
  end.

(** [String.prototype.trim]. *)
Definition trim (s : string) : string := trimEnd (trimStart s).

(** ** Errors and completions *)

(** A thrown [Error] object; the program only ever reads its [message]. *)
Record Error := MkError { message : string }.

(** How a piece of synchronous code completes: normally, or by a throw. *)
Inductive completion (A : Type) : Type :=
| Normal (a : A)
| Throw (e : Error).
Arguments Normal {A} a.
Arguments Throw {A} e.

(** How the promise returned by an [async] function (or by the provider) is
    settled. *)
Inductive promise (A : Type) : Type :=
| Fulfilled (a : A)
| Rejected (e : Error).
Arguments Fulfilled {A} a.
Arguments Rejected {A} e.

Definition bind {A B : Type} (c : completion A) (k : A -> completion B) : completion B :=
  match c with
  | Normal a => k a
  | Throw e => Throw e
  end.

Notation "'let*' x ':=' c 'in' k" := (bind c (fun x => k))
  (at level 10, x name, c at level 100, k at level 200).

(** ** JavaScript values

    The values that reach the program as parsed JSON (request bodies,
    provider responses).  A Number is kept as the two things this program
    observes of it: whether it is truthy (neither zero nor NaN) and the text
    [ToString] gives for it. *)
Record number := MkNumber { num_truthy : bool; num_text : string }.

#[warnings="-register-all"]
Inductive jsval : Type :=
| JUndefined
| JNull
| JBool (b : bool)
| JNum (n : number)
| JStr (s : string)
| JArr (l : list jsval)
| JObj (l : list (string * jsval)).

(** [ToBoolean]. *)
Definition truthy (v : jsval) : bool :=
  match v with
  | JUndefined | JNull => false
  | JBool b => b
  | JNum n => num_truthy n
  | JStr s => negb (s =? "")%string
  | JArr _ | JObj _ => true
  end.

(** [typeof v]. *)
Definition typeof (v : jsval) : string :=
  match v with
  | JUndefined => "undefined"
  | JNull => "object"
  | JBool _ => "boolean"
  | JNum _ => "number"
  | JStr _ => "string"
  | JArr _ | JObj _ => "object"
  end.

(** [a || b]. *)
Definition js_or (a b : jsval) : jsval := if truthy a then a else b.

(** [v === 'lit']. *)
Definition is_str (lit : string) (v : jsval) : bool :=
  match v with
  | JStr s => (s =? lit)%string
  | _ => false
  end.

(** Own property of an object, the first binding of the key. *)
Fixpoint own (k : string) (l : list (string * jsval)) : option jsval :=
  match l with
  | [] => None
  | (k', v) :: r => if (k' =? k)%string then Some v else own k r
  end.

Definition TypeError (msg : string) : Error := MkError msg.

Definition nullish_name (v : jsval) : string :=
  match v with
  | JNull => "null"
  | _ => "undefined"
  end.

(** The engine's error for a property read on [undefined] or [null]. *)
Definition read_of_nullish (v : jsval) (k : string) : Error :=
  TypeError ("Cannot read properties of " ++ nullish_name v
             ++ " (reading '" ++ k ++ "')").

(** [v.k] for the data properties this program reads by name ([text],
    [action], [options], [instruction], [styleGuide], [content], ...).  None
    of these names is defined on a built-in prototype, so on an object the
    read finds an own property or [undefined], and on any other value that is
    not [undefined] or [null] it finds [undefined] (the own properties of an
    array or a string are its indices and [length]). *)
Definition get (k : string) (v : jsval) : completion jsval :=
  match v with
  | JUndefined | JNull => Throw (read_of_nullish v k)
  | JObj l => Normal (default JUndefined (own k l))
  | _ => Normal JUndefined
  end.

Definition index_key (i : nat) : string := NilZero.string_of_uint (Nat.to_uint i).

(** The first character of a string: the bytes of its first code point. *)
Definition first_char (s : string) : string :=
  match s with
  | EmptyString => ""
  | String a r =>
      let n := byte a in
      if (n <? 192)%nat then String a ""
      else if (n <? 224)%nat then String a (substring 0 1 r)
      else if (n <? 240)%nat then String a (substring 0 2 r)
      else String a (substring 0 3 r)
  end.

(** [v[0]]. *)
Definition get0 (v : jsval) : completion jsval :=
  match v with
  | JUndefined | JNull => Throw (read_of_nullish v "0")
  | JArr l => Normal (default JUndefined (head l))
  | JObj l => Normal (default JUndefined (own "0" l))
  | JStr s => Normal (if (s =? "")%string then JUndefined else JStr (first_char s))
  | _ => Normal JUndefined
  end.

(** [v.trim()], where [src] is the source text of the callee: a string is
    trimmed; on anything else there is no callable [trim]. *)
Definition call_trim (src : string) (v : jsval) : completion string :=
  match v with
  | JStr s => Normal (trim s)
  | JUndefined | JNull => Throw (read_of_nullish v "trim")
  | _ => Throw (TypeError (src ++ ".trim is not a function"))
  end.

(** [each f l]: [f] on every element from the left, up to the first
    throw. *)
Definition each {A B : Type} (f : A -> completion B) : list A -> completion (list B) :=
  fix go (l : list A) : completion (list B) :=
    match l with
    | [] => Normal []
    | x :: r =>
        let* y := f x in
        let* ys := go r in
        Normal (y :: ys)
    end.

(** The engine's error for a value that has no primitive form. *)
Definition cannot_convert : Error :=
  TypeError "Cannot convert object to primitive value".

(** [ToString], as a template literal or a property key applies it.  An array
    joins its elements with commas ([null] and [undefined] elements give the
    empty text); a plain object gives [[object Object]], unless it has an own
    [toString] property: a parsed JSON value is never callable, so the
    conversion then finds no method that returns a primitive and throws. *)
Fixpoint to_string (v : jsval) : completion string :=
  match v with
  | JUndefined => Normal "undefined"
  | JNull => Normal "null"
  | JBool b => Normal (if b then "true" else "false")
  | JNum n => Normal (num_text n)
  | JStr s => Normal s
  | JArr l =>
      let* parts := each (fun x => match x with
                                   | JUndefined | JNull => Normal ""
                                   | _ => to_string x
                                   end) l in
      Normal (String.concat "," parts)
  | JObj l =>
      match own "toString" l with
      | Some _ => Throw cannot_convert
      | None => Normal "[object Object]"
      end
  end.

(** The own enumerable properties an object spread [{...v}] copies: the
    members of an object; for an array and for a string, the elements and the
    characters under their indices (the program never reads an index of a
    spread, so a character is kept as one byte here). *)
Fixpoint indexed (i : nat) (l : list jsval) : list (string * jsval) :=
  match l with
  | [] => []
  | x :: r => (index_key i, x) :: indexed (S i) r
  end.

Fixpoint chars (s : string) : list jsval :=
  match s with
  | EmptyString => []
  | String a r => JStr (String a "") :: chars r
  end.

Definition own_props (v : jsval) : list (string * jsval) :=
  match v with
  | JObj l => l
  | JArr l => indexed 0 l
  | JStr s => indexed 0 (chars s)
  | _ => []
  end.

(** The properties [l] without those named [k]. *)
Fixpoint without (k : string) (l : list (string * jsval)) : list (string * jsval) :=
  match l with
  | [] => []
  | (k', v) :: r => if (k' =? k)%string then without k r else (k', v) :: without k r
  end.

(** The properties of an object literal after the member [k: x] has been
    added to the properties [l] it has so far: a property named [k] keeps
    its place and takes the value [x], otherwise [k] is a new, last
    property.  The object has one property named [k]. *)
Fixpoint assign (k : string) (x : jsval) (l : list (string * jsval))
  : list (string * jsval) :=
  match l with
  | [] => [(k, x)]
  | (k', v) :: r =>
      if (k' =? k)%string then (k', x) :: without k r else (k', v) :: assign k x r
  end.

(** [{...v, k: x}]. *)
Definition spread_with (v : jsval) (k : string) (x : jsval) : jsval :=
  JObj (assign k x (own_props v)).

(** [param = d]: the default of a parameter, or of a destructured property,
    that is [undefined]. *)
Definition or_default (v d : jsval) : jsval :=
  match v with
  | JUndefined => d
  | _ => v
  end.

(** ** Regular expressions

    The fragment of ECMAScript patterns the program uses, with the
    backtracking semantics of the language: a matcher tries its alternatives
    in priority order and hands the rest of the input to its continuation.
    All patterns of the program carry the [s] flag and have at most one
    capture group. *)

Inductive regex : Type :=
| RLit (s : string)        (* a run of literal characters *)
| RLazyAny                 (* .*?   (with the s flag, . is any character) *)
| RGroup (r : regex)       (* ( r ) *)
| RLook (r : regex)        (* (?= r ) *)
| REnd                     (* $     (no m flag: the end of the input) *)
| RAlt (r1 r2 : regex)     (* r1 | r2 *)
| RSeq (r1 r2 : regex).    (* r1 r2 *)

(** [strip p s]: the rest of [s] after its prefix [p], if [p] is one. *)
Fixpoint strip (p s : string) : option string :=
  match p with
  | EmptyString => Some s
  | String a p' =>
      match s with
      | EmptyString => None
      | String b s' => if Ascii.eqb a b then strip p' s' else None
      end
  end.

(** [taken s s']: what was consumed of [s] when [s'] is left of it. *)
Definition taken (s s' : string) : string :=
  substring 0 (String.length s - String.length s') s.

(** The state of group 1: [None] while it has not taken part in the match
    ([undefined] in the match array). *)
Definition capture : Type := option string.

(** The first suffix of [s], from [s] itself down to the empty one, that [k]
    accepts.  This is the search order both of a lazy [.*?], which takes one
    more character each time the rest of the pattern fails, and of the start
    position of a match, which moves right each time the pattern fails. *)
Fixpoint first_from (k : string -> option capture) (s : string) : option capture :=
  match k s with
  | Some m => Some m
  | None =>
      match s with
      | EmptyString => None
      | String _ s' => first_from k s'
      end
  end.

Fixpoint rmatch (r : regex) (s : string) (c : capture)
  (k : string -> capture -> option capture) : option capture :=
  match r with
  | RLit p =>
      match strip p s with
      | Some s' => k s' c
      | None => None
      end
  | RLazyAny => first_from (fun s' => k s' c) s
  | RGroup r1 => rmatch r1 s c (fun s' _ => k s' (Some (taken s s')))
  | RLook r1 =>
      match rmatch r1 s c (fun _ c' => Some c') with
      | Some c' => k s c'
      | None => None
      end
  | REnd =>
      match s with
      | EmptyString => k s c
      | String _ _ => None
      end
  | RAlt r1 r2 =>
      match rmatch r1 s c k with
      | Some m => Some m
      | None => rmatch r2 s c k
      end
  | RSeq r1 r2 => rmatch r1 s c (fun s' c' => rmatch r2 s' c' k)
  end.

(** [s.match(r)] for a pattern without the [g] flag: the match at the
    leftmost position that has one; the result is element 1 of the match
    array, [None] when there is no match ([null]). *)
Definition js_match (r : regex) (s : string) : option capture :=
  first_from (fun s' => rmatch r s' None (fun _ c => Some c)) s.

(** The first occurrence of [p] in [s]: the text before it and the text
    after it. *)
Fixpoint find (p s : string) : option (string * string) :=
  match strip p s with
  | Some s' => Some ("", s')
  | None =>
      match s with
      | EmptyString => None
      | String a s' =>
          match find p s' with
          | Some (u, v) => Some (String a u, v)
          | None => None
          end
      end
  end.

(** [s.includes(p)]. *)
Definition contains (p s : string) : bool :=
  match find p s with
  | Some _ => true
  | None => false
  end.

(** ** The model registry *)

Record ModelInfo := MkModelInfo {
  name : string;
  description : string;
  pricing : string;
  recommended : option bool;
  premium : option bool;
  fast : option bool
}.

(** The properties every object literal inherits from [Object.prototype];
    each of them reads as a function or an object, hence as a truthy value. *)
Definition Object_prototype : list string :=
  [ "constructor"; "hasOwnProperty"; "isPrototypeOf"; "propertyIsEnumerable";
    "toLocaleString"; "toString"; "valueOf"; "__proto__";
    "__defineGetter__"; "__defineSetter__"; "__lookupGetter__";
    "__lookupSetter__" ].

(** What a property read [registry[key]] finds. *)
Inductive member : Type :=
| Own (m : ModelInfo)
| Inherited (k : string)
| Absent.

Definition member_truthy (m : member) : bool :=
  match m with
  | Own _ | Inherited _ => true
  | Absent => false
  end.

(** [{...m}]: the own enumerable properties of what the read found (an
    inherited built-in has none). *)
Definition member_props (m : member) : option ModelInfo :=
  match m with
  | Own i => Some i
  | Inherited _ | Absent => None
  end.

(** ** The provider

    The provider is outside the program: a call of
    [client.messages.create] is answered by the environment, which settles
    the promise with a message or rejects it with the SDK's error (an HTTP
    status that is not a success, or a network failure).  [now] is what
    [new Date().toISOString()] reads.

    While a request is pending the program is not idle: the instance of the
    Transform Client is one mutable object (the Relay Server shares it among
    all its handlers), and an [await] lets other handlers run.  [meanwhile]
    lists the identifiers of the calls of [setModel] that are made on the
    instance while the request is pending, in order. *)

Record ProviderRequest := MkProviderRequest {
  rq_model : jsval;
  rq_max_tokens : Z;
  rq_temperature : jsval;
  rq_system : string;
  rq_user : string            (* messages: [{ role: 'user', content }] *)
}.

Record Env := MkEnv {
  create : ProviderRequest -> promise jsval;
  meanwhile : list jsval;
  now : string
}.

(** What [fetch] resolves to: a status, a status text and a body that
    [response.json()] parses or fails to parse. *)
Record FetchResponse := MkFetchResponse {
  status : nat;
  statusText : string;
  json : promise jsval
}.

(** [response.ok]: the status is in the range 200-299. *)
Definition ok (r : FetchResponse) : bool :=
  ((200 <=? status r) && (status r <=? 299))%nat.

(** The requests a run has sent to the provider, oldest first. *)
Definition trace : Type := list ProviderRequest.

(** The request of [validateConnection]: a model, [max_tokens] and one user
    message, without a system prompt and without a temperature. *)
Record ProbeRequest := MkProbeRequest {
  pb_model : jsval;
  pb_max_tokens : Z;
  pb_user : string            (* messages: [{ role: 'user', content }] *)
}.

(** * src/api.js *)

Module Api.

Record TextTransformAPI := MkTextTransformAPI {
  availableModels : gmap string ModelInfo;
  model : jsval;
  max_tokens : Z;
  temperature : number
}.

Definition registry : gmap string ModelInfo :=
  list_to_map
    [ ("claude-sonnet-4-5-20250929",
       MkModelInfo "Claude Sonnet 4.5"
         "Latest & most intelligent - exceptional agent & coding capabilities"
         "$3/$15 per MTok" (Some true) None None);
      ("claude-opus-4-1-20250805",
       MkModelInfo "Claude Opus 4.1"
         "Premium model for complex tasks requiring advanced reasoning"
         "$15/$75 per MTok" None (Some true) None);
      ("claude-sonnet-4-20250514",
       MkModelInfo "Claude Sonnet 4"
         "Balanced performance - current default"
         "$3/$15 per MTok" None None None);
      ("claude-3-5-haiku-20241022",
       MkModelInfo "Claude Haiku 3.5"
         "Fast & cost-effective for quick responses"
         "$0.80/$4 per MTok" None None (Some true)) ].

(** [new TextTransformAPI(apiKey)]. *)
Definition constructor : TextTransformAPI :=
  {| availableModels := registry;
     model := JStr "claude-sonnet-4-5-20250929";
     max_tokens := 1000;
     temperature := MkNumber true "0.3" |}.

(** [this.availableModels[key]]: the key is converted to a property key,
    then the read looks at the own properties of the registry and, failing
    that, at what the object literal inherits. *)
Definition lookup_model (this : TextTransformAPI) (key : jsval) : completion member :=
  let* k := to_string key in
  Normal (match availableModels this !! k with
          | Some m => Own m
          | None => if bool_decide (k ∈ Object_prototype) then Inherited k else Absent
          end).

Definition setModel (this : TextTransformAPI) (modelId : jsval)
  : completion (bool * TextTransformAPI) :=
  let* m := lookup_model this modelId in
  if member_truthy m then
    Normal (true, {| availableModels := availableModels this;
                     model := modelId;
                     max_tokens := max_tokens this;
                     temperature := temperature this |})
  else Normal (false, this).

(** The instance as a function finds it when it resumes after an [await],
    the calls [setModel(i)] for the [i] of [ids] having been made in the
    meantime; a call that throws leaves the instance as it was. *)
Fixpoint resumed (this : TextTransformAPI) (ids : list jsval) : TextTransformAPI :=
  match ids with
  | [] => this
  | i :: r =>
      match setModel this i with
      | Normal (_, this') => resumed this' r
      | Throw _ => resumed this r
      end
  end.

Definition getAvailableModels (this : TextTransformAPI) : gmap string ModelInfo :=
  availableModels this.

(** [{ id: this.model, ...this.availableModels[this.model] }]. *)
Record CurrentModel := MkCurrentModel {
  id : jsval;
  info : option ModelInfo
}.

Definition getCurrentModel (this : TextTransformAPI) : completion CurrentModel :=
  let* m := lookup_model this (model this) in
  Normal {| id := model this; info := member_props m |}.

(** *** Prompt templates *)

Definition articulate_head : string :=
  lines
    [ "Du bist ein erfahrener Copywriter, spezialisiert darauf, rohe Gedankenstrukturen und fragmentierte Ideen in vollständig ausformulierte, fließende Texte zu verwandeln.";
      "";
      "DEINE AUFGABE:";
      "Nimm die gegebene Struktur aus Gedankenfragmenten, Stichpunkten oder groben Ideen und entwickle daraus einen vollständig ausformulierten, kohärenten Text.";
      "";
      "TRANSFORMATION PRINCIPLES:";
      "• Erkenne die beabsichtigte Gedankenfolge und logische Struktur";
      "• Schaffe natürliche Übergänge zwischen den Gedanken";
      "• Fülle Lücken in der Argumentation intelligent aus";
      "• Entwickle jeden Punkt zu vollständigen, fließenden Sätzen";
      "• Wahre die ursprüngliche Intention und Reihenfolge";
      "• Erschaffe einen natürlichen, lesbaren Textfluss";
      "";
      "INDUKTIVES COPYWRITING-PRINZIP (besonders bei längeren Texten):";
      "• Jeder Satz soll genügend Neugier für den nächsten Satz erzeugen";
      "• Schaffe eine " ++ dq ++ "Satz-zu-Satz-Induktion" ++ dq ++ ": Verwende offene Schleifen, Andeutungen oder Versprechungen, die den Leser weiterlesen lassen";
      "• Vermeide vorzeitige Auflösung - baue schrittweise Spannung und Interesse auf";
      "• Nutze Cliffhanger-Elemente am Satzende, um nahtlose Übergänge zu schaffen";
      "• Implementiere dieses Prinzip organisch - nie zwanghaft oder künstlich";
      "• Denke an Eugene Schwartz' Fundamental: Der Zweck jedes Satzes ist es, den nächsten gelesen zu bekommen";
      "";
      "" ].

Definition refine_head : string :=
  lines
    [ "Du bist ein Textredakteur und Copy-Editor mit höchsten Qualitätsstandards. Deine Expertise liegt darin, bestehende Texte zu perfektionieren, ohne deren Kernaussage oder Persönlichkeit zu verändern.";
      "";
      "DEINE AUFGABE:";
      "Verfeinere den gegebenen Text durch Verbesserung von Formulierung, Stil, Grammatik und Fluss, während du die ursprüngliche Intention vollständig bewahrst.";
      "";
      "VERFEINERUNGS-PRINZIPIEN:";
      "• Korrigiere grammatische und stilistische Fehler";
      "• Optimiere Wortwahl und Satzstrukturen";
      "• Verbessere Lesbarkeit und Textfluss";
      "• Entferne Redundanzen und Füllwörter";
      "• Verstärke Klarheit und Prägnanz";
      "• Bewahre die ursprüngliche Stimme und Persönlichkeit";
      "• Halte alle Fakten und Kernaussagen bei";
      "";
      "" ].

Definition edit_head : string :=
  lines
    [ "Du bist ein professioneller Text-Editor mit höchster Präzision. Deine Aufgabe ist es, den gegebenen Text exakt nach den spezifischen Anweisungen zu bearbeiten.";
      "";
      "DEINE AUFGABE:";
      "Führe die gegebene Bearbeitungsanweisung am Text präzise aus, ohne die grundlegende Intention oder den Kontext zu verändern.";
      "";
      "BEARBEITUNGS-PRINZIPIEN:";
      "• Befolge die Anweisung exakt und vollständig";
      "• Behalte die ursprüngliche Bedeutung bei, außer explizit anders angewiesen";
      "• Mache nur die angeforderten Änderungen";
      "• Bewahre den ursprünglichen Stil, außer er soll geändert werden";
      "• Bei unklaren Anweisungen, interpretiere im Kontext des Textes";
      "• Arbeite präzise und zielgerichtet";
      "";
      "" ].

Definition generic_system : string :=
  lines
    [ "Du bist ein professioneller Texting-Assistent. Deine Aufgabe ist es, den gegebenen Text gemäß der spezifischen Anweisung umzuformen.";
      "";
      "Regeln:";
      "- Gib NUR den umgeformten Text zurück, keine Erklärungen oder zusätzlichen Kommentare";
      "- Bewahre die ursprüngliche Bedeutung und Absicht soweit möglich";
      "- Behalte den angemessenen Ton und Stil für den Kontext bei";
      "- Falls die Anweisung unklar ist, interpretiere sie bestmöglich" ].

Definition articulate_tail : string :=
  "OUTPUT: Nur der vollständig ausformulierte Text, keine Erklärungen.".

Definition refine_tail : string :=
  "OUTPUT: Nur der verfeinerte Text, keine Erklärungen.".

Definition edit_tail : string :=
  "OUTPUT: Nur der bearbeitete Text, keine Erklärungen oder Kommentare.".


(** The block a system prompt holds for a style guide [g]; [noun] is the
    word in which the three templates differ. *)
Definition style_block_text (noun g : string) : string :=
  lines
    [ "STIL-VORGABEN:";
      "Befolge diesen Style Guide bei der " ++ noun ++ ":";
      g;
      "";
      "Achte besonders auf:";
      "- Konsistenz mit den Stil-Beispielen";
      "- Einhaltung der definierten Regeln";
      "- Beibehaltung des charakteristischen Tons";
      "";
      "" ].

(** [${selectedStyleGuide ? `...${selectedStyleGuide}...` : ''}]. *)
Definition style_block (noun : string) (selectedStyleGuide : jsval) : completion string :=
  if truthy selectedStyleGuide then
    let* g := to_string selectedStyleGuide in
    Normal (style_block_text noun g)
  else Normal "".

(** The style guide a request selects. *)
Definition select_style_guide (additionalParams : jsval) : completion jsval :=
  let* styleGuide := get "styleGuide" additionalParams in
  if truthy styleGuide then
    let* dual := (if (typeof styleGuide =? "object")%string
                  then get "comprehensiveGuide" styleGuide
                  else Normal (JBool false)) in
    if truthy dual then
      let* kind := get "systemPrompt" additionalParams in
      if is_str "articulate" kind then get "comprehensiveGuide" styleGuide
      else
        let* concise := get "conciseGuide" styleGuide in
        if truthy concise then Normal concise
        else get "comprehensiveGuide" styleGuide
    else
      if (typeof styleGuide =? "string")%string then Normal styleGuide
      else get "styleGuide" styleGuide
  else Normal JNull.

Definition system_prompt (additionalParams selectedStyleGuide : jsval) : completion string :=
  let* kind := get "systemPrompt" additionalParams in
  if is_str "articulate" kind then
    let* block := style_block "Ausformulierung" selectedStyleGuide in
    Normal (articulate_head ++ block ++ articulate_tail)
  else if is_str "refine" kind then
    let* block := style_block "Verfeinerung" selectedStyleGuide in
    Normal (refine_head ++ block ++ refine_tail)
  else if is_str "edit" kind then
    let* block := style_block "Bearbeitung" selectedStyleGuide in
    Normal (edit_head ++ block ++ edit_tail)
  else Normal generic_system.

Definition user_header (kind : jsval) : string :=
  if is_str "articulate" kind then "ROHE GEDANKENSTRUKTUR:"
  else if is_str "refine" kind then "TEXT ZUM VERFEINERN:"
  else if is_str "edit" kind then "TEXT ZUM BEARBEITEN:"
  else "Forme diesen Text um:".

Definition user_task (kind : jsval) : string :=
  if is_str "articulate" kind then
    "Transformiere diese rohe Struktur in einen vollständig ausformulierten, fließenden Text."
  else if is_str "refine" kind then
    "Verfeinere diesen Text durch Verbesserung von Formulierung, Stil und Fluss."
  else if is_str "edit" kind then
    "Führe die Bearbeitungsanweisung präzise am Text aus."
  else "Forme den Text entsprechend der Anweisung um.".

Definition user_prompt (text instruction additionalParams : jsval) : completion string :=
  let* kind := get "systemPrompt" additionalParams in
  let* t := to_string text in
  let* i := to_string instruction in
  let* context := get "context" additionalParams in
  let* kontext := (if truthy context then
                     let* c := to_string context in
                     Normal (lines [ "KONTEXT (Gesamter Text im Editor):"; c ])
                   else Normal "") in
  Normal (lines
            [ user_header kind;
              quoted t;
              "";
              "ANWEISUNGEN:";
              i;
              "";
              kontext;
              "";
              "AUFGABE: " ++ user_task kind ]).

(** *** transform

    [this.model] is read twice: for the request, before the [await], and for
    the result, after it. *)

Record TransformResult := MkTransformResult {
  success : bool;
  error : option string;
  originalText : jsval;
  transformedText : option string;
  instruction : jsval;
  result_model : option jsval;
  timestamp : string
}.

(** The object the [catch] block returns. *)
Definition failure (env : Env) (e : Error) (text instruction : jsval) : TransformResult :=
  {| success := false;
     error := Some (message e);
     originalText := text;
     transformedText := None;
     instruction := instruction;
     result_model := None;
     timestamp := now env |}.

(** The system prompt of a request: the style guide is selected, then the
    template of the request is filled. *)
Definition build_system_prompt (additionalParams : jsval) : completion string :=
  let* selectedStyleGuide := select_style_guide additionalParams in
  system_prompt additionalParams selectedStyleGuide.

(** The argument of [client.messages.create], with everything that is
    evaluated before the call. *)
Definition transform_request (this : TextTransformAPI)
  (text instruction additionalParams : jsval) : completion ProviderRequest :=
  let* systemPrompt := build_system_prompt additionalParams in
  let* userPrompt := user_prompt text instruction additionalParams in
  let* t := get "temperature" additionalParams in
  Normal {| rq_model := model this;
            rq_max_tokens := max_tokens this;
            rq_temperature := js_or t (JNum (temperature this));
            rq_system := systemPrompt;
            rq_user := userPrompt |}.

(** [message.content[0].text.trim()]. *)
Definition response_text (message : jsval) : completion string :=
  let* content := get "content" message in
  let* first := get0 content in
  let* text := get "text" first in
  call_trim "message.content[0].text" text.

Definition transform (this : TextTransformAPI) (env : Env)
  (text instruction additionalParams : jsval) : promise TransformResult * trace :=
  let additionalParams := or_default additionalParams (JObj []) in
  match transform_request this text instruction additionalParams with
  | Throw e => (Fulfilled (failure env e text instruction), [])
  | Normal request =>
      match create env request with
      | Rejected e => (Fulfilled (failure env e text instruction), [request])
      | Fulfilled message =>
          match response_text message with
          | Throw e => (Fulfilled (failure env e text instruction), [request])
          | Normal transformedText =>
              (Fulfilled {| success := true;
                            error := None;
                            originalText := text;
                            transformedText := Some transformedText;
                            instruction := instruction;
                            result_model := Some (model (resumed this (meanwhile env)));
                            timestamp := now env |},
               [request])
          end
      end
  end.

Definition articulate_instruction : string :=
  "Entwickle aus der gegebenen Gedankenstruktur einen vollständig ausformulierten, fließenden Text. Schaffe natürliche Übergänge, fülle logische Lücken und verwandle Fragmente in kohärente, überzeugende Prosa.".

Definition refine_instruction : string :=
  "Verfeinere diesen Text durch Optimierung von Formulierung, Grammatik und Stil. Verbessere Klarheit und Lesbarkeit, während du die ursprüngliche Aussage und den Charakter des Textes vollständig bewahrst.".

Definition articulate (this : TextTransformAPI) (env : Env)
  (text additionalParams : jsval) : promise TransformResult * trace :=
  let additionalParams := or_default additionalParams (JObj []) in
  transform this env text (JStr articulate_instruction)
    (spread_with additionalParams "systemPrompt" (JStr "articulate")).

Definition refine (this : TextTransformAPI) (env : Env)
  (text additionalParams : jsval) : promise TransformResult * trace :=
  let additionalParams := or_default additionalParams (JObj []) in
  transform this env text (JStr refine_instruction)
    (spread_with additionalParams "systemPrompt" (JStr "refine")).

(** The guard of [edit]: [!instruction || !instruction.trim()], then the
    trimmed instruction. *)
Definition edit_instruction (instruction : jsval) : completion string :=
  if negb (truthy instruction) then
    Throw (MkError "EDIT function requires a specific instruction")
  else
    let* trimmed := call_trim "instruction" instruction in
    if (trimmed =? "")%string then
      Throw (MkError "EDIT function requires a specific instruction")
    else Normal trimmed.

Definition edit (this : TextTransformAPI) (env : Env)
  (text instruction additionalParams : jsval) : promise TransformResult * trace :=
  let additionalParams := or_default additionalParams (JObj []) in
  match edit_instruction instruction with
  | Throw e => (Rejected e, [])
  | Normal trimmed =>
      transform this env text (JStr trimmed)
        (spread_with additionalParams "systemPrompt" (JStr "edit"))
  end.

(** *** generateStyleGuide *)

Definition style_guide_system : string :=
  lines
    [ "Du bist ein Experte für Textanalyse und Stil-Dokumentation. Deine Aufgabe ist es, aus gegebenem Beispieltext zwei komplementäre Style Guides zu erstellen, die für verschiedene Arten der Textproduktion verwendet werden.";
      "";
      "AUFGABE:";
      "Analysiere den gegebenen Beispieltext gründlich und erstelle ZWEI Style Guides: einen umfassenden für Grund-Textentwicklung und einen präzisen für Textverfeinerung. Der Output soll eine umfassende Charakterisierung des Stils und nichts anderem! Der Inhalt ist völlig irrelevant. Dazu zählt auch alles struktur-inhaltliche. Der Output-Prompt soll zum Beispiel nicht dahin leiten, zum Anfang einen bestimmten strukturellen Inhalt zu erzwingen. Es geht um alles, was den Text beschreibt und nicht inhaltlich ist - also alles stilistische.";
      "";
      "ANALYSE-ASPEKTE:";
      "• Tonfall und Stimmung";
      "• Satzstruktur und -länge";
      "• Wortwahl und Vokabular";
      "• Stilistische Besonderheiten";
      "• Zielgruppe und Ansprache (keine inhaltlichen Angaben!)";
      "• Formalitätsgrad";
      "• Rhetorische Mittel";
      "";
      "OUTPUT FORMAT:";
      "=== UMFASSENDER STYLE GUIDE (für Grund-Textentwicklung) ===";
      "";
      "● TON: [Beschreibung des charakteristischen Tons]";
      "● STIL-MERKMALE: [Spezifische stilistische Charakteristika]";
      "● BEISPIELE: [3-5 konkrete, repräsentative Textausschnitte aus dem Original - achte darauf, zwingend im Output zu betonen, dass diese Beispiele nicht als inhaltliche Beispiele zu sehen sind, sondern ausschließlich für das Stilverständnis.]";
      "● SCHREIBREGELN: [Konkrete Regeln für konsistente Textproduktion]";
      "● WORTWAHL: [Typische Begriffe, Wendungen und Formulierungsmuster]";
      "● VERMEIDEN: [Was nicht zu diesem Stil passt]";
      "";
      "=== PRÄZISER STYLE GUIDE (für Textverfeinerung) ===";
      "";
      "● TON: [Kernaspekte des Tons - kompakt]";
      "● SATZSTRUKTUR: [Bevorzugte Länge und Rhythmus]";
      "● WORTWAHL: [Schlüsselbegriffe und typische Wendungen]";
      "● FORMALITÄT: [Grad der Förmlichkeit]";
      "● VERMEIDEN: [Wichtigste Stil-Fallen]";
      "";
      "WICHTIG: Beide Style Guides sollen konkret und anwendbar sein, damit andere Texte im gleichen Stil erstellt werden können. Der umfassende Guide dient der Grund-Textentwicklung, der präzise Guide der gezielten Verfeinerung." ].

Definition style_guide_user (exampleText additionalInstructions : jsval) : completion string :=
  let* e := to_string exampleText in
  let* extra := (if truthy additionalInstructions then
                   let* a := to_string additionalInstructions in
                   Normal (lines [ "ZUSÄTZLICHE ANWEISUNGEN:"; a; ""; "" ])
                 else Normal "") in
  Normal (lines
            [ "BEISPIELTEXT ZUM ANALYSIEREN:";
              quoted e;
              "";
              extra ++ "AUFGABE: Erstelle BEIDE Style Guides (umfassend + präzise) basierend auf diesem Beispieltext." ]).

(** [/=== UMFASSENDER STYLE GUIDE.*?===(.*?)(?==== PRÄZISER STYLE GUIDE|$)/s] *)
Definition comprehensive_pattern : regex :=
  RSeq (RLit "=== UMFASSENDER STYLE GUIDE")
    (RSeq RLazyAny
       (RSeq (RLit "===")
          (RSeq (RGroup RLazyAny)
             (RLook (RAlt (RLit "=== PRÄZISER STYLE GUIDE") REnd))))).

(** [/=== PRÄZISER STYLE GUIDE.*?===(.*?)$/s] *)
Definition concise_pattern : regex :=
  RSeq (RLit "=== PRÄZISER STYLE GUIDE")
    (RSeq RLazyAny
       (RSeq (RLit "===")
          (RSeq (RGroup RLazyAny) REnd))).

(** Element 1 of a match array. *)
Definition group1 (c : capture) : jsval :=
  match c with
  | Some s => JStr s
  | None => JUndefined
  end.

(** [m ? m[1].trim() : otherwise]. *)
Definition guide_of (src : string) (m : option capture) (otherwise : string) : completion string :=
  match m with
  | Some c => call_trim src (group1 c)
  | None => Normal otherwise
  end.

(** The two guides the response is parsed into. *)
Definition parse_guides (fullResponse : string) : completion (string * string) :=
  let comprehensiveMatch := js_match comprehensive_pattern fullResponse in
  let conciseMatch := js_match concise_pattern fullResponse in
  let* comprehensiveGuide := guide_of "comprehensiveMatch[1]" comprehensiveMatch fullResponse in
  let* conciseGuide := guide_of "conciseMatch[1]" conciseMatch "" in
  Normal (comprehensiveGuide, conciseGuide).

Record StyleGuideResult := MkStyleGuideResult {
  sg_success : bool;
  sg_error : option string;
  styleGuide : option string;
  comprehensiveGuide : option string;
  conciseGuide : option string;
  fullResponse : option string;
  exampleText : jsval;
  additionalInstructions : option jsval;
  sg_model : option jsval;
  sg_timestamp : string
}.

Definition sg_failure (env : Env) (e : Error) (exampleText : jsval) : StyleGuideResult :=
  {| sg_success := false;
     sg_error := Some (message e);
     styleGuide := None;
     comprehensiveGuide := None;
     conciseGuide := None;
     fullResponse := None;
     exampleText := exampleText;
     additionalInstructions := None;
     sg_model := None;
     sg_timestamp := now env |}.

Definition style_guide_request (this : TextTransformAPI)
  (exampleText additionalInstructions : jsval) : completion ProviderRequest :=
  let* userPrompt := style_guide_user exampleText additionalInstructions in
  Normal {| rq_model := model this;
            rq_max_tokens := 6000;
            rq_temperature := JNum (MkNumber true "0.3");
            rq_system := style_guide_system;
            rq_user := userPrompt |}.

Definition generateStyleGuide (this : TextTransformAPI) (env : Env)
  (exampleText additionalInstructions : jsval) : promise StyleGuideResult * trace :=
  let additionalInstructions := or_default additionalInstructions (JStr "") in
  match style_guide_request this exampleText additionalInstructions with
  | Throw e => (Fulfilled (sg_failure env e exampleText), [])
  | Normal request =>
      match create env request with
      | Rejected e => (Fulfilled (sg_failure env e exampleText), [request])
      | Fulfilled message =>
          match (let* full := response_text message in
                 let* guides := parse_guides full in
                 Normal (full, guides)) with
          | Throw e => (Fulfilled (sg_failure env e exampleText), [request])
          | Normal (full, (comprehensive, concise)) =>
              (Fulfilled {| sg_success := true;
                            sg_error := None;
                            styleGuide := Some comprehensive;
                            comprehensiveGuide := Some comprehensive;
                            conciseGuide := Some concise;
                            fullResponse := Some full;
                            exampleText := exampleText;
                            additionalInstructions := Some additionalInstructions;
                            sg_model := Some (model (resumed this (meanwhile env)));
                            sg_timestamp := now env |},
               [request])
          end
      end
  end.

(** *** validateConnection

    The provider answers the probe as it answers any other call of
    [client.messages.create]; [probe] is that answer, and [meanwhile] are
    the identifiers of the calls of [setModel] made while the probe is
    pending. *)

Record ConnectionResult := MkConnectionResult {
  cn_success : bool;
  cn_message : option string;
  cn_model : option jsval;
  cn_error : option string
}.

Definition validateConnection (this : TextTransformAPI)
  (probe : ProbeRequest -> promise jsval) (meanwhile : list jsval)
  : promise ConnectionResult * list ProbeRequest :=
  let request := {| pb_model := model this; pb_max_tokens := 10; pb_user := "Hello" |} in
  match probe request with
  | Fulfilled testMessage =>
      (Fulfilled {| cn_success := true;
                    cn_message := Some "API connection successful";
                    cn_model := Some (model (resumed this meanwhile));
                    cn_error := None |},
       [request])
  | Rejected e =>
      (Fulfilled {| cn_success := false;
                    cn_message := None;
                    cn_model := None;
                    cn_error := Some (message e) |},
       [request])
  end.

(** *** The functions the module exports

    [apiInstance] is the module variable: [None] is its initial [null]. *)

Module Exports.

Definition uninitialized : Error :=
  MkError "API not initialized. Call initializeAPI() first.".

Definition initializeAPI : option TextTransformAPI := Some constructor.

Definition articulateText (apiInstance : option TextTransformAPI) (env : Env)
  (text options : jsval) : promise TransformResult * trace :=
  match apiInstance with
  | None => (Rejected uninitialized, [])
  | Some api => articulate api env text (or_default options (JObj []))
  end.

Definition refineText (apiInstance : option TextTransformAPI) (env : Env)
  (text options : jsval) : promise TransformResult * trace :=
  match apiInstance with
  | None => (Rejected uninitialized, [])
  | Some api => refine api env text (or_default options (JObj []))
  end.

Definition editText (apiInstance : option TextTransformAPI) (env : Env)
  (text instruction options : jsval) : promise TransformResult * trace :=
  match apiInstance with
  | None => (Rejected uninitialized, [])
  | Some api => edit api env text instruction (or_default options (JObj []))
  end.

Definition generateStyleGuide (apiInstance : option TextTransformAPI) (env : Env)
  (exampleText additionalInstructions : jsval) : promise StyleGuideResult * trace :=
  match apiInstance with
  | None => (Rejected uninitialized, [])
  | Some api =>
      Api.generateStyleGuide api env exampleText (or_default additionalInstructions (JStr ""))
  end.

(** The three functions that are not [async]: a throw in them is a throw at
    the call.  [setModel] also gives the instance as the call leaves it. *)
Definition setModel (apiInstance : option TextTransformAPI) (modelId : jsval)
  : completion (bool * TextTransformAPI) :=
  match apiInstance with
  | None => Throw uninitialized
  | Some api => Api.setModel api modelId
  end.

Definition getAvailableModels (apiInstance : option TextTransformAPI)
  : completion (gmap string ModelInfo) :=
  match apiInstance with
  | None => Throw uninitialized
  | Some api => Normal (Api.getAvailableModels api)
  end.

Definition getCurrentModel (apiInstance : option TextTransformAPI)
  : completion CurrentModel :=
  match apiInstance with
  | None => Throw uninitialized
  | Some api => Api.getCurrentModel api
  end.

End Exports.

End Api.

(** * The revision of the Transform Client with a JSON template mode

    A second revision of the Transform Client is among the sources.  It
    selects the style guide and parses the style-guide response with the same
    code as [src/api.js] ([Api.select_style_guide], [Api.parse_guides]); its
    templates have more text and an optional block for the JSON template
    mode. *)

Module ApiJsonMode.

Definition articulate_intro : string :=
  lines
    [ "Du bist ein erfahrener Copywriter, spezialisiert darauf, rohe Gedankenstrukturen und fragmentierte Ideen in vollständig ausformulierte, fließende Texte zu verwandeln.";
      "";
      "DEINE AUFGABE:";
      "Nimm AUSSCHLIESSLICH die gegebene Struktur aus Gedankenfragmenten, Stichpunkten oder groben Ideen und entwickle daraus einen vollständig ausformulierten, kohärenten Text. Du darfst NICHT den Kontext oder andere Textteile bearbeiten - nur den spezifisch markierten Text.";
      "";
      "" ].

Definition articulate_json_mode : string :=
  lines
    [ "JSON TEMPLATE MODUS:";
      "Du arbeitest mit einem JSON-Template für Advertorial-Seiten. Der Kontext enthält technische JSON-Struktur, aber du sollst AUSSCHLIESSLICH den markierten Copy-Text transformieren. Ignoriere alle JSON-Syntax, technischen Felder, URLs, Dateipfade, Variablennamen und strukturelle Elemente. Konzentriere dich NUR auf den Marketing-Copy-Inhalt.";
      "";
      "WICHTIG: Du transformierst NUR den selektierten Copy-Text, nicht die JSON-Struktur!";
      "";
      "" ].

Definition articulate_principles : string :=
  lines
    [ "TRANSFORMATION PRINCIPLES:";
      "• Erkenne die beabsichtigte Gedankenfolge und logische Struktur";
      "• Schaffe natürliche Übergänge zwischen den Gedanken";
      "• Fülle Lücken in der Argumentation intelligent aus";
      "• Entwickle jeden Punkt zu vollständigen, fließenden Sätzen";
      "• Wahre die ursprüngliche Intention und Reihenfolge";
      "• Erschaffe einen natürlichen, lesbaren Textfluss";
      "";
      "INDUKTIVES COPYWRITING-PRINZIP (besonders bei längeren Texten):";
      "• Jeder Satz soll genügend Neugier für den nächsten Satz erzeugen";
      "• Schaffe eine " ++ dq ++ "Satz-zu-Satz-Induktion" ++ dq ++ ": Verwende offene Schleifen, Andeutungen oder Versprechungen, die den Leser weiterlesen lassen";
      "• Vermeide vorzeitige Auflösung - baue schrittweise Spannung und Interesse auf";
      "• Nutze Cliffhanger-Elemente am Satzende, um nahtlose Übergänge zu schaffen";
      "• Implementiere dieses Prinzip organisch - nie zwanghaft oder künstlich";
      "• Denke an Eugene Schwartz' Fundamental: Der Zweck jedes Satzes ist es, den nächsten gelesen zu bekommen";
      "";
      "" ].

Definition articulate_tail : string :=
  lines
    [ "WICHTIGE OUTPUT-REGEL:";
      "Du darfst AUSSCHLIESSLICH den transformierten Text ausgeben. Keine Einleitungen, keine Erklärungen, keine Kommentare, keine Anführungszeichen, keine Formatierungshinweise - nur der reine, ausformulierte Text.";
      "";
      "Beginne sofort mit dem ersten Wort des transformierten Textes und höre mit dem letzten Wort auf." ].

Definition refine_intro : string :=
  lines
    [ "Du bist ein Textredakteur und Copy-Editor mit höchsten Qualitätsstandards. Deine Expertise liegt darin, bestehende Texte zu perfektionieren, ohne deren Kernaussage oder Persönlichkeit zu verändern.";
      "";
      "DEINE AUFGABE:";
      "Verfeinere AUSSCHLIESSLICH den gegebenen markierten Text durch Verbesserung von Formulierung, Stil, Grammatik und Fluss, während du die ursprüngliche Intention vollständig bewahrst. Du darfst NICHT den Kontext oder andere Textteile bearbeiten - nur den spezifisch markierten Text.";
      "";
      "" ].

Definition refine_json_mode : string :=
  lines
    [ "JSON TEMPLATE MODUS:";
      "Du arbeitest mit einem JSON-Template für Advertorial-Seiten. Der Kontext enthält technische JSON-Struktur, aber du sollst AUSSCHLIESSLICH den markierten Copy-Text verfeinern. Ignoriere alle JSON-Syntax, technischen Felder, URLs, Dateipfade, Variablennamen und strukturelle Elemente. Konzentriere dich NUR auf die Verbesserung des Marketing-Copy-Inhalts.";
      "";
      "WICHTIG: Du verfeinerst NUR den selektierten Copy-Text, nicht die JSON-Struktur!";
      "";
      "" ].

Definition refine_principles : string :=
  lines
    [ "VERFEINERUNGS-PRINZIPIEN:";
      "• Korrigiere grammatische und stilistische Fehler";
      "• Optimiere Wortwahl und Satzstrukturen";
      "• Verbessere Lesbarkeit und Textfluss";
      "• Entferne Redundanzen und Füllwörter";
      "• Verstärke Klarheit und Prägnanz";
      "• Bewahre die ursprüngliche Stimme und Persönlichkeit";
      "• Halte alle Fakten und Kernaussagen bei";
      "";
      "" ].

Definition refine_tail : string :=
  lines
    [ "WICHTIGE OUTPUT-REGEL:";
      "Du darfst AUSSCHLIESSLICH den verfeinerten Text ausgeben. Keine Einleitungen, keine Erklärungen, keine Kommentare, keine Anführungszeichen, keine Formatierungshinweise - nur der reine, verbesserte Text.";
      "";
      "Beginne sofort mit dem ersten Wort des verfeinerten Textes und höre mit dem letzten Wort auf." ].

Definition edit_intro : string :=
  lines
    [ "Du bist ein professioneller Text-Editor mit höchster Präzision. Deine Aufgabe ist es, den gegebenen Text exakt nach den spezifischen Anweisungen zu bearbeiten.";
      "";
      "DEINE AUFGABE:";
      "Führe die gegebene Bearbeitungsanweisung AUSSCHLIESSLICH am markierten Text präzise aus, ohne die grundlegende Intention oder den Kontext zu verändern. Du darfst NICHT den Kontext oder andere Textteile bearbeiten - nur den spezifisch markierten Text.";
      "";
      "" ].

Definition edit_json_mode : string :=
  lines
    [ "JSON TEMPLATE MODUS:";
      "Du arbeitest mit einem JSON-Template für Advertorial-Seiten. Der Kontext enthält technische JSON-Struktur, aber du sollst AUSSCHLIESSLICH den markierten Copy-Text nach der Anweisung bearbeiten. Ignoriere alle JSON-Syntax, technischen Felder, URLs, Dateipfade, Variablennamen und strukturelle Elemente. Konzentriere dich NUR auf die Bearbeitung des Marketing-Copy-Inhalts.";
      "";
      "WICHTIG: Du bearbeitest NUR den selektierten Copy-Text, nicht die JSON-Struktur!";
      "";
      "" ].

Definition edit_principles : string :=
  lines
    [ "BEARBEITUNGS-PRINZIPIEN:";
      "• Befolge die Anweisung exakt und vollständig";
      "• Behalte die ursprüngliche Bedeutung bei, außer explizit anders angewiesen";
      "• Mache nur die angeforderten Änderungen";
      "• Bewahre den ursprünglichen Stil, außer er soll geändert werden";
      "• Bei unklaren Anweisungen, interpretiere im Kontext des Textes";
      "• Arbeite präzise und zielgerichtet";
      "";
      "" ].

Definition edit_tail : string :=
  lines
    [ "WICHTIGE OUTPUT-REGEL:";
      "Du darfst AUSSCHLIESSLICH den bearbeiteten Text ausgeben. Keine Einleitungen, keine Erklärungen, keine Kommentare, keine Anführungszeichen, keine Formatierungshinweise - nur der reine, bearbeitete Text.";
      "";
      "Beginne sofort mit dem ersten Wort des bearbeiteten Textes und höre mit dem letzten Wort auf." ].

Definition generic_system : string :=
  lines
    [ "Du bist ein professioneller Texting-Assistent. Deine Aufgabe ist es, den gegebenen Text gemäß der spezifischen Anweisung umzuformen.";
      "";
      "Regeln:";
      "- Bewahre die ursprüngliche Bedeutung und Absicht soweit möglich";
      "- Behalte den angemessenen Ton und Stil für den Kontext bei";
      "- Falls die Anweisung unklar ist, interpretiere sie bestmöglich";
      "";
      "WICHTIGE OUTPUT-REGEL:";
      "Du darfst AUSSCHLIESSLICH den umgeformten Text ausgeben. Keine Einleitungen, keine Erklärungen, keine Kommentare, keine Anführungszeichen, keine Formatierungshinweise - nur der reine, umgeformte Text.";
      "";
      "Beginne sofort mit dem ersten Wort des umgeformten Textes und höre mit dem letzten Wort auf." ].

(** [${additionalParams.mode === 'json' ? `...` : ''}]. *)
Definition json_mode (block : string) (mode : jsval) : string :=
  if is_str "json" mode then block else "".

Definition system_prompt (additionalParams selectedStyleGuide : jsval) : completion string :=
  let* kind := get "systemPrompt" additionalParams in
  if is_str "articulate" kind then
    let* mode := get "mode" additionalParams in
    let* block := Api.style_block "Ausformulierung" selectedStyleGuide in
    Normal (articulate_intro ++ json_mode articulate_json_mode mode
            ++ articulate_principles ++ block ++ articulate_tail)
  else if is_str "refine" kind then
    let* mode := get "mode" additionalParams in
    let* block := Api.style_block "Verfeinerung" selectedStyleGuide in
    Normal (refine_intro ++ json_mode refine_json_mode mode
            ++ refine_principles ++ block ++ refine_tail)
  else if is_str "edit" kind then
    let* mode := get "mode" additionalParams in
    let* block := Api.style_block "Bearbeitung" selectedStyleGuide in
    Normal (edit_intro ++ json_mode edit_json_mode mode
            ++ edit_principles ++ block ++ edit_tail)
  else Normal generic_system.

Definition build_system_prompt (additionalParams : jsval) : completion string :=
  let* selectedStyleGuide := Api.select_style_guide additionalParams in
  system_prompt additionalParams selectedStyleGuide.

(** *** transform

    This revision also reads [max_tokens] from the parameters of a request,
    so the request carries a JavaScript value there. *)

Record TextTransformAPI := MkTextTransformAPI {
  availableModels : gmap string ModelInfo;
  model : jsval;
  max_tokens : number;
  temperature : number
}.

Definition constructor : TextTransformAPI :=
  {| availableModels := Api.registry;
     model := JStr "claude-sonnet-4-5-20250929";
     max_tokens := MkNumber true "8000";
     temperature := MkNumber true "0.3" |}.

(** [setModel] is the code of [src/api.js]. *)
Definition lookup_model (this : TextTransformAPI) (key : jsval) : completion member :=
  let* k := to_string key in
  Normal (match availableModels this !! k with
          | Some m => Own m
          | None => if bool_decide (k ∈ Object_prototype) then Inherited k else Absent
          end).

Definition setModel (this : TextTransformAPI) (modelId : jsval)
  : completion (bool * TextTransformAPI) :=
  let* m := lookup_model this modelId in
  if member_truthy m then
    Normal (true, {| availableModels := availableModels this;
                     model := modelId;
                     max_tokens := max_tokens this;
                     temperature := temperature this |})
  else Normal (false, this).

(** The instance as [transform] finds it when it resumes after the
    [await], the calls [setModel(i)] for the [i] of [ids] having been made in
    the meantime. *)
Fixpoint resumed (this : TextTransformAPI) (ids : list jsval) : TextTransformAPI :=
  match ids with
  | [] => this
  | i :: r =>
      match setModel this i with
      | Normal (_, this') => resumed this' r
      | Throw _ => resumed this r
      end
  end.

Record Request := MkRequest {
  rq_model : jsval;
  rq_max_tokens : jsval;
  rq_temperature : jsval;
  rq_system : string;
  rq_user : string            (* messages: [{ role: 'user', content }] *)
}.

Record Env := MkEnv {
  create : Request -> promise jsval;
  meanwhile : list jsval;
  now : string
}.

Definition user_header (kind : jsval) : string :=
  if is_str "articulate" kind then "ROHE GEDANKENSTRUKTUR ZUM TRANSFORMIEREN:"
  else if is_str "refine" kind then "TEXT ZUM VERFEINERN:"
  else if is_str "edit" kind then "TEXT ZUM BEARBEITEN:"
  else "Forme diesen Text um:".

Definition marked (kind : jsval) : string :=
  if is_str "articulate" kind then "ROHE GEDANKENSTRUKTUR ZUM TRANSFORMIEREN"
  else if is_str "refine" kind then "TEXT ZUM VERFEINERN"
  else if is_str "edit" kind then "TEXT ZUM BEARBEITEN"
  else "Text".

Definition user_task (kind : jsval) : string :=
  if is_str "articulate" kind then
    "Transformiere NUR die markierte rohe Struktur in einen vollständig ausformulierten, fließenden Text."
  else if is_str "refine" kind then
    "Verfeinere NUR den markierten Text durch Verbesserung von Formulierung, Stil und Fluss."
  else if is_str "edit" kind then
    "Führe die Bearbeitungsanweisung präzise NUR am markierten Text aus."
  else "Forme NUR den markierten Text entsprechend der Anweisung um.".

Definition user_prompt (text instruction additionalParams : jsval) : completion string :=
  let* kind := get "systemPrompt" additionalParams in
  let* t := to_string text in
  let* i := to_string instruction in
  let* context := get "context" additionalParams in
  let* kontext := (if truthy context then
                     let* c := to_string context in
                     Normal (lines
                               [ "KONTEXT (Gesamter Text im Editor - NUR als Referenz, NICHT bearbeiten):";
                                 c;
                                 "";
                                 "WICHTIG: Transformiere AUSSCHLIESSLICH den oben markierten Text (" ++ quoted (marked kind) ++ "). Der Kontext dient nur als Referenz für besseres Verständnis, soll aber NICHT verändert oder mit in die Ausgabe einbezogen werden." ])
                   else Normal "") in
  Normal (lines
            [ user_header kind;
              quoted t;
              "";
              "ANWEISUNGEN:";
              i;
              "";
              kontext;
              "";
              "AUFGABE: " ++ user_task kind ]).

Definition transform_request (this : TextTransformAPI)
  (text instruction additionalParams : jsval) : completion Request :=
  let* systemPrompt := build_system_prompt additionalParams in
  let* userPrompt := user_prompt text instruction additionalParams in
  let* m := get "max_tokens" additionalParams in
  let* t := get "temperature" additionalParams in
  Normal {| rq_model := model this;
            rq_max_tokens := js_or m (JNum (max_tokens this));
            rq_temperature := js_or t (JNum (temperature this));
            rq_system := systemPrompt;
            rq_user := userPrompt |}.

(** The line the revision logs after the answer,
    [`${text.length} → ${transformedText.length} (...)`]: the console is not
    part of the model, but the line is built inside the [try], so what
    matters is whether building it throws.  [text.length] cannot be read on
    [undefined] and [null]; on a string and on an array it is a number; on
    an object it is the member [length], which the template converts to a
    string. *)
Definition length_change (text : jsval) : completion unit :=
  match text with
  | JUndefined | JNull => Throw (read_of_nullish text "length")
  | JObj l =>
      let* _ := to_string (default JUndefined (own "length" l)) in
      Normal tt
  | _ => Normal tt
  end.

Definition failure (env : Env) (e : Error) (text instruction : jsval) : Api.TransformResult :=
  {| Api.success := false;
     Api.error := Some (message e);
     Api.originalText := text;
     Api.transformedText := None;
     Api.instruction := instruction;
     Api.result_model := None;
     Api.timestamp := now env |}.

Definition transform (this : TextTransformAPI) (env : Env)
  (text instruction additionalParams : jsval)
  : promise Api.TransformResult * list Request :=
  let additionalParams := or_default additionalParams (JObj []) in
  match transform_request this text instruction additionalParams with
  | Throw e => (Fulfilled (failure env e text instruction), [])
  | Normal request =>
      match create env request with
      | Rejected e => (Fulfilled (failure env e text instruction), [request])
      | Fulfilled message =>
          match (let* transformedText := Api.response_text message in
                 let* _ := length_change text in
                 Normal transformedText) with
          | Throw e => (Fulfilled (failure env e text instruction), [request])
          | Normal transformedText =>
              (Fulfilled {| Api.success := true;
                            Api.error := None;
                            Api.originalText := text;
                            Api.transformedText := Some transformedText;
                            Api.instruction := instruction;
                            Api.result_model := Some (model (resumed this (meanwhile env)));
                            Api.timestamp := now env |},
               [request])
          end
      end
  end.

(** [{ ...additionalParams, systemPrompt: kind, max_tokens: 8000 }]. *)
Definition with_kind (additionalParams : jsval) (kind : string) : jsval :=
  spread_with (spread_with additionalParams "systemPrompt" (JStr kind))
    "max_tokens" (JNum (MkNumber true "8000")).

Definition articulate (this : TextTransformAPI) (env : Env)
  (text additionalParams : jsval) : promise Api.TransformResult * list Request :=
  let additionalParams := or_default additionalParams (JObj []) in
  transform this env text (JStr Api.articulate_instruction)
    (with_kind additionalParams "articulate").

Definition refine (this : TextTransformAPI) (env : Env)
  (text additionalParams : jsval) : promise Api.TransformResult * list Request :=
  let additionalParams := or_default additionalParams (JObj []) in
  transform this env text (JStr Api.refine_instruction)
    (with_kind additionalParams "refine").

Definition edit (this : TextTransformAPI) (env : Env)
  (text instruction additionalParams : jsval)
  : promise Api.TransformResult * list Request :=
  let additionalParams := or_default additionalParams (JObj []) in
  match Api.edit_instruction instruction with
  | Throw e => (Rejected e, [])
  | Normal trimmed =>
      transform this env text (JStr trimmed) (with_kind additionalParams "edit")
  end.

End ApiJsonMode.

(** * src/api-browser.js

    The browser variant sends the request itself with [fetch].  The
    environment answers a [fetch]: it rejects (a network failure) or gives a
    response with a status, a status text and a body that [response.json()]
    parses or fails to parse. *)

Module Browser.

Record Env := MkEnv {
  fetch : ProviderRequest -> promise FetchResponse;
  now : string
}.

Record TextTransformAPI := MkTextTransformAPI {
  apiKey : jsval;
  model : string;
  max_tokens : Z;
  temperature : number
}.

Definition constructor (apiKey : jsval) : TextTransformAPI :=
  {| apiKey := apiKey;
     model := "claude-3-5-sonnet-20241022";
     max_tokens := 1000;
     temperature := MkNumber true "0.3" |}.

Definition system_prompt : string :=
  lines
    [ "You are a professional copywriting assistant. Your task is to transform the given text according to the specific instruction provided.";
      "";
      "Rules:";
      "- Return ONLY the transformed text, no explanations or additional commentary";
      "- Preserve the original meaning and intent when possible";
      "- Maintain appropriate tone and style for the context";
      "- If the instruction is unclear, make your best interpretation" ].

(** [${v ? `label${v}` : ''}]. *)
Definition hint (label : string) (v : jsval) : completion string :=
  if truthy v then
    let* s := to_string v in
    Normal (label ++ s)
  else Normal "".

Definition user_prompt (text instruction additionalParams : jsval) : completion string :=
  let* t := to_string text in
  let* i := to_string instruction in
  let* context := get "context" additionalParams in
  let* c := hint "Additional context: " context in
  let* tone := get "tone" additionalParams in
  let* o := hint "Desired tone: " tone in
  let* targetLength := get "targetLength" additionalParams in
  let* l := hint "Target length: " targetLength in
  Normal (lines
            [ "Transform this text: " ++ quoted t;
              "";
              "Instruction: " ++ i;
              "";
              c;
              o;
              l ]).

Definition transform_request (this : TextTransformAPI)
  (text instruction additionalParams : jsval) : completion ProviderRequest :=
  let* userPrompt := user_prompt text instruction additionalParams in
  let* t := get "temperature" additionalParams in
  Normal {| rq_model := JStr (model this);
            rq_max_tokens := max_tokens this;
            rq_temperature := js_or t (JNum (temperature this));
            rq_system := system_prompt;
            rq_user := userPrompt |}.

(** The error the [if (!response.ok)] block throws, or the one met on the
    way:
    [errorData = await response.json().catch(() => ({}))], then
    [`API Error ${response.status}: ${errorData.error?.message || response.statusText}`]. *)
Definition api_error (r : FetchResponse) : Error :=
  let errorData := match json r with
                   | Fulfilled v => v
                   | Rejected _ => JObj []
                   end in
  match (let* e := get "error" errorData in
         let* m := match e with
                   | JUndefined | JNull => Normal JUndefined
                   | _ => get "message" e
                   end in
         to_string (js_or m (JStr (statusText r)))) with
  | Normal detail => MkError ("API Error " ++ index_key (status r) ++ ": " ++ detail)
  | Throw e => e
  end.

(** [data.content[0].text.trim()]. *)
Definition response_text (data : jsval) : completion string :=
  let* content := get "content" data in
  let* first := get0 content in
  let* text := get "text" first in
  call_trim "data.content[0].text" text.

Record TransformResult := MkTransformResult {
  success : bool;
  error : option string;
  originalText : jsval;
  transformedText : option string;
  instruction : jsval;
  result_model : option string;
  timestamp : string
}.

Definition failure (env : Env) (e : Error) (text instruction : jsval) : TransformResult :=
  {| success := false;
     error := Some (message e);
     originalText := text;
     transformedText := None;
     instruction := instruction;
     result_model := None;
     timestamp := now env |}.

Definition transform (this : TextTransformAPI) (env : Env)
  (text instruction additionalParams : jsval)
  : promise TransformResult * list ProviderRequest :=
  let additionalParams := or_default additionalParams (JObj []) in
  match transform_request this text instruction additionalParams with
  | Throw e => (Fulfilled (failure env e text instruction), [])
  | Normal request =>
      match fetch env request with
      | Rejected e => (Fulfilled (failure env e text instruction), [request])
      | Fulfilled response =>
          if negb (ok response) then
            (Fulfilled (failure env (api_error response) text instruction), [request])
          else
            match json response with
            | Rejected e => (Fulfilled (failure env e text instruction), [request])
            | Fulfilled data =>
                match response_text data with
                | Throw e => (Fulfilled (failure env e text instruction), [request])
                | Normal transformedText =>
                    (Fulfilled {| success := true;
                                  error := None;
                                  originalText := text;
                                  transformedText := Some transformedText;
                                  instruction := instruction;
                                  result_model := Some (model this);
                                  timestamp := now env |},
                     [request])
                end
            end
      end
  end.

(** [custom] hands its arguments to [transform]. *)
Definition custom (this : TextTransformAPI) (env : Env)
  (text instruction additionalParams : jsval)
  : promise TransformResult * list ProviderRequest :=
  transform this env text instruction (or_default additionalParams (JObj [])).

(** [shorten], [elongate] and [simplify] build their instruction and the
    parameters outside any [try]: a throw there rejects the promise of the
    method, before [transform] is called. *)
Definition shorten_arguments (additionalParams : jsval) : completion (jsval * jsval) :=
  let* targetReduction := get "targetReduction" additionalParams in
  let* aim := (if truthy targetReduction then
                 let* r := to_string targetReduction in
                 Normal ("Aim to reduce length by approximately " ++ r ++ ".")
               else Normal "Aim to reduce length by 30-50%.") in
  let* targetLength := get "targetLength" additionalParams in
  Normal (JStr ("Make this text shorter and more concise. Remove unnecessary words, redundancy, and verbose phrasing while keeping all essential information and meaning. " ++ aim),
          spread_with additionalParams "targetLength"
            (js_or targetLength (JStr "significantly shorter"))).

Definition elongate_arguments (additionalParams : jsval) : completion (jsval * jsval) :=
  let* expansionType := get "expansionType" additionalParams in
  let* how := to_string (js_or expansionType (JStr "Add depth and richness to the content")) in
  let* targetLength := get "targetLength" additionalParams in
  Normal (JStr ("Expand this text by adding relevant details, examples, and elaboration. " ++ how ++ " while maintaining the original message and tone. Do not repeat the same ideas - add genuinely new information."),
          spread_with additionalParams "targetLength"
            (js_or targetLength (JStr "significantly longer"))).

Definition simplify_arguments (additionalParams : jsval) : completion (jsval * jsval) :=
  let* targetAudience := get "targetAudience" additionalParams in
  let* audience := (if truthy targetAudience then
                      let* a := to_string targetAudience in
                      Normal ("Write for " ++ a ++ ".")
                    else Normal "Write for a general audience.") in
  let* tone := get "tone" additionalParams in
  Normal (JStr ("Simplify this text to make it easier to understand. Use simpler words, shorter sentences, and clearer structure. " ++ audience ++ " Avoid jargon and complex terminology."),
          spread_with additionalParams "tone"
            (js_or tone (JStr "clear and accessible"))).

(** [return await this.transform(text, instruction, { ... })] after the
    arguments have been built. *)
Definition transform_with (arguments : completion (jsval * jsval))
  (this : TextTransformAPI) (env : Env) (text : jsval)
  : promise TransformResult * list ProviderRequest :=
  match arguments with
  | Throw e => (Rejected e, [])
  | Normal (instruction, params) => transform this env text instruction params
  end.

Definition shorten (this : TextTransformAPI) (env : Env)
  (text additionalParams : jsval) : promise TransformResult * list ProviderRequest :=
  transform_with (shorten_arguments (or_default additionalParams (JObj []))) this env text.

Definition elongate (this : TextTransformAPI) (env : Env)
  (text additionalParams : jsval) : promise TransformResult * list ProviderRequest :=
  transform_with (elongate_arguments (or_default additionalParams (JObj []))) this env text.

Definition simplify (this : TextTransformAPI) (env : Env)
  (text additionalParams : jsval) : promise TransformResult * list ProviderRequest :=
  transform_with (simplify_arguments (or_default additionalParams (JObj []))) this env text.

(** *** validateConnection

    [fetch] answers the probe with a response or rejects. *)

Record ConnectionResult := MkConnectionResult {
  cn_success : bool;
  cn_message : option string;
  cn_model : option string;
  cn_error : option string
}.

Definition disconnected (msg : string) : ConnectionResult :=
  {| cn_success := false; cn_message := None; cn_model := None; cn_error := Some msg |}.

(** [`${testResponse.status}: ${errorData.error?.message || testResponse.statusText}`]
    with [errorData = await testResponse.json().catch(() => ({}))]. *)
Definition status_line (r : FetchResponse) : completion string :=
  let errorData := match json r with
                   | Fulfilled v => v
                   | Rejected _ => JObj []
                   end in
  let* e := get "error" errorData in
  let* m := match e with
            | JUndefined | JNull => Normal JUndefined
            | _ => get "message" e
            end in
  let* detail := to_string (js_or m (JStr (statusText r))) in
  Normal (index_key (status r) ++ ": " ++ detail).

Definition validateConnection (this : TextTransformAPI)
  (probe : ProbeRequest -> promise FetchResponse)
  : promise ConnectionResult * list ProbeRequest :=
  let request := {| pb_model := JStr (model this); pb_max_tokens := 10; pb_user := "Hello" |} in
  match probe request with
  | Rejected e => (Fulfilled (disconnected (message e)), [request])
  | Fulfilled testResponse =>
      if ok testResponse then
        (Fulfilled {| cn_success := true;
                      cn_message := Some "API connection successful";
                      cn_model := Some (model this);
                      cn_error := None |},
         [request])
      else
        match status_line testResponse with
        | Normal line => (Fulfilled (disconnected line), [request])
        | Throw e => (Fulfilled (disconnected (message e)), [request])
        end
  end.

(** *** The functions the module exports

    [apiInstance] is the module variable: [None] is its initial [null].  All
    of them are [async]. *)

Module Exports.

Definition uninitialized : Error :=
  MkError "API not initialized. Call initializeAPI() first.".

(** [initializeAPI(apiKey = null)]. *)
Definition initializeAPI (apiKey : jsval) : option TextTransformAPI :=
  Some (constructor (or_default apiKey JNull)).

Definition shortenText (apiInstance : option TextTransformAPI) (env : Env)
  (text options : jsval) : promise TransformResult * list ProviderRequest :=
  match apiInstance with
  | None => (Rejected uninitialized, [])
  | Some api => shorten api env text (or_default options (JObj []))
  end.

Definition elongateText (apiInstance : option TextTransformAPI) (env : Env)
  (text options : jsval) : promise TransformResult * list ProviderRequest :=
  match apiInstance with
  | None => (Rejected uninitialized, [])
  | Some api => elongate api env text (or_default options (JObj []))
  end.

Definition simplifyText (apiInstance : option TextTransformAPI) (env : Env)
  (text options : jsval) : promise TransformResult * list ProviderRequest :=
  match apiInstance with
  | None => (Rejected uninitialized, [])
  | Some api => simplify api env text (or_default options (JObj []))
  end.

Definition customTransform (apiInstance : option TextTransformAPI) (env : Env)
  (text instruction options : jsval) : promise TransformResult * list ProviderRequest :=
  match apiInstance with
  | None => (Rejected uninitialized, [])
  | Some api => custom api env text instruction (or_default options (JObj []))
  end.

End Exports.

End Browser.

(** * src/server.js *)

Module Server.

Import Api.

(** What a handler sends: [res.status(code).json(body)], or [res.json(body)]
    with the status 200. *)
Inductive Body : Type :=
| Failure (error : string)                   (* { success: false, error } *)
| Transformed (result : TransformResult)
| StyleGuide (result : StyleGuideResult)
| Models (models : gmap string ModelInfo) (currentModel : CurrentModel)
| ModelSet (currentModel : CurrentModel).    (* { success: true, currentModel } *)

Record Response := MkResponse {
  code : Z;
  body : Body
}.

(** The [success] member of the body sent. *)
Definition body_success (b : Body) : bool :=
  match b with
  | Failure _ => false
  | Transformed r => success r
  | StyleGuide r => sg_success r
  | Models _ _ | ModelSet _ => true
  end.

(** [const { first, ... } = req.body]: destructuring throws on [undefined]
    and [null]. *)
Definition destructure (first : string) (v : jsval) : completion jsval :=
  match v with
  | JUndefined | JNull =>
      Throw (TypeError ("Cannot destructure property '" ++ first
                        ++ "' of 'req.body' as it is " ++ nullish_name v ++ "."))
  | _ => Normal v
  end.

(** The [catch] block of every handler. *)
Definition internal_error (e : Error) : Response :=
  {| code := 500; body := Failure (message e) |}.

Definition bad_request (msg : string) : Response :=
  {| code := 400; body := Failure msg |}.

(** [res.json(await p)] inside the handler's [try]. *)
Definition respond {A : Type} (wrap : A -> Body) (p : promise A * trace) : Response * trace :=
  match p with
  | (Fulfilled r, t) => ({| code := 200; body := wrap r |}, t)
  | (Rejected e, t) => (internal_error e, t)
  end.

(** [app.post('/api/generate-style-guide', ...)] *)
Definition post_generate_style_guide (claudeAPI : TextTransformAPI) (env : Env)
  (req_body : jsval) : Response * trace :=
  match (let* b := destructure "exampleText" req_body in
         let* exampleText := get "exampleText" b in
         let* a := get "additionalInstructions" b in
         Normal (exampleText, or_default a (JStr ""))) with
  | Throw e => (internal_error e, [])
  | Normal (exampleText, additionalInstructions) =>
      if negb (truthy exampleText) then
        (bad_request "Missing required field: exampleText", [])
      else
        match call_trim "exampleText" exampleText with
        | Throw e => (internal_error e, [])
        | Normal trimmed =>
            if (trimmed =? "")%string then
              (bad_request "Missing required field: exampleText", [])
            else
              respond StyleGuide
                (generateStyleGuide claudeAPI env (JStr trimmed) additionalInstructions)
        end
  end.

(** [app.post('/api/transform', ...)] *)
Definition post_transform (claudeAPI : TextTransformAPI) (env : Env)
  (req_body : jsval) : Response * trace :=
  match (let* b := destructure "text" req_body in
         let* text := get "text" b in
         let* action := get "action" b in
         let* o := get "options" b in
         Normal (text, action, or_default o (JObj []))) with
  | Throw e => (internal_error e, [])
  | Normal (text, action, options) =>
      if negb (truthy text) || negb (truthy action) then
        (bad_request "Missing required fields: text and action", [])
      else if is_str "ARTICULATE" action then
        respond Transformed (articulate claudeAPI env text options)
      else if is_str "REFINE" action then
        respond Transformed (refine claudeAPI env text options)
      else if is_str "EDIT" action then
        match get "instruction" options with
        | Throw e => (internal_error e, [])
        | Normal instruction =>
            if negb (truthy instruction) then
              (bad_request "EDIT action requires instruction in options", [])
            else
              respond Transformed (edit claudeAPI env text instruction options)
        end
      else
        match to_string action with
        | Throw e => (internal_error e, [])
        | Normal a =>
            (bad_request ("Unknown action: " ++ a
                          ++ ". Supported actions: ARTICULATE, REFINE, EDIT."), [])
        end
  end.

(** [app.get('/api/models', ...)] *)
Definition get_models (claudeAPI : TextTransformAPI) : Response :=
  match getCurrentModel claudeAPI with
  | Throw e => internal_error e
  | Normal current =>
      {| code := 200; body := Models (getAvailableModels claudeAPI) current |}
  end.

(** [app.post('/api/models/set', ...)]: the response and [claudeAPI] as the
    handler leaves it. *)
Definition post_models_set (claudeAPI : TextTransformAPI) (req_body : jsval)
  : Response * TextTransformAPI :=
  match (let* b := destructure "modelId" req_body in get "modelId" b) with
  | Throw e => (internal_error e, claudeAPI)
  | Normal modelId =>
      if negb (truthy modelId) then
        (bad_request "Missing required field: modelId", claudeAPI)
      else
        match setModel claudeAPI modelId with
        | Throw e => (internal_error e, claudeAPI)
        | Normal (true, claudeAPI') =>
            match getCurrentModel claudeAPI' with
            | Throw e => (internal_error e, claudeAPI')
            | Normal current => ({| code := 200; body := ModelSet current |}, claudeAPI')
            end
        | Normal (false, claudeAPI') =>
            match to_string modelId with
            | Throw e => (internal_error e, claudeAPI')
            | Normal m => (bad_request ("Invalid model ID: " ++ m), claudeAPI')
            end
        end
  end.

(** What the handler of [/api/health] sends:
    [{ status: 'ok', timestamp, claude }] with the status 200, or
    [{ status: 'error', error, timestamp }] with the status 500. *)
Record Health := MkHealth {
  health_code : Z;
  health_status : string;
  health_timestamp : string;
  claude : option ConnectionResult;
  health_error : option string
}.

(** [app.get('/api/health', ...)]; [now] is what
    [new Date().toISOString()] reads, [probe] and [meanwhile] are those of
    [validateConnection]. *)
Definition get_health (claudeAPI : TextTransformAPI)
  (probe : ProbeRequest -> promise jsval) (meanwhile : list jsval) (now : string)
  : Health * list ProbeRequest :=
  match validateConnection claudeAPI probe meanwhile with
  | (Fulfilled validation, sent) =>
      ({| health_code := 200;
          health_status := "ok";
          health_timestamp := now;
          claude := Some validation;
          health_error := None |}, sent)
  | (Rejected e, sent) =>
      ({| health_code := 500;
          health_status := "error";
          health_timestamp := now;
          claude := None;
          health_error := Some (message e) |}, sent)
  end.

End Server.

(** * The frontend client

    The stub a browser page uses to call the Relay Server.  The environment
    answers a [fetch] of a URL, with a JSON body for a POST. *)

Module Frontend.

Record Env := MkEnv {
  fetch : string -> option jsval -> promise FetchResponse;
  now : string
}.

(** The requests a run has sent to the Relay Server. *)
Definition requests : Type := list (string * option jsval).

Record TextTransformAPIClient := MkTextTransformAPIClient {
  baseURL : string
}.

Definition constructor : TextTransformAPIClient := {| baseURL := "" |}.

(** [result = await response.json()], then
    [if (!response.ok) throw new Error(result.error || `Server error: ${response.status}`)],
    then [return result]. *)
Definition checked (response : FetchResponse) : completion jsval :=
  match json response with
  | Rejected e => Throw e
  | Fulfilled result =>
      if negb (ok response) then
        let* e := get "error" result in
        let* m := to_string (js_or e (JStr ("Server error: " ++ index_key (status response)))) in
        Throw (MkError m)
      else Normal result
  end.

(** A request and the [try]/[catch] around it; [on_error] builds the object
    the [catch] block returns. *)
Definition call (env : Env) (url : string) (payload : option jsval)
  (on_error : Error -> jsval) : promise jsval * requests :=
  match fetch env url payload with
  | Rejected e => (Fulfilled (on_error e), [(url, payload)])
  | Fulfilled response =>
      match checked response with
      | Throw e => (Fulfilled (on_error e), [(url, payload)])
      | Normal result => (Fulfilled result, [(url, payload)])
      end
  end.

Definition callAPI (this : TextTransformAPIClient) (env : Env)
  (text : jsval) (action : string) (options : jsval) : promise jsval * requests :=
  let options := or_default options (JObj []) in
  call env (baseURL this ++ "/api/transform")
    (Some (JObj [ ("text", text); ("action", JStr action); ("options", options) ]))
    (fun e => JObj [ ("success", JBool false); ("error", JStr (message e));
                     ("originalText", text); ("timestamp", JStr (now env)) ]).

Definition articulate (this : TextTransformAPIClient) (env : Env)
  (text options : jsval) : promise jsval * requests :=
  callAPI this env text "ARTICULATE" (or_default options (JObj [])).

Definition refine (this : TextTransformAPIClient) (env : Env)
  (text options : jsval) : promise jsval * requests :=
  callAPI this env text "REFINE" (or_default options (JObj [])).

Definition edit (this : TextTransformAPIClient) (env : Env)
  (text instruction options : jsval) : promise jsval * requests :=
  callAPI this env text "EDIT"
    (spread_with (or_default options (JObj [])) "instruction" instruction).

Definition generateStyleGuide (this : TextTransformAPIClient) (env : Env)
  (exampleText additionalInstructions : jsval) : promise jsval * requests :=
  let additionalInstructions := or_default additionalInstructions (JStr "") in
  call env (baseURL this ++ "/api/generate-style-guide")
    (Some (JObj [ ("exampleText", exampleText);
                  ("additionalInstructions", additionalInstructions) ]))
    (fun e => JObj [ ("success", JBool false); ("error", JStr (message e));
                     ("timestamp", JStr (now env)) ]).

Definition getModels (this : TextTransformAPIClient) (env : Env)
  : promise jsval * requests :=
  call env (baseURL this ++ "/api/models") None
    (fun e => JObj [ ("success", JBool false); ("error", JStr (message e)) ]).

Definition setModel (this : TextTransformAPIClient) (env : Env)
  (modelId : jsval) : promise jsval * requests :=
  call env (baseURL this ++ "/api/models/set")
    (Some (JObj [ ("modelId", modelId) ]))
    (fun e => JObj [ ("success", JBool false); ("error", JStr (message e)) ]).

(** [checkHealth] returns the body of the answer whatever its status. *)
Definition checkHealth (this : TextTransformAPIClient) (env : Env)
  : promise jsval * requests :=
  let url := baseURL this ++ "/api/health" in
  let on_error := fun e => JObj [ ("status", JStr "error"); ("error", JStr (message e)) ] in
  match fetch env url None with
  | Rejected e => (Fulfilled (on_error e), [(url, None)])
  | Fulfilled response =>
      match json response with
      | Rejected e => (Fulfilled (on_error e), [(url, None)])
      | Fulfilled result => (Fulfilled result, [(url, None)])
      end
  end.

(** *** The functions the module exports

    [apiClient] is the module variable: [None] is its initial [null].  All of
    them are [async]. *)

Module Exports.

Definition uninitialized : Error :=
  MkError "API not initialized. Call initializeAPI() first.".

Definition initializeAPI : option TextTransformAPIClient := Some constructor.

Definition articulateText (apiClient : option TextTransformAPIClient) (env : Env)
  (text options : jsval) : promise jsval * requests :=
  match apiClient with
  | None => (Rejected uninitialized, [])
  | Some c => articulate c env text (or_default options (JObj []))
  end.

Definition refineText (apiClient : option TextTransformAPIClient) (env : Env)
  (text options : jsval) : promise jsval * requests :=
  match apiClient with
  | None => (Rejected uninitialized, [])
  | Some c => refine c env text (or_default options (JObj []))
  end.

Definition editText (apiClient : option TextTransformAPIClient) (env : Env)
  (text instruction options : jsval) : promise jsval * requests :=
  match apiClient with
  | None => (Rejected uninitialized, [])
  | Some c => edit c env text instruction (or_default options (JObj []))
  end.

Definition generateStyleGuide (apiClient : option TextTransformAPIClient) (env : Env)
  (exampleText additionalInstructions : jsval) : promise jsval * requests :=
  match apiClient with
  | None => (Rejected uninitialized, [])
  | Some c =>
      Frontend.generateStyleGuide c env exampleText
        (or_default additionalInstructions (JStr ""))
  end.

Definition getModels (apiClient : option TextTransformAPIClient) (env : Env)
  : promise jsval * requests :=
  match apiClient with
  | None => (Rejected uninitialized, [])
  | Some c => Frontend.getModels c env
  end.

Definition setModel (apiClient : option TextTransformAPIClient) (env : Env)
  (modelId : jsval) : promise jsval * requests :=
  match apiClient with
  | None => (Rejected uninitialized, [])
  | Some c => Frontend.setModel c env modelId
  end.

End Exports.

End Frontend.

(** ** Calls

    What a call expression gives at the call site.  A function that is not
    [async] completes as its body does.  An [async] function never throws to
    its caller: the call completes normally with a promise, and a throw in the
    body rejects that promise. *)

Definition call_sync {A : Type} (body : completion A) : completion A := body.

Definition call_async {A T : Type} (body : promise A * T) : completion (promise A) :=
  Normal (fst body).

(** * Vocabulary of the properties *)

(** ** Providers *)

(** The message the provider SDK resolves with when the model answered with
    one block of text. *)
Definition text_message (s : string) : jsval :=
  JObj [ ("content", JArr [ JObj [ ("type", JStr "text"); ("text", JStr s) ] ]) ].

(** The provider answers every request with the same outcome, and nothing
    else happens while a request is pending. *)
Definition answering (outcome : promise jsval) (time : string) : Env :=
  {| create := fun _ => outcome; meanwhile := []; now := time |}.

(** The provider answers every request with the same outcome, and the calls
    [setModel(i)] for the [i] of [ids] are made while a request is
    pending. *)
Definition switching (outcome : promise jsval) (ids : list jsval) (time : string) : Env :=
  {| create := fun _ => outcome; meanwhile := ids; now := time |}.

(** A provider that is overloaded, and a network that is down. *)
Definition overloaded : Env :=
  answering (Rejected (MkError "529 Overloaded")) "2025-01-01T00:00:00.000Z".

Definition offline : Browser.Env :=
  {| Browser.fetch := fun _ => Rejected (MkError "Failed to fetch");
     Browser.now := "2025-01-01T00:00:00.000Z" |}.

(** The upstream failure of the Transform Client of [src/api.js]: the SDK
    rejects whatever is sent (a status that is not a success, or a network
    failure) with an error that carries a message. *)
Definition upstream_fails (env : Env) : Prop :=
  forall rq, exists e, create env rq = Rejected e /\ message e <> "".

(** The upstream failure of the browser client: [fetch] rejects with an error
    that carries a message (a network failure), or resolves with a status
    outside 200-299. *)
Definition browser_upstream_fails (env : Browser.Env) : Prop :=
  forall rq,
    match Browser.fetch env rq with
    | Rejected e => message e <> ""
    | Fulfilled response => ok response = false
    end.

(** A completion whose throw, if any, carries an error with a message. *)
Definition loud {A : Type} (c : completion A) : Prop :=
  forall e, c = Throw e -> message e <> "".

(** ** The style-guide response, by its headings

    The description the specification gives of the parse, to compare with
    what the two patterns of [generateStyleGuide] compute. *)

(** The text of [b] before the first occurrence of [p], all of [b] when
    there is none. *)
Definition before (p b : string) : string :=
  match find p b with
  | Some (u, _) => u
  | None => b
  end.

(** The text after the closing [===] of the first heading that starts with
    [heading]. *)
Definition after_heading (heading s : string) : option string :=
  match find heading s with
  | Some (_, a) =>
      match find "===" a with
      | Some (_, b) => Some b
      | None => None
      end
  | None => None
  end.

Definition comprehensive_by_headings (full : string) : string :=
  match after_heading "=== UMFASSENDER STYLE GUIDE" full with
  | Some b => trim (before "=== PRÄZISER STYLE GUIDE" b)
  | None => full
  end.

Definition concise_by_headings (full : string) : string :=
  match after_heading "=== PRÄZISER STYLE GUIDE" full with
  | Some b => trim b
  | None => ""
  end.

(** C4 as the specification words it: both markers give two non-empty
    guides, no marker gives the full response and an empty concise guide. *)
Definition markers_give_two_guides : Prop :=
  forall full comprehensive concise,
    Api.parse_guides full = Normal (comprehensive, concise) ->
    (contains "UMFASSENDER STYLE GUIDE" full = true ->
     contains "PRÄZISER STYLE GUIDE" full = true ->
     comprehensive <> "" /\ concise <> "")
    /\
    (contains "UMFASSENDER STYLE GUIDE" full = false ->
     contains "PRÄZISER STYLE GUIDE" full = false ->
     comprehensive = full /\ concise = "").

(** A response that stops after the heading of the second guide. *)
Definition truncated_response : string :=
  lines
    [ "=== UMFASSENDER STYLE GUIDE (für Grund-Textentwicklung) ===";
      "";
      "● TON: warm";
      "";
      "=== PRÄZISER STYLE GUIDE (für Textverfeinerung) ===" ].

(** ** Sequences of [setModel] calls *)

(** The instance after the calls [setModel(i)] for the [i] of [ids], in
    order; a call that throws leaves the instance as it was. *)
Fixpoint setModels (this : Api.TextTransformAPI) (ids : list jsval) : Api.TextTransformAPI :=
  match ids with
  | [] => this
  | i :: r =>
      match Api.setModel this i with
      | Normal (_, this') => setModels this' r
      | Throw _ => setModels this r
      end
  end.

(** The current model is a key of the registry. *)
Definition model_registered (this : Api.TextTransformAPI) : Prop :=
  exists k,
    to_string (Api.model this) = Normal k /\ is_Some (Api.availableModels this !! k).

(** An identifier that is not the name of a property of [Object.prototype]. *)
Definition not_inherited (i : jsval) : Prop :=
  forall k, to_string i = Normal k -> k ∉ Object_prototype.

(** ** Calls before [initializeAPI] *)

(** The call of an [async] function returns a promise rejected with [e], and
    the run has sent no request. *)
Definition rejected_unsent {A T : Type} (e : Error) (run : promise A * list T) : Prop :=
  call_async run = Normal (Rejected e) /\ snd run = [].

(** C7 as the specification words it: every exported function throws at the
    call. *)
Definition uninitialized_calls_throw : Prop :=
  forall (env : Env) (text instruction options modelId : jsval),
    call_async (Api.Exports.articulateText None env text options)
      = Throw Api.Exports.uninitialized
    /\ call_async (Api.Exports.refineText None env text options)
      = Throw Api.Exports.uninitialized
    /\ call_async (Api.Exports.editText None env text instruction options)
      = Throw Api.Exports.uninitialized
    /\ call_async (Api.Exports.generateStyleGuide None env text instruction)
      = Throw Api.Exports.uninitialized
    /\ call_sync (Api.Exports.setModel None modelId)
      = Throw Api.Exports.uninitialized
    /\ call_sync (Api.Exports.getAvailableModels None)
      = Throw Api.Exports.uninitialized
    /\ call_sync (Api.Exports.getCurrentModel None)
      = Throw Api.Exports.uninitialized.

(** ** Successful transforms *)

(** The parameters [refine] hands to [transform] when it is called without
    options. *)
Definition refine_params : jsval := JObj [ ("systemPrompt", JStr "refine") ].

(** C8 as the specification words it: the text of a successful result is
    not empty and differs from the input. *)
Definition success_changes_text : Prop :=
  forall this env (text : string) instruction additionalParams r,
    fst (Api.transform this env (JStr text) instruction additionalParams) = Fulfilled r ->
    Api.success r = true ->
    exists t,
      Api.transformedText r = Some t /\ t <> "" /\ t <> text
      /\ Api.result_model r = Some (Api.model this).

(** ** Templates of the Prompt Builder *)

Inductive template : Type := Articulate | Refine | Edit | Generic.

(** The value a method of the client gives to [systemPrompt]. *)
Definition kind_of (t : template) : jsval :=
  match t with
  | Articulate => JStr "articulate"
  | Refine => JStr "refine"
  | Edit => JStr "edit"
  | Generic => JUndefined
  end.

(** The template a value of [additionalParams.systemPrompt] selects. *)
Definition template_of (kind : jsval) : template :=
  if is_str "articulate" kind then Articulate
  else if is_str "refine" kind then Refine
  else if is_str "edit" kind then Edit
  else Generic.

(** The word for the action in the style-guide block of a template. *)
Definition noun (t : template) : string :=
  match t with
  | Articulate => "Ausformulierung"
  | Refine => "Verfeinerung"
  | Edit => "Bearbeitung"
  | Generic => ""
  end.

(** The first line of the user prompt of a template. *)
Definition header (t : template) : string :=
  match t with
  | Articulate => "ROHE GEDANKENSTRUKTUR:"
  | Refine => "TEXT ZUM VERFEINERN:"
  | Edit => "TEXT ZUM BEARBEITEN:"
  | Generic => "Forme diesen Text um:"
  end.

(** The system prompt of a template around a style-guide block (the generic
    template has no place for one). *)
Definition system_template (t : template) (block : string) : string :=
  match t with
  | Articulate => Api.articulate_head ++ block ++ Api.articulate_tail
  | Refine => Api.refine_head ++ block ++ Api.refine_tail
  | Edit => Api.edit_head ++ block ++ Api.edit_tail
  | Generic => Api.generic_system
  end.

(** The same for the revision with the JSON template mode. *)
Definition system_template_json (t : template) (mode : jsval) (block : string) : string :=
  match t with
  | Articulate =>
      ApiJsonMode.articulate_intro
      ++ ApiJsonMode.json_mode ApiJsonMode.articulate_json_mode mode
      ++ ApiJsonMode.articulate_principles ++ block ++ ApiJsonMode.articulate_tail
  | Refine =>
      ApiJsonMode.refine_intro
      ++ ApiJsonMode.json_mode ApiJsonMode.refine_json_mode mode
      ++ ApiJsonMode.refine_principles ++ block ++ ApiJsonMode.refine_tail
  | Edit =>
      ApiJsonMode.edit_intro
      ++ ApiJsonMode.json_mode ApiJsonMode.edit_json_mode mode
      ++ ApiJsonMode.edit_principles ++ block ++ ApiJsonMode.edit_tail
  | Generic => ApiJsonMode.generic_system
  end.

(** A provider request whose two prompts are those of template [t]. *)
Definition built_from (t : template) (rq : ProviderRequest) : Prop :=
  (exists block, rq_system rq = system_template t block)
  /\ (exists rest, rq_user rq = header t ++ rest).

(** C6 as the specification words it: whatever the action, a style-guide
    object puts a block into the system prompt, with the comprehensive guide
    for ARTICULATE and the concise guide otherwise. *)
Definition style_guide_always_appended : Prop :=
  forall additionalParams g comprehensive concise kind,
    get "styleGuide" additionalParams = Normal (JObj g) ->
    own "comprehensiveGuide" g = Some (JStr comprehensive) -> comprehensive <> "" ->
    own "conciseGuide" g = Some (JStr concise) -> concise <> "" ->
    get "systemPrompt" additionalParams = Normal kind ->
    exists system word,
      Api.build_system_prompt additionalParams = Normal system
      /\ contains
           (Api.style_block_text word
              (if is_str "articulate" kind then comprehensive else concise))
           system = true.

(** The parameters of a request that reaches [transform] with a style guide
    and without one of the three actions. *)
Definition params_without_action : jsval :=
  JObj [ ("styleGuide",
          JObj [ ("comprehensiveGuide", JStr "Warm, direct, second person.");
                 ("conciseGuide", JStr "Warm and direct.") ]) ].

(** ** Requests to the Relay Server *)

(** [req.body.options] as the handler of [/api/transform] binds it. *)
Definition options_of (fields : list (string * jsval)) : jsval :=
  or_default (default JUndefined (own "options" fields)) (JObj []).

(** The hints of a TransformRequest as the data model types them: the context
    is a string when present, the style guide is a string or an object whose
    guides are strings. *)
Definition absent_or_text (o : option jsval) : bool :=
  match o with
  | None | Some (JStr _) => true
  | Some _ => false
  end.

Definition style_guide_shape (o : option jsval) : bool :=
  match o with
  | None | Some (JStr _) => true
  | Some (JObj g) =>
      absent_or_text (own "comprehensiveGuide" g)
      && absent_or_text (own "conciseGuide" g)
      && absent_or_text (own "styleGuide" g)
  | Some _ => false
  end.

Definition hints_shape (o : list (string * jsval)) : bool :=
  absent_or_text (own "context" o) && style_guide_shape (own "styleGuide" o).

(** C3 as the specification words it: each of the four actions is dispatched
    exactly once. *)
Definition every_action_dispatches_once : Prop :=
  forall claudeAPI env fields t a o,
    own "text" fields = Some (JStr t) -> t <> "" ->
    own "action" fields = Some (JStr a) ->
    a ∈ [ "ARTICULATE"; "REFINE"; "EDIT"; "CUSTOM" ] ->
    options_of fields = JObj o -> hints_shape o = true ->
    exists rq, snd (Server.post_transform claudeAPI env (JObj fields)) = [rq].

(** ** Requests for a style guide *)

(** [req.body.exampleText]; a request without a body has none. *)
Definition example_text_of (req_body : jsval) : jsval :=
  match get "exampleText" req_body with
  | Normal v => v
  | Throw _ => JUndefined
  end.

(** [req.body.additionalInstructions], with the default of the handler. *)
Definition additional_instructions_of (req_body : jsval) : jsval :=
  match get "additionalInstructions" req_body with
  | Normal v => or_default v (JStr "")
  | Throw _ => JStr ""
  end.

(** An [exampleText] that is missing, empty or white space only. *)
Definition missing_or_blank (exampleText : jsval) : bool :=
  match exampleText with
  | JUndefined => true
  | JStr s => blank s
  | _ => false
  end.

(** C10 as the specification words it: a request whose [exampleText] is
    missing, empty or white space only is answered with status 400 and
    [success: false] without a call of the Transform Client; every other
    request passes its trimmed [exampleText] to style-guide generation. *)
Definition example_text_is_validated : Prop :=
  forall claudeAPI env req_body,
    let answer := Server.post_generate_style_guide claudeAPI env req_body in
    (missing_or_blank (example_text_of req_body) = true ->
     Server.code (fst answer) = 400
     /\ Server.body_success (Server.body (fst answer)) = false
     /\ snd answer = [])
    /\
    (missing_or_blank (example_text_of req_body) = false ->
     exists s,
       example_text_of req_body = JStr s
       /\ answer
          = Server.respond Server.StyleGuide
              (Api.generateStyleGuide claudeAPI env (JStr (trim s))
                 (additional_instructions_of req_body))).

(** The body of a request whose [exampleText] is a number. *)
Definition numeric_example : jsval :=
  JObj [ ("exampleText", JNum (MkNumber true "5")) ].

(** The bodies of two requests: a CUSTOM action, and an EDIT action whose
    instruction is white space. *)
Definition custom_request : list (string * jsval) :=
  [ ("text", JStr "Draft notes about Q3 sales");
    ("action", JStr "CUSTOM");
    ("options", JObj [ ("instruction", JStr "Make it formal") ]) ].

Definition edit_with_blank_instruction : list (string * jsval) :=
  [ ("text", JStr "Hello wrld");
    ("action", JStr "EDIT");
    ("options", JObj [ ("instruction", JStr "   ") ]) ].

(** ** Responses in the requested format *)

(** A text without the character [=]. *)
Fixpoint plain (s : string) : bool :=
  match s with
  | EmptyString => true
  | String a r => negb (Ascii.eqb a "="%char) && plain r
  end.

(** A response laid out as the system prompt of [generateStyleGuide] asks:
    the heading of the comprehensive guide, closed by [===], its guide from
    the next line on, then the heading of the concise guide, closed by
    [===], and its guide.  [pre] is what the model wrote before the first
    heading, [h1] and [h2] are the rest of the two heading lines. *)
Definition formatted (pre h1 b1 h2 b2 : string) : string :=
  pre ++ "=== UMFASSENDER STYLE GUIDE" ++ h1 ++ "===" ++ nl ++ b1
      ++ "=== PRÄZISER STYLE GUIDE" ++ h2 ++ "===" ++ b2.

(** A response whose first heading is not closed: the heading of the
    comprehensive guide is followed by the guide [b1] at once, then come the
    heading of the concise guide, closed by [===], and its guide [b2] from
    the next line on. *)
Definition unclosed (pre b1 h2 b2 : string) : string :=
  pre ++ "=== UMFASSENDER STYLE GUIDE" ++ b1
      ++ "=== PRÄZISER STYLE GUIDE" ++ h2 ++ "===" ++ nl ++ b2.

(** ** Answers of the Relay Server *)

(** What a handler that calls the Transform Client answers and sends: status
    200 with the result of the client and at most one request to the
    provider, or status 400 or 500 with a failure and no request at all. *)
Definition relayed {A : Type} (wrap : A -> Server.Body)
  (answer : Server.Response * trace) : Prop :=
  (Server.code (fst answer) = 200
   /\ (exists r, Server.body (fst answer) = wrap r)
   /\ (length (snd answer) <= 1)%nat)
  \/
  ((Server.code (fst answer) = 400 \/ Server.code (fst answer) = 500)
   /\ (exists m, Server.body (fst answer) = Server.Failure m)
   /\ snd answer = []).

(** The instance of the Relay Server after the requests to
    [/api/models/set] with the bodies [bodies], in order. *)
Fixpoint after_model_requests (claudeAPI : Api.TextTransformAPI) (bodies : list jsval)
  : Api.TextTransformAPI :=
  match bodies with
  | [] => claudeAPI
  | b :: r => after_model_requests (snd (Server.post_models_set claudeAPI b)) r
  end.

(** ** Answers of the provider to the browser client *)

(** [fetch] answers every request with a response of status [code], status
    text [text] and the JSON body [body]. *)
Definition responding (code : nat) (text : string) (body : jsval) : Browser.Env :=
  {| Browser.fetch := fun _ => Fulfilled {| status := code; statusText := text;
                                            json := Fulfilled body |};
     Browser.now := "2025-01-01T00:00:00.000Z" |}.

(** The body of the provider's error for a key it does not know. *)
Definition invalid_key : jsval :=
  JObj [ ("type", JStr "error");
         ("error", JObj [ ("type", JStr "authentication_error");
                          ("message", JStr "invalid x-api-key") ]) ].

(** ** Answers of the Relay Server to the frontend client *)

(** The Relay Server answers every request with the status [code] and the
    JSON body [body]. *)
Definition relay_answering (code : nat) (body : jsval) : Frontend.Env :=
  {| Frontend.fetch := fun _ _ => Fulfilled {| status := code; statusText := "";
                                               json := Fulfilled body |};
     Frontend.now := "2025-01-01T00:00:00.000Z" |}.

(** A run of the frontend client that settles with a value, never with a
    rejection, after exactly one request: [payload] to [url]. *)
Definition sends_once (run : promise jsval * Frontend.requests)
  (url : string) (payload : option jsval) : Prop :=
  (exists v, fst run = Fulfilled v) /\ snd run = [(url, payload)].

(** ** Providers of the revision with the JSON template mode *)

(** The provider answers every request of the revision with the same
    outcome. *)
Definition revision_answering (outcome : promise jsval) (time : string) : ApiJsonMode.Env :=
  {| ApiJsonMode.create := fun _ => outcome; ApiJsonMode.meanwhile := [];
     ApiJsonMode.now := time |}.

(** * Properties *)

#[local] Arguments String.append !s1 s2 : simpl nomatch.

(** * Trimming *)

Lemma trimStart_unfold s :
  trimStart s
  = match s with
    | EmptyString => s
    | String a r =>
        if ws1 a then trimStart r
        else match r with
             | EmptyString => s
             | String b r2 =>
                 if ws2 a b then trimStart r2
                 else match r2 with
                      | EmptyString => s
                      | String c r3 => if ws3 a b c then trimStart r3 else s
                      end
             end
    end.
Proof. destruct s; reflexivity. Qed.

(** One step of [trimStart]: the string starts with no white space and is
    left as it is, or a white-space character is dropped. *)
Lemma trimStart_step s :
  trimStart s = s
  \/ exists r, trimStart s = trimStart r /\ (String.length r < String.length s)%nat.
Proof.
  rewrite (trimStart_unfold s).
  destruct s as [|a r]; [left; reflexivity|].
  destruct (ws1 a); [right; exists r; split; [reflexivity | simpl; lia]|].
  destruct r as [|b r2]; [left; reflexivity|].
  destruct (ws2 a b); [right; exists r2; split; [reflexivity | simpl; lia]|].
  destruct r2 as [|c r3]; [left; reflexivity|].
  destruct (ws3 a b c); [right; exists r3; split; [reflexivity | simpl; lia]|].
  left; reflexivity.
Qed.

Lemma trimStart_idempotent s : trimStart (trimStart s) = trimStart s.
Proof.
  remember (String.length s) as n eqn:L. revert s L.
  induction n as [n IH] using lt_wf_ind. intros s ->.
  destruct (trimStart_step s) as [E | (r & E & Lt)].
  - rewrite E. exact E.
  - rewrite E. exact (IH _ Lt r eq_refl).
Qed.

(** A string trims to the empty string exactly when it is white space
    only. *)
Lemma trim_empty s : trim s = "" <-> blank s = true.
Proof.
  unfold trim, blank. split.
  - intros H. apply String.eqb_eq.
    destruct (trimStart s) as [|a r] eqn:E; [reflexivity|].
    simpl in H. destruct (blank (String a r)) eqn:B; [|discriminate].
    unfold blank in B. apply String.eqb_eq in B.
    rewrite <- E, trimStart_idempotent in B. rewrite <- E. exact B.
  - intros H. apply String.eqb_eq in H. rewrite H. reflexivity.
Qed.

(** * Strings and patterns *)

(** ** Prefixes and occurrences *)

Lemma strip_Some p : forall s r, strip p s = Some r -> s = p ++ r.
Proof.
  induction p as [|a p IH]; intros s r H; simpl in *.
  - congruence.
  - destruct s as [|b s]; [discriminate|].
    destruct (Ascii.eqb a b) eqn:E; [|discriminate].
    apply Ascii.eqb_eq in E. subst b. f_equal. auto.
Qed.

Lemma strip_app p : forall r, strip p (p ++ r) = Some r.
Proof.
  induction p as [|a p IH]; intros r; simpl; [reflexivity|].
  rewrite Ascii.eqb_refl. apply IH.
Qed.

Lemma app_assoc_s (a b c : string) : (a ++ b) ++ c = a ++ (b ++ c).
Proof. induction a; simpl; congruence. Qed.

Lemma app_empty_r (a : string) : a ++ "" = a.
Proof. induction a; simpl; congruence. Qed.

Lemma length_app_s (a b : string) :
  String.length (a ++ b) = (String.length a + String.length b)%nat.
Proof. induction a; simpl; congruence. Qed.

Lemma find_Some p : forall s u v, find p s = Some (u, v) -> s = u ++ p ++ v.
Proof.
  induction s as [|a s IH]; intros u v H; simpl in H.
  - destruct (strip p "") eqn:E; [|discriminate].
    injection H as <- <-. apply strip_Some in E. exact E.
  - destruct (strip p (String a s)) eqn:E.
    + injection H as <- <-. apply strip_Some in E. exact E.
    + destruct (find p s) as [[u' v']|] eqn:F; [|discriminate].
      injection H as <- <-. simpl. f_equal. auto.
Qed.

Lemma find_None_tail p a s : find p (String a s) = None -> find p s = None.
Proof.
  simpl. destruct (strip p (String a s)); [discriminate|].
  destruct (find p s) as [[u v]|]; [discriminate|reflexivity].
Qed.

Lemma find_None_suffix p w : forall s, find p (w ++ s) = None -> find p s = None.
Proof.
  induction w as [|a w IH]; intros s H; simpl in H; [exact H|].
  apply IH. eapply find_None_tail. exact H.
Qed.

Lemma app_overlap p : forall x a a',
  p ++ a = x ++ a' -> (String.length p <= String.length x)%nat ->
  exists w, a = w ++ a'.
Proof.
  induction p as [|h p IH]; intros x a a' E L; simpl in *.
  - exists x. exact E.
  - destruct x as [|h' x]; simpl in *; [lia|].
    injection E as -> E. apply (IH x); [exact E|lia].
Qed.

Lemma taken_app u : forall t, taken (u ++ t) t = u.
Proof.
  intros t. unfold taken. rewrite length_app_s.
  replace (String.length u + String.length t - String.length t)%nat
    with (String.length u) by lia.
  induction u as [|a u IH]; simpl.
  - destruct t; reflexivity.
  - f_equal. exact IH.
Qed.

(** ** The search order of the matcher *)

Lemma first_from_ext k k' :
  (forall s, k s = k' s) -> forall s, first_from k s = first_from k' s.
Proof.
  intros E s. induction s as [|a s IH]; simpl; rewrite E; [reflexivity|].
  destruct (k' (String a s)); [reflexivity|exact IH].
Qed.

Lemma first_from_None k : forall s,
  (forall w t, s = w ++ t -> k t = None) -> first_from k s = None.
Proof.
  induction s as [|a s IH]; intros H; simpl.
  - rewrite (H "" ""); reflexivity.
  - rewrite (H "" (String a s)) by reflexivity.
    apply IH. intros w t ->. apply (H (String a w)). reflexivity.
Qed.

(** A literal followed by a rest that cannot fail: the lazy search stops at
    the first occurrence of the literal. *)
Lemma first_from_lit_total p (K : string -> option capture) :
  (forall b, K b <> None) ->
  forall s,
    first_from (fun s' => match strip p s' with Some b => K b | None => None end) s
    = match find p s with Some (_, b) => K b | None => None end.
Proof.
  intros HK. induction s as [|a s IH]; simpl.
  - destruct (strip p "") eqn:E; [|reflexivity].
    destruct (K s) eqn:EK; [reflexivity|]. exfalso. eapply HK; eauto.
  - destruct (strip p (String a s)) eqn:E.
    + destruct (K s0) eqn:EK; [reflexivity|]. exfalso. eapply HK; eauto.
    + rewrite IH. destruct (find p s) as [[u v]|]; reflexivity.
Qed.

(** A literal followed by a rest whose failure is inherited by every suffix:
    if the rest fails after the first occurrence, it fails after every later
    one, so the search gives what the first occurrence gives. *)
Lemma first_from_lit_mono p (K : string -> option capture) :
  (forall w a, K (w ++ a) = None -> K a = None) ->
  forall s,
    first_from (fun s' => match strip p s' with Some b => K b | None => None end) s
    = match find p s with Some (_, b) => K b | None => None end.
Proof.
  intros HK. induction s as [|a s IH]; simpl.
  - destruct (strip p "") eqn:E; [|reflexivity].
    destruct (K s); reflexivity.
  - destruct (strip p (String a s)) as [b|] eqn:E.
    + destruct (K b) eqn:EK; [reflexivity|].
      apply first_from_None. intros w t ->.
      destruct (strip p t) as [b'|] eqn:E'; [|reflexivity].
      apply strip_Some in E, E'. subst t.
      destruct (app_overlap p (String a w ++ p) b b') as [w' ->].
      * rewrite <- E. simpl. rewrite app_assoc_s. reflexivity.
      * simpl. rewrite length_app_s. lia.
      * eapply HK. exact EK.
    + rewrite IH. destruct (find p s) as [[u v]|]; reflexivity.
Qed.

(** ** The two patterns of style-guide generation *)

Lemma before_cons p a t :
  strip p (String a t) = None -> before p (String a t) = String a (before p t).
Proof.
  unfold before. simpl. intros ->. destruct (find p t) as [[u v]|]; reflexivity.
Qed.

(** [(.*?)(?=p|$)]: the group takes the text up to the first [p], or all. *)
Lemma group_until_lit p b : forall t u,
  b = u ++ t ->
  first_from
    (fun s' =>
       match
         match
           match strip p s' with
           | Some _ => Some (Some (taken b s'))
           | None => None
           end
         with
         | Some m => Some m
         | None =>
             match s' with
             | "" => Some (Some (taken b s'))
             | String _ _ => None
             end
         end
       with
       | Some c' => Some c'
       | None => None
       end) t
  = Some (Some (u ++ before p t)).
Proof.
  induction t as [|a t IH]; intros u ->.
  - simpl. rewrite taken_app.
    replace (before p "") with "".
    + destruct (strip p ""); rewrite app_empty_r; reflexivity.
    + unfold before. simpl. destruct (strip p ""); reflexivity.
  - simpl. destruct (strip p (String a t)) eqn:E.
    + rewrite taken_app. unfold before. simpl. rewrite E.
      rewrite app_empty_r. reflexivity.
    + rewrite (IH (u ++ String a "")).
      * rewrite before_cons by exact E. rewrite app_assoc_s. reflexivity.
      * rewrite app_assoc_s. reflexivity.
Qed.

(** [(.*?)$]: the group takes all that is left. *)
Lemma group_until_end b : forall t u,
  b = u ++ t ->
  first_from
    (fun s' =>
       match s' with
       | "" => Some (Some (taken b s'))
       | String _ _ => None
       end) t
  = Some (Some b).
Proof.
  induction t as [|a t IH]; intros u E.
  - simpl. rewrite E at 1. rewrite taken_app. rewrite E, app_empty_r. reflexivity.
  - simpl. apply (IH (u ++ String a "")). rewrite app_assoc_s. exact E.
Qed.

(** [heading.*?===] followed by a group that cannot fail: the match starts at
    the first occurrence of the heading and the group starts after the first
    [===] behind it; when there is no [===] behind the first occurrence there
    is none behind a later one. *)
Lemma heading_search heading (G : string -> capture) s :
  first_from
    (fun s' =>
       match strip heading s' with
       | Some a =>
           first_from
             (fun s1 =>
                match strip "===" s1 with
                | Some b => Some (G b)
                | None => None
                end) a
       | None => None
       end) s
  = match after_heading heading s with
    | Some b => Some (G b)
    | None => None
    end.
Proof.
  set (K := fun a => match find "===" a with
                     | Some (_, b) => Some (G b)
                     | None => None
                     end).
  rewrite (first_from_ext _
             (fun s' => match strip heading s' with Some a => K a | None => None end)).
  - rewrite first_from_lit_mono.
    + unfold after_heading, K. destruct (find heading s) as [[u a]|]; [|reflexivity].
      destruct (find "===" a) as [[u' b]|]; reflexivity.
    + intros w a. unfold K.
      destruct (find "===" (w ++ a)) as [[u' b]|] eqn:E; [discriminate|].
      intros _. rewrite (find_None_suffix _ _ _ E). reflexivity.
  - intros s'. destruct (strip heading s') as [a|]; [|reflexivity].
    unfold K. apply first_from_lit_total. discriminate.
Qed.

Lemma comprehensive_match s :
  js_match Api.comprehensive_pattern s
  = match after_heading "=== UMFASSENDER STYLE GUIDE" s with
    | Some b => Some (Some (before "=== PRÄZISER STYLE GUIDE" b))
    | None => None
    end.
Proof.
  unfold js_match, Api.comprehensive_pattern. cbn [rmatch].
  rewrite <- (heading_search _ (fun b => Some (before "=== PRÄZISER STYLE GUIDE" b))).
  apply first_from_ext. intros s'.
  destruct (strip "=== UMFASSENDER STYLE GUIDE" s') as [a|]; [|reflexivity].
  apply first_from_ext. intros s1.
  destruct (strip "===" s1) as [b|]; [|reflexivity].
  apply (group_until_lit _ b b ""). reflexivity.
Qed.

Lemma concise_match s :
  js_match Api.concise_pattern s
  = match after_heading "=== PRÄZISER STYLE GUIDE" s with
    | Some b => Some (Some b)
    | None => None
    end.
Proof.
  unfold js_match, Api.concise_pattern. cbn [rmatch].
  rewrite <- (heading_search _ (fun b => Some b)).
  apply first_from_ext. intros s'.
  destruct (strip "=== PRÄZISER STYLE GUIDE" s') as [a|]; [|reflexivity].
  apply first_from_ext. intros s1.
  destruct (strip "===" s1) as [b|]; [|reflexivity].
  apply (group_until_end b b ""). reflexivity.
Qed.

(** * Object literals with a spread *)

Lemma own_without_same k l : own k (without k l) = None.
Proof.
  induction l as [|[k' v] r IH]; simpl; [reflexivity|].
  destruct (k' =? k)%string eqn:E; simpl; [exact IH|]. rewrite E. exact IH.
Qed.

Lemma own_without_other k k' l : k' <> k -> own k' (without k l) = own k' l.
Proof.
  intros N. induction l as [|[k0 v] r IH]; simpl; [reflexivity|].
  destruct (k0 =? k)%string eqn:E; simpl.
  - apply String.eqb_eq in E. subst k0.
    destruct (k =? k')%string eqn:E'; [apply String.eqb_eq in E'; congruence|exact IH].
  - destruct (k0 =? k')%string; [reflexivity|exact IH].
Qed.

Lemma own_assign_same k x l : own k (assign k x l) = Some x.
Proof.
  induction l as [|[k' v] r IH]; simpl.
  - rewrite String.eqb_refl. reflexivity.
  - destruct (k' =? k)%string eqn:E; simpl; rewrite E; [reflexivity|exact IH].
Qed.

Lemma own_assign_other k k' x l : k' <> k -> own k' (assign k x l) = own k' l.
Proof.
  intros N. induction l as [|[k0 v] r IH]; simpl.
  - destruct (k =? k')%string eqn:E; [apply String.eqb_eq in E; congruence|reflexivity].
  - destruct (k0 =? k)%string eqn:E; simpl.
    + apply String.eqb_eq in E. subst k0.
      destruct (k =? k')%string eqn:E'; [apply String.eqb_eq in E'; congruence|].
      apply own_without_other. exact N.
    + destruct (k0 =? k')%string; [reflexivity|exact IH].
Qed.

(** A read of [{...v, k: x}] finds [x] under [k] and otherwise what [v]
    has. *)
Lemma get_spread_with k' v k x :
  get k' (spread_with v k x)
  = Normal (if (k =? k')%string then x else default JUndefined (own k' (own_props v))).
Proof.
  unfold spread_with. simpl. destruct (k =? k')%string eqn:E.
  - apply String.eqb_eq in E. subst k'. rewrite own_assign_same. reflexivity.
  - rewrite own_assign_other; [reflexivity|].
    intros ->. rewrite String.eqb_refl in E. discriminate.
Qed.

Lemma get_spread_with_same v k x : get k (spread_with v k x) = Normal x.
Proof. rewrite get_spread_with, String.eqb_refl. reflexivity. Qed.

Lemma or_default_spread_with v k x d : or_default (spread_with v k x) d = spread_with v k x.
Proof. reflexivity. Qed.

(** The reads of the object do not tell it from the list with the new
    property in front. *)
Lemma spread_with_reads v k x k' :
  get k' (spread_with v k x) = get k' (JObj ((k, x) :: own_props v)).
Proof. rewrite get_spread_with. simpl. destruct (k =? k')%string; reflexivity. Qed.

(** The object has one property named [k]. *)
Lemma without_lacks k l : Forall (fun b => fst b <> k) (without k l).
Proof.
  induction l as [|[k' v] r IH]; simpl; [constructor|].
  destruct (k' =? k)%string eqn:E; [exact IH|].
  constructor; [|exact IH]. simpl. intros ->. rewrite String.eqb_refl in E. discriminate.
Qed.

Lemma assign_once k x l :
  exists front back,
    assign k x l = (front ++ (k, x) :: back)%list
    /\ Forall (fun b => fst b <> k) front /\ Forall (fun b => fst b <> k) back.
Proof.
  induction l as [|[k' v] r (front & back & E & F & B)]; simpl.
  - exists [], []. repeat split; constructor.
  - destruct (k' =? k)%string eqn:K.
    + apply String.eqb_eq in K. subst k'.
      exists [], (without k r). repeat split; [constructor|apply without_lacks].
    + exists ((k', v) :: front), back. rewrite E. repeat split; [|exact B].
      constructor; [|exact F]. simpl. intros ->. rewrite String.eqb_refl in K. discriminate.
Qed.

(** * Values *)

(** Induction on a value, with the hypothesis for every element of an array
    and every member of an object. *)
Lemma jsval_nested_ind (P : jsval -> Prop) :
  P JUndefined -> P JNull -> (forall b, P (JBool b)) -> (forall n, P (JNum n)) ->
  (forall s, P (JStr s)) ->
  (forall l, Forall P l -> P (JArr l)) ->
  (forall l, Forall (fun kv => P (snd kv)) l -> P (JObj l)) ->
  forall v, P v.
Proof.
  intros HU HN HB HNum HS HA HO. fix IH 1. intros v.
  destruct v as [| |b|n|s|l|l];
    [exact HU | exact HN | apply HB | apply HNum | apply HS | |].
  - apply HA. induction l as [|x r IHr]; constructor; [apply IH|exact IHr].
  - apply HO. induction l as [|[k x] r IHr]; constructor; [apply IH|exact IHr].
Qed.

(** A throw of [each f l] is a throw of [f] on an element of [l]. *)
Lemma each_throw {A B} (f : A -> completion B) (P : Error -> Prop) l :
  Forall (fun x => forall e, f x = Throw e -> P e) l ->
  forall e, each f l = Throw e -> P e.
Proof.
  induction 1 as [|x r Hx Hr IH]; intros e; simpl; [discriminate|].
  destruct (f x) eqn:E; simpl.
  - destruct (each f r) eqn:E2; simpl; [discriminate|].
    intros [= <-]. apply IH. reflexivity.
  - intros [= <-]. apply Hx. reflexivity.
Qed.

(** [ToString] throws one error only. *)
Lemma to_string_throw v : forall e, to_string v = Throw e -> e = cannot_convert.
Proof.
  induction v as [| |b|n|s|l IH|l IH] using jsval_nested_ind;
    intros e; simpl; try discriminate.
  - destruct (each _ l) eqn:E; simpl; [discriminate|]. intros [= <-].
    refine (each_throw _ (fun e => e = cannot_convert) l _ _ E).
    eapply Forall_impl; [exact IH|]. intros x Hx e'. simpl in Hx.
    destruct x; try discriminate; apply Hx.
  - destruct (own "toString" l); [|discriminate]. intros [= <-]. reflexivity.
Qed.

(** ** Thrown errors carry a message *)

Lemma loud_Normal {A} (a : A) : loud (Normal a).
Proof. intros e; discriminate. Qed.

Lemma loud_Throw {A} (e : Error) : message e <> "" -> loud (@Throw A e).
Proof. intros H e' [= <-]. exact H. Qed.

Lemma loud_bind {A B} (c : completion A) (k : A -> completion B) :
  loud c -> (forall a, loud (k a)) -> loud (bind c k).
Proof.
  intros Hc Hk e. destruct c as [a|e']; simpl.
  - apply Hk.
  - intros [= <-]. apply Hc. reflexivity.
Qed.

Lemma loud_if {A} (b : bool) (c1 c2 : completion A) :
  loud c1 -> loud c2 -> loud (if b then c1 else c2).
Proof. destruct b; auto. Qed.

Lemma loud_get k v : loud (get k v).
Proof. destruct v; intros e; simpl; try discriminate; intros [= <-]; discriminate. Qed.

Lemma loud_get0 v : loud (get0 v).
Proof. destruct v; intros e; simpl; try discriminate; intros [= <-]; discriminate. Qed.

Lemma loud_to_string v : loud (to_string v).
Proof. intros e H. rewrite (to_string_throw _ _ H). discriminate. Qed.

Lemma append_nonempty_r (s t : string) : t <> "" -> s ++ t <> "".
Proof. destruct s; simpl; [auto|discriminate]. Qed.

Lemma loud_call_trim src v : loud (call_trim src v).
Proof.
  destruct v; intros e; simpl; try discriminate; intros [= <-]; simpl;
    try discriminate; apply append_nonempty_r; discriminate.
Qed.

Create HintDb loud.

(** Through the binds and the branches of a definition, down to the reads and
    conversions, which are in the hint database. *)
Ltac loud_steps :=
  repeat match goal with
         | |- loud (bind _ _) => apply loud_bind
         | |- loud (if _ then _ else _) => apply loud_if
         | |- loud (match ?v with _ => _ end) => destruct v
         | |- loud _ => solve [auto with loud]
         | |- forall _, loud _ => intro
         end.

#[local] Hint Resolve loud_Normal loud_bind loud_if loud_get loud_get0
  loud_to_string loud_call_trim : loud.

Lemma loud_select_style_guide p : loud (Api.select_style_guide p).
Proof. unfold Api.select_style_guide. loud_steps. Qed.

Lemma loud_style_block noun g : loud (Api.style_block noun g).
Proof. unfold Api.style_block. loud_steps. Qed.

#[local] Hint Resolve loud_select_style_guide loud_style_block : loud.

Lemma loud_system_prompt p g : loud (Api.system_prompt p g).
Proof. unfold Api.system_prompt. loud_steps. Qed.

#[local] Hint Resolve loud_system_prompt : loud.

Lemma loud_user_prompt t i p : loud (Api.user_prompt t i p).
Proof. unfold Api.user_prompt. loud_steps. Qed.

#[local] Hint Resolve loud_user_prompt : loud.

Lemma loud_transform_request this t i p : loud (Api.transform_request this t i p).
Proof. unfold Api.transform_request, Api.build_system_prompt. loud_steps. Qed.

Lemma loud_browser_user_prompt t i p : loud (Browser.user_prompt t i p).
Proof. unfold Browser.user_prompt, Browser.hint. loud_steps. Qed.

#[local] Hint Resolve loud_browser_user_prompt : loud.

Lemma loud_browser_transform_request this t i p :
  loud (Browser.transform_request this t i p).
Proof. unfold Browser.transform_request. loud_steps. Qed.

(** The error of a response with a status outside 200-299 has a message. *)
Lemma api_error_message r : message (Browser.api_error r) <> "".
Proof.
  unfold Browser.api_error.
  match goal with |- context [match ?c with Normal _ => _ | Throw _ => _ end] =>
    assert (L : loud c); [|destruct c as [d|e]] end.
  - loud_steps.
  - discriminate.
  - apply L. reflexivity.
Qed.

(** C1. Whatever the text, the instruction and the options, the promise
    [transform] returns is fulfilled, never rejected: no exception leaves the
    client.  When the provider fails (the SDK rejects the request; in the
    browser client [fetch] rejects or answers with a status outside 200-299),
    the result has [success: false] and a non-empty [error]. *)
Theorem transform_reports_upstream_failure :
  (forall this env text instruction additionalParams,
     exists r,
       fst (Api.transform this env text instruction additionalParams) = Fulfilled r
       /\ (upstream_fails env ->
           Api.success r = false
           /\ exists m, Api.error r = Some m /\ m <> ""))
  /\
  (forall this env text instruction additionalParams,
     exists r,
       fst (Browser.transform this env text instruction additionalParams) = Fulfilled r
       /\ (browser_upstream_fails env ->
           Browser.success r = false
           /\ exists m, Browser.error r = Some m /\ m <> "")).
Proof.
  split; intros this env text instruction additionalParams.
  - unfold Api.transform.
    destruct (Api.transform_request _ _ _ _) as [rq|e] eqn:E.
    + destruct (create env rq) as [msg|e] eqn:C.
      * destruct (Api.response_text msg) as [t|e] eqn:R; eexists; (split; [reflexivity|]);
          intros F; destruct (F rq) as (e' & C' & _); congruence.
      * eexists; split; [reflexivity|]. intros F. split; [reflexivity|].
        eexists; split; [reflexivity|].
        destruct (F rq) as (e' & C' & M). congruence.
    + eexists; split; [reflexivity|]. intros _. split; [reflexivity|].
      eexists; split; [reflexivity|]. eapply loud_transform_request. exact E.
  - unfold Browser.transform.
    destruct (Browser.transform_request _ _ _ _) as [rq|e] eqn:E.
    + destruct (Browser.fetch env rq) as [resp|e] eqn:C.
      * destruct (ok resp) eqn:O; simpl.
        -- destruct (json resp) as [d|e]; [destruct (Browser.response_text d)|];
             eexists; (split; [reflexivity|]);
             intros F; specialize (F rq); rewrite C in F; congruence.
        -- eexists; split; [reflexivity|]. intros _. split; [reflexivity|].
           eexists; split; [reflexivity|]. apply api_error_message.
      * eexists; split; [reflexivity|]. intros F. split; [reflexivity|].
        eexists; split; [reflexivity|]. specialize (F rq). rewrite C in F. exact F.
    + eexists; split; [reflexivity|]. intros _. split; [reflexivity|].
      eexists; split; [reflexivity|]. eapply loud_browser_transform_request. exact E.
Qed.

(** What the [error] of such a result is: the message of the error the
    provider rejected the request with. *)
Lemma transform_error_is_upstream_message this env text instruction params rq e :
  Api.transform_request this text instruction (or_default params (JObj [])) = Normal rq ->
  create env rq = Rejected e ->
  Api.transform this env text instruction params
  = (Fulfilled (Api.failure env e text instruction), [rq]).
Proof. intros R C. unfold Api.transform. rewrite R, C. reflexivity. Qed.

Lemma transform_reports_upstream_failure_witness :
  (exists r,
     fst (Api.transform Api.constructor overloaded
            (JStr "Draft notes about Q3 sales") (JStr "Make it formal") JUndefined)
       = Fulfilled r
     /\ Api.success r = false
     /\ exists m, Api.error r = Some m /\ m <> "")
  /\
  (exists r,
     fst (Browser.transform (Browser.constructor (JStr "key")) offline
            (JStr "Draft notes about Q3 sales") (JStr "Make it formal") JUndefined)
       = Fulfilled r
     /\ Browser.success r = false
     /\ exists m, Browser.error r = Some m /\ m <> "").
Proof.
  split.
  - destruct (proj1 transform_reports_upstream_failure Api.constructor overloaded
                (JStr "Draft notes about Q3 sales") (JStr "Make it formal") JUndefined)
      as (r & E & F).
    exists r. split; [exact E|]. apply F.
    intros rq. eexists. split; [reflexivity|discriminate].
  - destruct (proj2 transform_reports_upstream_failure (Browser.constructor (JStr "key"))
                offline (JStr "Draft notes about Q3 sales") (JStr "Make it formal")
                JUndefined)
      as (r & E & F).
    exists r. split; [exact E|]. apply F.
    intros rq. simpl. discriminate.
Defined.

(** * Style-guide generation *)

Lemma find_here p s r : strip p s = Some r -> find p s = Some ("", r).
Proof. destruct s; simpl; intros ->; reflexivity. Qed.

Lemma find_occurrence m v : forall u, find m (u ++ m ++ v) <> None.
Proof.
  induction u as [|a u IH]; simpl.
  - rewrite (find_here _ _ _ (strip_app m v)). discriminate.
  - destruct (strip m (String a (u ++ m ++ v))); [discriminate|].
    destruct (find m (u ++ m ++ v)) as [[x y]|]; [discriminate|exact IH].
Qed.

(** A heading cannot be found where its marker does not occur. *)
Lemma heading_needs_marker pre marker s :
  contains marker s = false -> after_heading (pre ++ marker) s = None.
Proof.
  unfold contains, after_heading. intros H.
  destruct (find (pre ++ marker) s) as [[u a]|] eqn:F; [|reflexivity].
  apply find_Some in F. exfalso.
  destruct (find marker s) eqn:M; [discriminate|].
  apply (find_occurrence marker a (u ++ pre)).
  rewrite <- M. f_equal. rewrite F, !app_assoc_s. reflexivity.
Qed.

(** The two patterns compute the description by headings. *)
Lemma parse_guides_by_headings full :
  Api.parse_guides full
  = Normal (comprehensive_by_headings full, concise_by_headings full).
Proof.
  unfold Api.parse_guides, comprehensive_by_headings, concise_by_headings.
  rewrite comprehensive_match, concise_match.
  destruct (after_heading "=== UMFASSENDER STYLE GUIDE" full);
    destruct (after_heading "=== PRÄZISER STYLE GUIDE" full); reflexivity.
Qed.

Lemma response_text_message s : Api.response_text (text_message s) = Normal (trim s).
Proof. reflexivity. Qed.

Lemma style_guide_request_text this e a :
  exists rq, Api.style_guide_request this (JStr e) (JStr a) = Normal rq.
Proof.
  unfold Api.style_guide_request, Api.style_guide_user.
  destruct (truthy (JStr a)); eexists; reflexivity.
Qed.

(** C4, as the specification words it, fails on a response that was cut
    after the second heading: both markers occur, the concise guide is
    empty. *)
Lemma markers_give_two_guides_fails : ~ markers_give_two_guides.
Proof.
  intros H.
  destruct (H truncated_response "● TON: warm" "") as [Both _].
  - vm_compute. reflexivity.
  - destruct Both as [_ Concise]; [vm_compute; reflexivity ..|].
    apply Concise. reflexivity.
Qed.

Lemma trimmed_nonempty s : Some (trim s) <> Some "" <-> blank s = false.
Proof.
  rewrite <- not_true_iff_false, <- trim_empty. split.
  - intros H E. apply H. rewrite E. reflexivity.
  - intros H [= E]. exact (H E).
Qed.

(** C4 (amended). For every response text of the provider, style-guide
    generation succeeds with the trimmed text as [fullResponse].  If that
    text has a heading [=== UMFASSENDER STYLE GUIDE ... ===],
    [comprehensiveGuide] is the trimmed text between the heading and the next
    [=== PRÄZISER STYLE GUIDE] (or the end); if it has a heading
    [=== PRÄZISER STYLE GUIDE ... ===], [conciseGuide] is the trimmed text
    after the heading; each of the two is non-empty exactly when the text it
    is taken from has a character other than white space.  Where there is no
    such heading, and so wherever the marker does not occur at all,
    [comprehensiveGuide] is the full response and [conciseGuide] is the empty
    string. *)
Theorem style_guide_parse :
  forall this resp time exampleText additionalInstructions,
    let env := answering (Fulfilled (text_message resp)) time in
    let full := trim resp in
    exists r,
      fst (Api.generateStyleGuide this env (JStr exampleText) (JStr additionalInstructions))
        = Fulfilled r
      /\ Api.sg_success r = true
      /\ Api.fullResponse r = Some full
      /\ Api.comprehensiveGuide r = Some (comprehensive_by_headings full)
      /\ Api.conciseGuide r = Some (concise_by_headings full)
      /\ (forall b, after_heading "=== UMFASSENDER STYLE GUIDE" full = Some b ->
          (Api.comprehensiveGuide r <> Some ""
           <-> blank (before "=== PRÄZISER STYLE GUIDE" b) = false))
      /\ (forall b, after_heading "=== PRÄZISER STYLE GUIDE" full = Some b ->
          (Api.conciseGuide r <> Some "" <-> blank b = false))
      /\ (contains "UMFASSENDER STYLE GUIDE" full = false ->
          Api.comprehensiveGuide r = Some full)
      /\ (contains "PRÄZISER STYLE GUIDE" full = false ->
          Api.conciseGuide r = Some "").
Proof.
  intros this resp time e a env full.
  unfold Api.generateStyleGuide. simpl or_default.
  destruct (style_guide_request_text this e a) as [rq ->].
  change (create env rq) with (@Fulfilled jsval (text_message resp)).
  cbv beta iota. rewrite response_text_message. simpl bind.
  rewrite parse_guides_by_headings. simpl.
  eexists. split; [reflexivity|]. simpl. fold full.
  split; [reflexivity|]. split; [reflexivity|]. split; [reflexivity|].
  split; [reflexivity|]. split; [|split; [|split]].
  - intros b H. unfold comprehensive_by_headings. rewrite H. apply trimmed_nonempty.
  - intros b H. unfold concise_by_headings. rewrite H. apply trimmed_nonempty.
  - intros H. unfold comprehensive_by_headings.
    change "=== UMFASSENDER STYLE GUIDE" with ("=== " ++ "UMFASSENDER STYLE GUIDE").
    rewrite (heading_needs_marker _ _ _ H). reflexivity.
  - intros H. unfold concise_by_headings.
    change "=== PRÄZISER STYLE GUIDE" with ("=== " ++ "PRÄZISER STYLE GUIDE").
    rewrite (heading_needs_marker _ _ _ H). reflexivity.
Qed.

Lemma style_guide_parse_witness :
  contains "PRÄZISER STYLE GUIDE" (trim "Kurz und warm.") = false
  /\ exists r,
       fst (Api.generateStyleGuide Api.constructor
              (answering (Fulfilled (text_message "Kurz und warm.")) "2025-01-01T00:00:00.000Z")
              (JStr "Hallo Welt") (JStr ""))
         = Fulfilled r
       /\ Api.conciseGuide r = Some "".
Proof.
  split; [reflexivity|].
  destruct (style_guide_parse Api.constructor "Kurz und warm."
              "2025-01-01T00:00:00.000Z" "Hallo Welt" "")
    as (r & E & _ & _ & _ & _ & _ & _ & _ & C).
  exists r. split; [exact E|]. apply C. reflexivity.
Defined.

(** * The Relay Server and the model registry *)

(** C2 (what the code does at the failing input). An EDIT request whose
    instruction is white space passes the guard of the handler, is refused by
    [edit] with a throw, and is answered with status 500. *)
Theorem edit_blank_instruction_is_internal_error :
  forall claudeAPI env,
    Server.post_transform claudeAPI env (JObj edit_with_blank_instruction)
    = ({| Server.code := 500;
          Server.body := Server.Failure "EDIT function requires a specific instruction" |},
       []).
Proof. reflexivity. Qed.

(** The part of C2 the handler does implement: EDIT with an instruction that
    is missing or falsy (the empty string), and CUSTOM with any instruction,
    are answered with status 400 and [success: false], and nothing is sent to
    the provider. *)
Lemma missing_instruction_is_bad_request :
  forall claudeAPI env fields text,
    own "text" fields = Some text -> truthy text = true ->
    (own "action" fields = Some (JStr "EDIT") ->
     forall i, get "instruction" (options_of fields) = Normal i -> truthy i = false ->
     Server.post_transform claudeAPI env (JObj fields)
     = (Server.bad_request "EDIT action requires instruction in options", []))
    /\
    (own "action" fields = Some (JStr "CUSTOM") ->
     Server.post_transform claudeAPI env (JObj fields)
     = (Server.bad_request
          "Unknown action: CUSTOM. Supported actions: ARTICULATE, REFINE, EDIT.", [])).
Proof.
  intros claudeAPI env fields text Ht Tt. split.
  - intros Ha i Hg Hi. unfold Server.post_transform. simpl.
    fold (options_of fields). rewrite Ht, Ha. simpl. rewrite Tt. simpl.
    rewrite Hg, Hi. reflexivity.
  - intros Ha. unfold Server.post_transform. simpl.
    rewrite Ht, Ha. simpl. rewrite Tt. reflexivity.
Qed.

(** C10, as the specification words it, fails for a request whose
    [exampleText] is the number 5: it is not missing, empty or white space,
    and it is not passed to style-guide generation either. *)
Lemma example_text_is_validated_fails : ~ example_text_is_validated.
Proof.
  intros H.
  destruct (H Api.constructor overloaded numeric_example) as [_ Other].
  destruct (Other eq_refl) as (s & E & _). discriminate E.
Qed.

(** C10 (amended). A request to [/api/generate-style-guide] that has a body
    is answered by what its [exampleText] is.  When it is missing or falsy
    (the empty string, [null], [false], 0) or a string of white space only,
    the answer has status 400 and [success: false] and nothing is sent to
    the Transform Client.  When it is a string with a character other than
    white space, the answer is that of style-guide generation on the trimmed
    [exampleText].  When it is any other value, [trim] cannot be called: the
    answer has status 500 and [success: false] and nothing is sent to the
    Transform Client; a request without a body is answered in the same
    way. *)
Theorem generate_style_guide_validation :
  forall claudeAPI env req_body,
    let answer := Server.post_generate_style_guide claudeAPI env req_body in
    let exampleText := example_text_of req_body in
    let refused := fun status =>
      Server.code (fst answer) = status
      /\ Server.body_success (Server.body (fst answer)) = false
      /\ snd answer = [] in
    (req_body = JUndefined \/ req_body = JNull -> refused 500)
    /\
    (req_body <> JUndefined -> req_body <> JNull ->
     (truthy exampleText = false \/ (exists s, exampleText = JStr s /\ trim s = "") ->
      refused 400)
     /\
     (forall s, exampleText = JStr s -> trim s <> "" ->
      answer
      = Server.respond Server.StyleGuide
          (Api.generateStyleGuide claudeAPI env (JStr (trim s))
             (additional_instructions_of req_body)))
     /\
     (truthy exampleText = true -> (forall s, exampleText <> JStr s) ->
      refused 500
      /\ Server.body (fst answer) = Server.Failure "exampleText.trim is not a function")).
Proof.
  intros claudeAPI env req_body answer exampleText refused. split.
  - intros [-> | ->]; repeat split.
  - intros N1 N2.
    assert (G : exists v a, get "exampleText" req_body = Normal v
                            /\ get "additionalInstructions" req_body = Normal a
                            /\ Server.destructure "exampleText" req_body = Normal req_body).
    { destruct req_body; try contradiction; simpl; eauto. }
    destruct G as (v & a & Gv & Ga & D).
    assert (Ev : exampleText = v) by (unfold exampleText, example_text_of; rewrite Gv; reflexivity).
    assert (Ea : additional_instructions_of req_body = or_default a (JStr ""))
      by (unfold additional_instructions_of; rewrite Ga; reflexivity).
    rewrite Ev, Ea. unfold refused, answer, Server.post_generate_style_guide.
    rewrite D. simpl. rewrite Gv. simpl. rewrite Ga. simpl. clear.
    split; [|split].
    + intros [F | (s & -> & T)].
      * rewrite F. simpl. auto.
      * simpl. destruct (s =? "")%string; simpl; [auto|]. rewrite T. simpl. auto.
    + intros s -> T. simpl.
      destruct (s =? "")%string eqn:S.
      * apply String.eqb_eq in S. subst s. exfalso. apply T. reflexivity.
      * simpl. destruct (trim s =? "")%string eqn:S'.
        -- apply String.eqb_eq in S'. contradiction.
        -- reflexivity.
    + intros T N. rewrite T. simpl.
      destruct v; try discriminate T; simpl; auto. exfalso. eapply N. reflexivity.
Qed.

Lemma generate_style_guide_validation_witness :
  Server.code
    (fst (Server.post_generate_style_guide Api.constructor overloaded
            (JObj [ ("exampleText", JStr "  ") ]))) = 400
  /\ Server.post_generate_style_guide Api.constructor overloaded
       (JObj [ ("exampleText", JStr " Hallo Welt ") ])
     = Server.respond Server.StyleGuide
         (Api.generateStyleGuide Api.constructor overloaded (JStr "Hallo Welt") (JStr ""))
  /\ Server.code
       (fst (Server.post_generate_style_guide Api.constructor overloaded numeric_example))
     = 500
  /\ Server.code
       (fst (Server.post_generate_style_guide Api.constructor overloaded JUndefined)) = 500.
Proof.
  split; [|split; [|split]].
  - refine (proj1 (proj1 (proj2 (generate_style_guide_validation Api.constructor overloaded
                            (JObj [ ("exampleText", JStr "  ") ])) _ _) _));
      [discriminate|discriminate|].
    right. exists "  ". split; reflexivity.
  - refine (proj1 (proj2 (proj2 (generate_style_guide_validation Api.constructor overloaded
                            (JObj [ ("exampleText", JStr " Hallo Welt ") ])) _ _))
              " Hallo Welt " eq_refl _); discriminate.
  - refine (proj1 (proj1 (proj2 (proj2 (proj2 (generate_style_guide_validation
                            Api.constructor overloaded numeric_example) _ _)) eq_refl _)));
      discriminate.
  - refine (proj1 (proj1 (generate_style_guide_validation Api.constructor overloaded
                            JUndefined) _)).
    left. reflexivity.
Defined.

(** Outside the data model: an [exampleText] that is truthy and not a string
    has no [trim] method; the call throws and the handler answers with status
    500, without a call of the Transform Client. *)
Lemma non_text_example_is_internal_error claudeAPI env fields v :
  own "exampleText" fields = Some v -> truthy v = true ->
  (forall s, v <> JStr s) ->
  Server.post_generate_style_guide claudeAPI env (JObj fields)
  = (Server.internal_error (TypeError "exampleText.trim is not a function"), []).
Proof.
  intros E T N. unfold Server.post_generate_style_guide. simpl. rewrite E. simpl.
  rewrite T. simpl.
  destruct v; try discriminate T; try reflexivity. exfalso. eapply N. reflexivity.
Qed.

(** ** setModel *)

(** The parts of C5 that hold: an identifier of the registry is selected and
    reported as a success; an identifier that is neither in the registry nor a
    property name of [Object.prototype] leaves the selection as it was and is
    reported as a failure, with status 400 by the route. *)
Lemma setModel_registered this k m :
  Api.availableModels this !! k = Some m ->
  exists this',
    Api.setModel this (JStr k) = Normal (true, this')
    /\ Api.model this' = JStr k
    /\ Api.availableModels this' = Api.availableModels this.
Proof.
  intros H. unfold Api.setModel, Api.lookup_model. simpl. rewrite H. simpl.
  eexists. repeat split.
Qed.

Lemma setModel_unknown this k :
  Api.availableModels this !! k = None -> k ∉ Object_prototype ->
  Api.setModel this (JStr k) = Normal (false, this)
  /\ exists msg, Server.post_models_set this (JObj [ ("modelId", JStr k) ])
                 = (Server.bad_request msg, this).
Proof.
  intros H N. unfold Server.post_models_set, Api.setModel, Api.lookup_model. simpl.
  rewrite H. rewrite bool_decide_eq_false_2 by exact N. simpl.
  split; [reflexivity|].
  destruct (negb (negb (k =? "")))%string eqn:E; simpl; eexists; reflexivity.
Qed.

(** C5 (what the code does at the failing input). [constructor] is not a
    key of the registry, yet [setModel] selects it and reports success, and
    the route answers with status 200: the registry is read with
    [this.availableModels[modelId]], which also finds what the object
    inherits. *)
Theorem setModel_accepts_inherited_name :
  Api.registry !! "constructor" = None
  /\ (exists this',
        Api.setModel Api.constructor (JStr "constructor") = Normal (true, this')
        /\ Api.model this' = JStr "constructor")
  /\ (let answer := Server.post_models_set Api.constructor
                      (JObj [ ("modelId", JStr "constructor") ]) in
      Server.code (fst answer) = 200
      /\ Server.body_success (Server.body (fst answer)) = true
      /\ Api.model (snd answer) = JStr "constructor").
Proof.
  split; [reflexivity|]. split.
  - eexists. split; reflexivity.
  - repeat split.
Qed.

(** The defect behind C5 and C9, for every inherited name: a name of
    [Object.prototype] that is not a key of the registry is selected all the
    same. *)
Lemma setModel_inherited this k :
  k ∈ Object_prototype -> Api.availableModels this !! k = None ->
  exists this',
    Api.setModel this (JStr k) = Normal (true, this')
    /\ Api.model this' = JStr k
    /\ Api.getCurrentModel this' = Normal {| Api.id := JStr k; Api.info := None |}.
Proof.
  intros I N. unfold Api.getCurrentModel, Api.setModel, Api.lookup_model. simpl.
  rewrite N, bool_decide_eq_true_2 by exact I. simpl.
  eexists. split; [reflexivity|]. split; [reflexivity|]. simpl.
  rewrite N, bool_decide_eq_true_2 by exact I. reflexivity.
Qed.

(** The invariant of C9 is kept by every call whose identifier is not a
    property name of [Object.prototype], hence by every sequence of such
    calls. *)
Lemma setModel_keeps_registered this i b this' :
  model_registered this -> not_inherited i ->
  Api.setModel this i = Normal (b, this') ->
  model_registered this' /\ Api.availableModels this' = Api.availableModels this.
Proof.
  intros Inv N. unfold Api.setModel, Api.lookup_model.
  destruct (to_string i) as [k|e] eqn:T; simpl; [|discriminate].
  destruct (Api.availableModels this !! k) as [m|] eqn:E; simpl.
  - intros [= <- <-]. split; [|reflexivity]. exists k. simpl. rewrite E. eauto.
  - rewrite bool_decide_eq_false_2 by exact (N k T). simpl.
    intros [= <- <-]. split; [exact Inv|reflexivity].
Qed.

Lemma setModels_keep_registered ids : forall this,
  model_registered this -> Forall not_inherited ids ->
  model_registered (setModels this ids).
Proof.
  induction ids as [|i r IH]; intros this Inv N; simpl; [exact Inv|].
  inversion N as [|? ? Ni Nr]; subst.
  destruct (Api.setModel this i) as [[b this']|e] eqn:S.
  - apply IH; [|exact Nr]. eapply setModel_keeps_registered; eauto.
  - apply IH; assumption.
Qed.

Lemma constructor_registered : model_registered Api.constructor.
Proof. eexists. split; [reflexivity|]. vm_compute. eauto. Qed.

(** C9 (what the code does at the failing input). After the calls
    [setModel('claude-opus-4-1-20250805')] and [setModel('valueOf')] the
    current model is [valueOf], which is not a key of the registry, and
    [getCurrentModel] returns the identifier without any metadata. *)
Theorem current_model_leaves_registry :
  let this := setModels Api.constructor
                [ JStr "claude-opus-4-1-20250805"; JStr "valueOf" ] in
  Api.model this = JStr "valueOf"
  /\ Api.availableModels this !! "valueOf" = None
  /\ ~ model_registered this
  /\ Api.getCurrentModel this = Normal {| Api.id := JStr "valueOf"; Api.info := None |}.
Proof.
  repeat split.
  intros (k & E & S). vm_compute in E. injection E as <-.
  vm_compute in S. destruct S as [x S]. discriminate.
Qed.

(** * Calls before initializeAPI *)

(** C7, as the specification words it, fails: [articulateText] is an [async]
    function, so the call returns a promise (a rejected one) where the claim
    has a throw. *)
Lemma uninitialized_calls_throw_fails : ~ uninitialized_calls_throw.
Proof.
  intros H.
  destruct (H (answering (Rejected (MkError "unused")) "2025-01-01T00:00:00.000Z")
              (JStr "Draft notes about Q3 sales") (JStr "shorter") JUndefined
              (JStr "claude-sonnet-4-20250514")) as [A _].
  discriminate A.
Qed.

(** C7 (amended). Before [initializeAPI] has been called, a call of
    [articulateText], [refineText], [editText] and [generateStyleGuide]
    returns a promise that is rejected with the uninitialized-client error,
    and a call of [setModel], [getAvailableModels] and [getCurrentModel]
    throws that error at the call; the functions the frontend client exports
    are all [async] and all return the rejected promise.  No request is
    issued in any of these calls. *)
Theorem uninitialized_calls :
  (forall (env : Env) (text instruction options modelId : jsval),
     let e := Api.Exports.uninitialized in
     rejected_unsent e (Api.Exports.articulateText None env text options)
     /\ rejected_unsent e (Api.Exports.refineText None env text options)
     /\ rejected_unsent e (Api.Exports.editText None env text instruction options)
     /\ rejected_unsent e (Api.Exports.generateStyleGuide None env text instruction)
     /\ call_sync (Api.Exports.setModel None modelId) = Throw e
     /\ call_sync (Api.Exports.getAvailableModels None) = Throw e
     /\ call_sync (Api.Exports.getCurrentModel None) = Throw e)
  /\
  (forall (env : Frontend.Env) (text instruction options modelId : jsval),
     let e := Frontend.Exports.uninitialized in
     rejected_unsent e (Frontend.Exports.articulateText None env text options)
     /\ rejected_unsent e (Frontend.Exports.refineText None env text options)
     /\ rejected_unsent e (Frontend.Exports.editText None env text instruction options)
     /\ rejected_unsent e (Frontend.Exports.generateStyleGuide None env text instruction)
     /\ rejected_unsent e (Frontend.Exports.getModels None env)
     /\ rejected_unsent e (Frontend.Exports.setModel None env modelId)).
Proof. split; intros; repeat split. Qed.

(** * Successful transforms *)

(** C8, as the specification words it, fails when the provider answers with
    the text it was given: the result is a success whose text equals the
    input. *)
Lemma success_changes_text_fails : ~ success_changes_text.
Proof.
  intros H.
  destruct (H Api.constructor
              (answering (Fulfilled (text_message "Draft notes about Q3 sales"))
                 "2025-01-01T00:00:00.000Z")
              "Draft notes about Q3 sales" (JStr Api.refine_instruction) refine_params
              _ eq_refl eq_refl) as (t & T & _ & D & _).
  injection T as <-. apply D. reflexivity.
Qed.

(** C8 (amended). For every successful transform the result has
    [success: true]; [transformedText] is the text of the provider's answer,
    trimmed (it can be empty and it can equal the input); [originalText] is
    the input.  The request was sent with the model selected at the time of
    the call; [model] is the model selected when the provider's answer
    arrives, which is the model of the request unless [setModel] was called
    on the instance while the request was pending. *)
Theorem successful_transform :
  forall this env text instruction additionalParams r,
    fst (Api.transform this env text instruction additionalParams) = Fulfilled r ->
    Api.success r = true ->
    exists rq message t,
      Api.transform_request this text instruction (or_default additionalParams (JObj []))
        = Normal rq
      /\ snd (Api.transform this env text instruction additionalParams) = [rq]
      /\ create env rq = Fulfilled message
      /\ Api.response_text message = Normal t
      /\ Api.transformedText r = Some t
      /\ Api.error r = None
      /\ Api.originalText r = text
      /\ rq_model rq = Api.model this
      /\ Api.result_model r = Some (Api.model (Api.resumed this (meanwhile env)))
      /\ (meanwhile env = [] -> Api.result_model r = Some (rq_model rq)).
Proof.
  intros this env text instruction additionalParams r. unfold Api.transform.
  destruct (Api.transform_request _ _ _ _) as [rq|e] eqn:E; simpl.
  - destruct (create env rq) as [msg|e] eqn:C; simpl.
    + destruct (Api.response_text msg) as [t|e] eqn:R; simpl.
      * intros [= <-] _. exists rq, msg, t.
        assert (M : rq_model rq = Api.model this).
        { unfold Api.transform_request in E.
          repeat match type of E with
                 | bind ?c _ = _ => destruct c; simpl in E; [|discriminate]
                 end.
          injection E as <-. reflexivity. }
        repeat split; try assumption.
        simpl. intros ->. rewrite M. reflexivity.
      * intros [= <-]. discriminate.
    + intros [= <-]. discriminate.
  - intros [= <-]. discriminate.
Qed.

Lemma successful_transform_witness :
  exists r,
    fst (Api.transform Api.constructor
           (answering (Fulfilled (text_message " Notes on third-quarter sales. "))
              "2025-01-01T00:00:00.000Z")
           (JStr "Draft notes about Q3 sales") (JStr Api.refine_instruction) refine_params)
      = Fulfilled r
    /\ Api.transformedText r = Some "Notes on third-quarter sales."
    /\ Api.result_model r = Some (JStr "claude-sonnet-4-5-20250929").
Proof.
  eexists. split; [reflexivity|].
  destruct (successful_transform Api.constructor
              (answering (Fulfilled (text_message " Notes on third-quarter sales. "))
                 "2025-01-01T00:00:00.000Z")
              (JStr "Draft notes about Q3 sales") (JStr Api.refine_instruction) refine_params
              _ eq_refl eq_refl)
    as (rq & message & t & Q & _ & C & R & T & _ & _ & _ & _ & M).
  simpl in C. injection C as <-. rewrite response_text_message in R.
  injection R as <-. split; [exact T|].
  rewrite (M eq_refl). injection Q as <-. reflexivity.
Defined.

Lemma resumed_setModels ids : forall this, Api.resumed this ids = setModels this ids.
Proof.
  induction ids as [|i r IH]; intros this; simpl; [reflexivity|].
  destruct (Api.setModel this i) as [[b this']|e]; apply IH.
Qed.

(** The model of the result is read after the answer: a switch of the model
    while the request is pending shows in the result, not in the request. *)
Lemma result_model_follows_a_switch :
  exists r rq,
    Api.transform Api.constructor
      (switching (Fulfilled (text_message "Notes on third-quarter sales."))
         [ JStr "claude-3-5-haiku-20241022" ] "2025-01-01T00:00:00.000Z")
      (JStr "Draft notes about Q3 sales") (JStr Api.refine_instruction) refine_params
    = (Fulfilled r, [rq])
    /\ Api.success r = true
    /\ rq_model rq = JStr "claude-sonnet-4-5-20250929"
    /\ Api.result_model r = Some (JStr "claude-3-5-haiku-20241022").
Proof. eexists _, _. repeat split. Qed.

(** * The Prompt Builder *)

Lemma style_block_text_starts word g :
  exists rest, Api.style_block_text word g = "STIL-VORGABEN:" ++ rest.
Proof.
  unfold Api.style_block_text, lines. cbn [String.concat]. eexists. reflexivity.
Qed.

(** The texts of the templates stay folded in the proofs below. *)
#[local] Opaque Api.articulate_head Api.refine_head Api.edit_head Api.generic_system
  Api.articulate_tail Api.refine_tail Api.edit_tail Api.style_block_text
  ApiJsonMode.articulate_intro ApiJsonMode.articulate_json_mode
  ApiJsonMode.articulate_principles ApiJsonMode.articulate_tail
  ApiJsonMode.refine_intro ApiJsonMode.refine_json_mode
  ApiJsonMode.refine_principles ApiJsonMode.refine_tail
  ApiJsonMode.edit_intro ApiJsonMode.edit_json_mode
  ApiJsonMode.edit_principles ApiJsonMode.edit_tail ApiJsonMode.generic_system.

Lemma template_of_kind_of t : template_of (kind_of t) = t.
Proof. destruct t; reflexivity. Qed.

(** The system prompt, given the style guide the request selects. *)
Lemma system_prompt_template params kind selected :
  get "systemPrompt" params = Normal kind ->
  Api.system_prompt params selected
  = match template_of kind with
    | Generic => Normal Api.generic_system
    | t => let* block := Api.style_block (noun t) selected in
           Normal (system_template t block)
    end.
Proof.
  intros K. unfold Api.system_prompt, template_of. rewrite K. simpl.
  destruct (is_str "articulate" kind); [reflexivity|].
  destruct (is_str "refine" kind); [reflexivity|].
  destruct (is_str "edit" kind); reflexivity.
Qed.

Lemma style_block_text_guide word s :
  Api.style_block word (JStr s)
  = Normal (if (s =? "")%string then "" else Api.style_block_text word s).
Proof. unfold Api.style_block. simpl. destruct (s =? "")%string; reflexivity. Qed.

Lemma contains_app_l a b s : contains (a ++ b) s = true -> contains a s = true.
Proof.
  unfold contains. destruct (find (a ++ b) s) as [[u v]|] eqn:F; [|discriminate].
  intros _. apply find_Some in F.
  destruct (find a s) eqn:G; [reflexivity|]. exfalso.
  apply (find_occurrence a (b ++ v) u). rewrite <- G. f_equal.
  rewrite F, app_assoc_s. reflexivity.
Qed.

(** C6, as the specification words it, fails for a request that reaches
    [transform] without one of the three actions: it gets the generic
    template, which has no style-guide block. *)
Lemma style_guide_always_appended_fails : ~ style_guide_always_appended.
Proof.
  intros H.
  destruct (H params_without_action _ "Warm, direct, second person." "Warm and direct."
              JUndefined eq_refl eq_refl ltac:(discriminate) eq_refl ltac:(discriminate)
              eq_refl) as (system & word & B & C).
  assert (E : Api.build_system_prompt params_without_action = Normal Api.generic_system)
    by reflexivity.
  rewrite E in B. injection B as <-.
  destruct (style_block_text_starts word "Warm and direct.") as [rest R].
  simpl in C. rewrite R in C. apply contains_app_l in C.
  vm_compute in C. discriminate.
Qed.

(** The guide a style-guide object gives to a template. *)
Lemma selected_guide additionalParams g comprehensive concise kind :
  get "styleGuide" additionalParams = Normal (JObj g) ->
  own "comprehensiveGuide" g = Some (JStr comprehensive) -> comprehensive <> "" ->
  own "conciseGuide" g = Some (JStr concise) ->
  get "systemPrompt" additionalParams = Normal kind ->
  Api.select_style_guide additionalParams
  = Normal (JStr (if is_str "articulate" kind then comprehensive
                  else if (concise =? "")%string then comprehensive else concise)).
Proof.
  intros SG C NE S K. apply String.eqb_neq in NE.
  unfold Api.select_style_guide.
  rewrite SG. simpl. rewrite C, K. simpl. rewrite NE. simpl. rewrite S. simpl.
  destruct (is_str "articulate" kind); [reflexivity|].
  destruct (concise =? "")%string; reflexivity.
Qed.

Lemma system_prompt_json_template params kind mode selected :
  get "systemPrompt" params = Normal kind ->
  get "mode" params = Normal mode ->
  ApiJsonMode.system_prompt params selected
  = match template_of kind with
    | Generic => Normal ApiJsonMode.generic_system
    | t => let* block := Api.style_block (noun t) selected in
           Normal (system_template_json t mode block)
    end.
Proof.
  intros K M. unfold ApiJsonMode.system_prompt, template_of. rewrite K. simpl.
  destruct (is_str "articulate" kind); [rewrite M; reflexivity|].
  destruct (is_str "refine" kind); [rewrite M; reflexivity|].
  destruct (is_str "edit" kind); [rewrite M; reflexivity|reflexivity].
Qed.

(** C6 (amended). For every transform request that carries a style-guide
    object whose comprehensive guide is a non-empty string and whose concise
    guide is a string, the system prompt of ARTICULATE holds the block with
    the comprehensive guide, and the system prompts of REFINE and EDIT hold
    the block with the concise guide, or with the comprehensive guide when the
    concise one is empty; a request with no action of these three gets the
    generic template, which holds no style-guide block.  This holds of both
    revisions of the Transform Client. *)
Theorem style_guide_block :
  forall additionalParams g comprehensive concise kind,
    get "styleGuide" additionalParams = Normal (JObj g) ->
    own "comprehensiveGuide" g = Some (JStr comprehensive) -> comprehensive <> "" ->
    own "conciseGuide" g = Some (JStr concise) ->
    get "systemPrompt" additionalParams = Normal kind ->
    let guide t :=
      Api.style_block_text (noun t)
        (match t with
         | Articulate => comprehensive
         | _ => if (concise =? "")%string then comprehensive else concise
         end) in
    Api.build_system_prompt additionalParams
    = Normal (match template_of kind with
              | Generic => Api.generic_system
              | t => system_template t (guide t)
              end)
    /\
    (forall mode,
       get "mode" additionalParams = Normal mode ->
       ApiJsonMode.build_system_prompt additionalParams
       = Normal (match template_of kind with
                 | Generic => ApiJsonMode.generic_system
                 | t => system_template_json t mode (guide t)
                 end)).
Proof.
  intros params g comprehensive concise kind SG C NE S K guide.
  unfold Api.build_system_prompt, ApiJsonMode.build_system_prompt.
  rewrite (selected_guide _ _ _ _ _ SG C NE S K). simpl bind.
  apply String.eqb_neq in NE.
  assert (B : forall word,
             Api.style_block word
               (JStr (if is_str "articulate" kind then comprehensive
                      else if (concise =? "")%string then comprehensive else concise))
             = Normal (Api.style_block_text word
                         (if is_str "articulate" kind then comprehensive
                          else if (concise =? "")%string then comprehensive else concise))).
  { intros word. rewrite style_block_text_guide.
    destruct (is_str "articulate" kind); [rewrite NE; reflexivity|].
    destruct (concise =? "")%string eqn:E; [rewrite NE | rewrite E]; reflexivity. }
  split.
  - rewrite (system_prompt_template _ _ _ K). unfold template_of, guide.
    destruct (is_str "articulate" kind) eqn:A; [rewrite B; reflexivity|].
    destruct (is_str "refine" kind); [rewrite B; reflexivity|].
    destruct (is_str "edit" kind); [rewrite B; reflexivity|reflexivity].
  - intros mode M.
    rewrite (system_prompt_json_template _ _ _ _ K M). unfold template_of, guide.
    destruct (is_str "articulate" kind) eqn:A; [rewrite B; reflexivity|].
    destruct (is_str "refine" kind); [rewrite B; reflexivity|].
    destruct (is_str "edit" kind); [rewrite B; reflexivity|reflexivity].
Qed.

Lemma style_guide_block_witness :
  Api.build_system_prompt
    (JObj [ ("systemPrompt", JStr "refine");
            ("styleGuide", JObj [ ("comprehensiveGuide", JStr "Warm, direct.");
                                  ("conciseGuide", JStr "") ]) ])
  = Normal (system_template Refine (Api.style_block_text "Verfeinerung" "Warm, direct."))
  /\
  ApiJsonMode.build_system_prompt
    (JObj [ ("systemPrompt", JStr "refine");
            ("styleGuide", JObj [ ("comprehensiveGuide", JStr "Warm, direct.");
                                  ("conciseGuide", JStr "") ]) ])
  = Normal (system_template_json Refine JUndefined
              (Api.style_block_text "Verfeinerung" "Warm, direct.")).
Proof.
  destruct (style_guide_block
              (JObj [ ("systemPrompt", JStr "refine");
                      ("styleGuide", JObj [ ("comprehensiveGuide", JStr "Warm, direct.");
                                            ("conciseGuide", JStr "") ]) ])
              [ ("comprehensiveGuide", JStr "Warm, direct."); ("conciseGuide", JStr "") ]
              "Warm, direct." "" (JStr "refine")
              eq_refl eq_refl ltac:(discriminate) eq_refl eq_refl) as [A J].
  split; [exact A | exact (J JUndefined eq_refl)].
Defined.

(** ** Well-typed requests always give a provider request *)

Lemma selected_is_text kind o :
  style_guide_shape (own "styleGuide" o) = true ->
  exists sel,
    Api.select_style_guide (JObj (("systemPrompt", kind) :: o)) = Normal sel
    /\ (sel = JNull \/ sel = JUndefined \/ exists s, sel = JStr s).
Proof.
  unfold Api.select_style_guide. simpl.
  destruct (own "styleGuide" o) as [[| | | |s|l|g]|]; simpl; try discriminate.
  - intros _. destruct (s =? "")%string; simpl; eauto 6.
  - destruct (own "comprehensiveGuide" g) as [[| | | |c|l|l]|]; simpl; try discriminate.
    + destruct (own "conciseGuide" g) as [[| | | |x|l|l]|]; simpl; try discriminate;
        destruct (own "styleGuide" g) as [[| | | |y|l|l]|]; simpl; try discriminate;
        intros _; destruct (c =? "")%string; simpl;
        try destruct (is_str "articulate" kind); simpl;
        try destruct (x =? "")%string; simpl; eauto 6.
    + destruct (own "conciseGuide" g) as [[| | | |x|l|l]|]; simpl; try discriminate;
        destruct (own "styleGuide" g) as [[| | | |y|l|l]|]; simpl; try discriminate;
        intros _; eauto 6.
  - eauto 6.
Qed.

Lemma style_block_of_text word sel :
  sel = JNull \/ sel = JUndefined \/ (exists s, sel = JStr s) ->
  exists block, Api.style_block word sel = Normal block.
Proof.
  intros [-> | [-> | [s ->]]]; unfold Api.style_block; simpl; eauto.
  destruct (s =? "")%string; simpl; eauto.
Qed.

Lemma build_system_prompt_shaped t o :
  t <> Generic -> style_guide_shape (own "styleGuide" o) = true ->
  exists block,
    Api.build_system_prompt (JObj (("systemPrompt", kind_of t) :: o))
    = Normal (system_template t block).
Proof.
  intros NG Sh. unfold Api.build_system_prompt.
  destruct (selected_is_text (kind_of t) o Sh) as (sel & -> & Simple). simpl bind.
  rewrite (system_prompt_template _ (kind_of t)) by reflexivity.
  rewrite template_of_kind_of.
  destruct (style_block_of_text (noun t) sel Simple) as [block B].
  exists block. destruct t; try contradiction; cbv iota beta zeta; rewrite B; reflexivity.
Qed.

Lemma user_prompt_shaped t text i o :
  absent_or_text (own "context" o) = true ->
  exists rest,
    Api.user_prompt (JStr text) (JStr i) (JObj (("systemPrompt", kind_of t) :: o))
    = Normal (header t ++ rest).
Proof.
  intros Sh. unfold Api.user_prompt. simpl.
  assert (H : Api.user_header (kind_of t) = header t) by (destruct t; reflexivity).
  rewrite H. unfold lines.
  destruct (own "context" o) as [[| | | |c|l|l]|]; simpl in *; try discriminate;
    try destruct (c =? "")%string; simpl; eexists; reflexivity.
Qed.

Lemma transform_request_shaped this t text i o :
  t <> Generic -> hints_shape o = true ->
  exists rq,
    Api.transform_request this (JStr text) (JStr i) (JObj (("systemPrompt", kind_of t) :: o))
    = Normal rq
    /\ built_from t rq.
Proof.
  intros NG Sh. unfold hints_shape in Sh. apply andb_true_iff in Sh as [Sc Sg].
  unfold Api.transform_request.
  destruct (build_system_prompt_shaped t o NG Sg) as [block ->].
  destruct (user_prompt_shaped t text i o Sc) as [rest ->].
  simpl. eexists. split; [reflexivity|]. split; simpl; eauto.
Qed.

(** A request that was built is sent once, whatever the provider answers. *)
Lemma transform_sends_once this env text i params rq :
  Api.transform_request this text i params = Normal rq ->
  params <> JUndefined ->
  snd (Api.transform this env text i params) = [rq].
Proof.
  intros R N. unfold Api.transform.
  replace (or_default params (JObj [])) with params by (destruct params; simpl; congruence).
  rewrite R. destruct (create env rq); [destruct (Api.response_text _)|]; reflexivity.
Qed.

(** * Dispatch of the actions *)

Lemma respond_trace {A} (wrap : A -> Server.Body) (p : promise A * trace) :
  snd (Server.respond wrap p) = snd p.
Proof. destruct p as [[a|e] t]; reflexivity. Qed.

(** A request is built from one template only. *)
Lemma built_from_one_template t t' rq : built_from t rq -> built_from t' rq -> t = t'.
Proof.
  intros [_ [rest H]] [_ [rest' H']]. rewrite H in H'.
  destruct t, t'; try reflexivity; simpl in H'; discriminate H'.
Qed.

(** C3, as the specification words it, fails for CUSTOM: the handler has no
    case for it and rejects it as an unknown action without a dispatch. *)
Lemma every_action_dispatches_once_fails : ~ every_action_dispatches_once.
Proof.
  intros H.
  destruct (H Api.constructor
              (answering (Fulfilled (text_message "unused")) "2025-01-01T00:00:00.000Z")
              custom_request "Draft notes about Q3 sales" "CUSTOM"
              [ ("instruction", JStr "Make it formal") ]
              eq_refl ltac:(discriminate) eq_refl ltac:(set_solver) eq_refl eq_refl)
    as [rq R].
  discriminate R.
Qed.

(** A request is built from what the reads of its parameters give. *)
Lemma transform_request_reads this text i p p' :
  (forall k, get k p = get k p') ->
  Api.transform_request this text i p = Api.transform_request this text i p'.
Proof.
  intros H.
  unfold Api.transform_request, Api.build_system_prompt, Api.select_style_guide,
    Api.system_prompt, Api.user_prompt.
  rewrite (H "styleGuide"), (H "systemPrompt"), (H "context"), (H "temperature").
  reflexivity.
Qed.

Lemma transform_request_spread this text i o kind rq :
  Api.transform_request this text i (JObj (("systemPrompt", kind) :: o)) = Normal rq ->
  Api.transform_request this text i
    (spread_with (or_default (JObj o) (JObj [])) "systemPrompt" kind) = Normal rq.
Proof.
  intros <-. apply transform_request_reads. intros k. apply spread_with_reads.
Qed.

(** C3 (amended). For every POST /transform request with a non-empty text
    and well-typed hints: ARTICULATE and REFINE, and EDIT with an instruction
    that has a character other than white space, are dispatched to their own
    template exactly once (one provider request, built from that template);
    CUSTOM is not an action of the Relay Server: it is answered with status
    400 as an unknown action and nothing is dispatched. *)
Theorem valid_actions_dispatch :
  forall claudeAPI env fields t o,
    own "text" fields = Some (JStr t) -> t <> "" ->
    options_of fields = JObj o -> hints_shape o = true ->
    let run := Server.post_transform claudeAPI env (JObj fields) in
    (own "action" fields = Some (JStr "ARTICULATE") ->
     exists rq, snd run = [rq] /\ built_from Articulate rq)
    /\ (own "action" fields = Some (JStr "REFINE") ->
        exists rq, snd run = [rq] /\ built_from Refine rq)
    /\ (own "action" fields = Some (JStr "EDIT") ->
        forall i, own "instruction" o = Some (JStr i) -> trim i <> "" ->
        exists rq, snd run = [rq] /\ built_from Edit rq)
    /\ (own "action" fields = Some (JStr "CUSTOM") ->
        run = (Server.bad_request
                 "Unknown action: CUSTOM. Supported actions: ARTICULATE, REFINE, EDIT.",
               [])).
Proof.
  intros claudeAPI env fields t o Ht NE Ho Sh run. subst run.
  apply String.eqb_neq in NE.
  unfold Server.post_transform. simpl. fold (options_of fields).
  rewrite Ht, Ho. simpl. rewrite NE. simpl.
  repeat split; intros Ha; rewrite Ha; simpl.
  - destruct (transform_request_shaped claudeAPI Articulate t Api.articulate_instruction o
                ltac:(discriminate) Sh) as (rq & R & B).
    exists rq. split; [|exact B]. rewrite respond_trace.
    apply transform_sends_once; [|discriminate].
    apply transform_request_spread. exact R.
  - destruct (transform_request_shaped claudeAPI Refine t Api.refine_instruction o
                ltac:(discriminate) Sh) as (rq & R & B).
    exists rq. split; [|exact B]. rewrite respond_trace.
    apply transform_sends_once; [|discriminate].
    apply transform_request_spread. exact R.
  - intros i Hi Ti. rewrite Hi. simpl.
    assert (Ne : (i =? "")%string = false).
    { apply String.eqb_neq. intros ->. apply Ti. reflexivity. }
    rewrite Ne. simpl.
    destruct (transform_request_shaped claudeAPI Edit t (trim i) o
                ltac:(discriminate) Sh) as (rq & R & B).
    exists rq. split; [|exact B]. rewrite respond_trace.
    unfold Api.edit, Api.edit_instruction. simpl. rewrite Ne. simpl.
    apply String.eqb_neq in Ti. rewrite Ti.
    apply transform_sends_once; [|discriminate].
    apply transform_request_spread. exact R.
  - reflexivity.
Qed.

Lemma valid_actions_dispatch_witness :
  exists rq,
    snd (Server.post_transform Api.constructor
           (answering (Fulfilled (text_message "Notes on third-quarter sales."))
              "2025-01-01T00:00:00.000Z")
           (JObj [ ("text", JStr "Draft notes about Q3 sales");
                   ("action", JStr "EDIT");
                   ("options", JObj [ ("instruction", JStr " Make it formal ") ]) ]))
    = [rq]
    /\ built_from Edit rq.
Proof.
  refine (proj1 (proj2 (proj2
            (valid_actions_dispatch Api.constructor _
               [ ("text", JStr "Draft notes about Q3 sales");
                 ("action", JStr "EDIT");
                 ("options", JObj [ ("instruction", JStr " Make it formal ") ]) ]
               "Draft notes about Q3 sales"
               [ ("instruction", JStr " Make it formal ") ]
               eq_refl _ eq_refl eq_refl))) eq_refl " Make it formal " eq_refl _);
    discriminate.
Defined.

(** * More on trimming *)

Lemma trimStart_length s : (String.length (trimStart s) <= String.length s)%nat.
Proof.
  remember (String.length s) as n eqn:L. revert s L.
  induction n as [n IH] using lt_wf_ind. intros s ->.
  destruct (trimStart_step s) as [E | (r & E & Lt)].
  - rewrite E. lia.
  - rewrite E. specialize (IH _ Lt r eq_refl). lia.
Qed.

(** A string that [trimStart] leaves as it is starts with no white-space
    character. *)
Lemma trimStart_fixed_head a r :
  trimStart (String a r) = String a r ->
  ws1 a = false
  /\ (forall b r2, r = String b r2 -> ws2 a b = false)
  /\ (forall b c r3, r = String b (String c r3) -> ws3 a b c = false).
Proof.
  intros H. rewrite trimStart_unfold in H.
  assert (L : forall x, trimStart x = String a r ->
                        (String.length x < String.length (String a r))%nat -> False).
  { intros x E Lt. pose proof (trimStart_length x) as Le. rewrite E in Le. lia. }
  destruct (ws1 a); [exfalso; apply (L r H); simpl; lia|].
  split; [reflexivity|]. split.
  - intros b r2 ->. destruct (ws2 a b); [exfalso; apply (L r2 H); simpl; lia|reflexivity].
  - intros b c r3 ->. destruct (ws2 a b); [exfalso; apply (L (String c r3) H); simpl; lia|].
    destruct (ws3 a b c); [exfalso; apply (L r3 H); simpl; lia|reflexivity].
Qed.

(** What [trimEnd] drops is white space. *)
Lemma trimEnd_prefix s : exists tail, s = trimEnd s ++ tail /\ blank tail = true.
Proof.
  induction s as [|a r (tail & E & B)].
  - exists "". split; reflexivity.
  - simpl trimEnd. destruct (blank (String a r)) eqn:Bs.
    + exists (String a r). split; [reflexivity|exact Bs].
    + exists tail. split; [|exact B]. simpl. f_equal. exact E.
Qed.

(** White space in front of a string is dropped as a whole. *)
Lemma trimStart_blank_app w : forall x, blank w = true -> trimStart (w ++ x) = trimStart x.
Proof.
  remember (String.length w) as n eqn:L. revert w L.
  induction n as [n IH] using lt_wf_ind. intros w -> x B.
  unfold blank in B. apply String.eqb_eq in B.
  assert (Go : forall r, (String.length r < String.length w)%nat -> trimStart r = "" ->
                         trimStart (r ++ x) = trimStart x).
  { intros r Lt E. apply (IH _ Lt r eq_refl). unfold blank. rewrite E. reflexivity. }
  rewrite trimStart_unfold in B.
  destruct w as [|a r]; [reflexivity|].
  change (String a r ++ x) with (String a (r ++ x)).
  rewrite (trimStart_unfold (String a (r ++ x))). cbv beta iota in B |- *.
  destruct (ws1 a); [apply Go; [simpl; lia|exact B]|].
  destruct r as [|b r2]; [discriminate|].
  change (String b r2 ++ x) with (String b (r2 ++ x)). cbv beta iota in B |- *.
  destruct (ws2 a b); [apply Go; [simpl; lia|exact B]|].
  destruct r2 as [|c r3]; [discriminate|].
  change (String c r3 ++ x) with (String c (r3 ++ x)). cbv beta iota in B |- *.
  destruct (ws3 a b c); [apply Go; [simpl; lia|exact B]|].
  discriminate.
Qed.

Lemma trimEnd_cons a r :
  trimEnd (String a r) = if blank (String a r) then "" else String a (trimEnd r).
Proof. reflexivity. Qed.

(** Dropping white space at the end brings none to the front. *)
Lemma trimStart_trimEnd t : trimStart t = t -> trimStart (trimEnd t) = trimEnd t.
Proof.
  intros H. destruct t as [|a r]; [reflexivity|].
  destruct (trimStart_fixed_head a r H) as (W1 & W2 & W3).
  rewrite trimEnd_cons.
  destruct (blank (String a r)); [reflexivity|].
  rewrite trimStart_unfold, W1.
  destruct r as [|b r2]; [reflexivity|].
  rewrite trimEnd_cons. destruct (blank (String b r2)); [reflexivity|].
  rewrite (W2 b r2 eq_refl).
  destruct r2 as [|c r3]; [reflexivity|].
  rewrite trimEnd_cons. destruct (blank (String c r3)); [reflexivity|].
  rewrite (W3 b c r3 eq_refl). reflexivity.
Qed.

Lemma trimEnd_idempotent s : trimEnd (trimEnd s) = trimEnd s.
Proof.
  induction s as [|a r IH]; [reflexivity|].
  rewrite trimEnd_cons. destruct (blank (String a r)) eqn:B; [reflexivity|].
  rewrite trimEnd_cons, IH.
  destruct (blank (String a (trimEnd r))) eqn:B'; [|reflexivity].
  exfalso. destruct (trimEnd_prefix r) as (tail & E & Bt).
  pose proof (trimStart_blank_app (String a (trimEnd r)) tail B') as T.
  simpl String.append in T. rewrite <- E in T.
  unfold blank in B, Bt. apply String.eqb_eq in Bt. rewrite T, Bt in B. discriminate.
Qed.

(** Trimming a trimmed string changes nothing. *)
Lemma trim_idempotent s : trim (trim s) = trim s.
Proof.
  unfold trim.
  rewrite (trimStart_trimEnd (trimStart s) (trimStart_idempotent s)).
  apply trimEnd_idempotent.
Qed.

(** * The Transform Client, further properties *)

(** How a run of [transform] goes: the request cannot be built and nothing
    is sent, or it is built and sent once. *)
Lemma transform_cases this env text i params :
  (exists e,
     Api.transform_request this text i (or_default params (JObj [])) = Throw e
     /\ Api.transform this env text i params = (Fulfilled (Api.failure env e text i), []))
  \/
  (exists rq r,
     Api.transform_request this text i (or_default params (JObj [])) = Normal rq
     /\ Api.transform this env text i params = (Fulfilled r, [rq])
     /\ Api.originalText r = text /\ Api.instruction r = i
     /\ (Api.success r = false /\ Api.transformedText r = None
         \/ exists m s, create env rq = Fulfilled m /\ Api.response_text m = Normal s
                        /\ Api.success r = true /\ Api.transformedText r = Some s)).
Proof.
  unfold Api.transform.
  destruct (Api.transform_request _ _ _ _) as [rq|e]; [right|left; eauto].
  exists rq. destruct (create env rq) as [m|e] eqn:C.
  - destruct (Api.response_text m) as [s|e] eqn:R; eexists;
      (split; [reflexivity|]); (split; [reflexivity|]); simpl; eauto 10.
  - eexists. split; [reflexivity|]. split; [reflexivity|]. simpl. auto.
Qed.

Lemma response_text_trimmed m s : Api.response_text m = Normal s -> trim s = s.
Proof.
  unfold Api.response_text.
  destruct (get "content" m) as [c|]; simpl; [|discriminate].
  destruct (get0 c) as [f|]; simpl; [|discriminate].
  destruct (get "text" f) as [t|]; simpl; [|discriminate].
  destruct t; simpl; try discriminate. intros [= <-]. apply trim_idempotent.
Qed.

(** X1. White space around the instruction of [edit] is ignored: a call with
    an instruction and the call with the trimmed instruction are the same
    run, with the same requests and the same result. *)
Theorem edit_ignores_surrounding_space :
  forall this env text (i : string) additionalParams,
    Api.edit this env text (JStr i) additionalParams
    = Api.edit this env text (JStr (trim i)) additionalParams.
Proof.
  intros this env text i additionalParams. unfold Api.edit.
  assert (E : Api.edit_instruction (JStr i) = Api.edit_instruction (JStr (trim i))).
  { unfold Api.edit_instruction. simpl. rewrite trim_idempotent.
    destruct (i =? "")%string eqn:I; simpl.
    - apply String.eqb_eq in I. subst i. reflexivity.
    - destruct (trim i =? "")%string; reflexivity. }
  rewrite E. reflexivity.
Qed.

(** X2. The text of a result of [transform] has no white space at either
    end: trimming it changes nothing.  Only a successful result has a
    text. *)
Theorem transformed_text_is_trimmed :
  forall this env text instruction additionalParams r t,
    fst (Api.transform this env text instruction additionalParams) = Fulfilled r ->
    Api.transformedText r = Some t ->
    trim t = t /\ Api.success r = true.
Proof.
  intros this env text instruction additionalParams r t.
  destruct (transform_cases this env text instruction additionalParams)
    as [(e & _ & ->) | (rq & r' & _ & -> & _ & _ & [(_ & N) | (m & s & _ & R & S & T)])];
    simpl; intros [= <-].
  - discriminate.
  - rewrite N. discriminate.
  - rewrite T. intros [= <-]. split; [|exact S]. eapply response_text_trimmed. exact R.
Qed.

Lemma transformed_text_is_trimmed_witness :
  exists r,
    fst (Api.transform Api.constructor
           (answering (Fulfilled (text_message "  Notes on third-quarter sales. ")) "2025-01-01T00:00:00.000Z")
           (JStr "Draft notes about Q3 sales") (JStr "Make it formal") JUndefined)
      = Fulfilled r
    /\ Api.transformedText r = Some "Notes on third-quarter sales."
    /\ trim "Notes on third-quarter sales." = "Notes on third-quarter sales.".
Proof.
  eexists. split; [reflexivity|]. split; [reflexivity|].
  refine (proj1 (transformed_text_is_trimmed Api.constructor
                   (answering (Fulfilled (text_message "  Notes on third-quarter sales. ")) "2025-01-01T00:00:00.000Z")
                   (JStr "Draft notes about Q3 sales") (JStr "Make it formal") JUndefined
                   _ _ eq_refl eq_refl)).
Defined.

(** X3. [transform] sends at most one request.  It sends none exactly when
    the prompts cannot be built, and then reports that error.  The request it
    sends names the model selected at the time, carries the default
    [max_tokens] whatever the parameters say, and takes its temperature from
    the parameters only when that value is truthy: a temperature of 0 is
    replaced by the default. *)
Theorem transform_request_parameters :
  forall this env text instruction additionalParams,
    let run := Api.transform this env text instruction additionalParams in
    let params := or_default additionalParams (JObj []) in
    (exists e,
       Api.transform_request this text instruction params = Throw e
       /\ run = (Fulfilled (Api.failure env e text instruction), []))
    \/
    (exists rq r temperature,
       Api.transform_request this text instruction params = Normal rq
       /\ run = (Fulfilled r, [rq])
       /\ rq_model rq = Api.model this
       /\ rq_max_tokens rq = Api.max_tokens this
       /\ get "temperature" params = Normal temperature
       /\ rq_temperature rq
          = (if truthy temperature then temperature else JNum (Api.temperature this))).
Proof.
  intros this env text instruction additionalParams run params.
  destruct (transform_cases this env text instruction additionalParams)
    as [(e & E & R) | (rq & r & E & R & _)]; [left; eauto|right].
  exists rq, r. fold params in E. pose proof E as Q. unfold Api.transform_request in E.
  destruct (Api.build_system_prompt params); simpl in E; [|discriminate].
  destruct (Api.user_prompt text instruction params); simpl in E; [|discriminate].
  destruct (get "temperature" params) as [t|]; simpl in E; [|discriminate].
  injection E as <-. exists t. repeat split; assumption.
Qed.

(** ** Legacy style guides *)

(** X4. A style guide that is not the object with a comprehensive guide is
    used as it is, for every action: a non-empty string is the guide; an
    object without a [comprehensiveGuide] gives its member [styleGuide], and
    when that is a non-empty string the system prompt has the block for it;
    when the object has no such member (it has, say, only a [conciseGuide])
    the system prompt has no style-guide block at all. *)
Theorem legacy_style_guide :
  forall fields g,
    let params := JObj fields in
    let t := template_of (default JUndefined (own "systemPrompt" fields)) in
    g <> "" ->
    (own "styleGuide" fields = Some (JStr g) ->
     Api.build_system_prompt params
     = Normal (system_template t (Api.style_block_text (noun t) g)))
    /\
    (forall o,
       own "styleGuide" fields = Some (JObj o) ->
       own "comprehensiveGuide" o = None ->
       (own "styleGuide" o = Some (JStr g) ->
        Api.build_system_prompt params
        = Normal (system_template t (Api.style_block_text (noun t) g)))
       /\
       (own "styleGuide" o = None ->
        Api.build_system_prompt params = Normal (system_template t ""))).
Proof.
  intros fields g params t G.
  assert (Gb : (g =? "")%string = false) by (apply String.eqb_neq; exact G).
  assert (K : get "systemPrompt" params
              = Normal (default JUndefined (own "systemPrompt" fields))) by reflexivity.
  assert (Block : forall sel block,
            (forall word, Api.style_block word sel = Normal (block word)) ->
            Api.system_prompt params sel = Normal (system_template t (block (noun t)))).
  { intros sel block B. rewrite (system_prompt_template _ _ _ K). fold t.
    destruct t; cbv iota beta zeta; rewrite ?B; reflexivity. }
  split; [|intros o O C; split].
  - intros S. unfold Api.build_system_prompt, Api.select_style_guide. simpl.
    rewrite S. simpl. rewrite Gb. simpl.
    apply (Block (JStr g) (fun word => Api.style_block_text word g)).
    intros word. rewrite style_block_text_guide, Gb. reflexivity.
  - intros S. unfold Api.build_system_prompt, Api.select_style_guide. simpl.
    rewrite O. simpl. rewrite C, S. simpl.
    apply (Block (JStr g) (fun word => Api.style_block_text word g)).
    intros word. rewrite style_block_text_guide, Gb. reflexivity.
  - intros S. unfold Api.build_system_prompt, Api.select_style_guide. simpl.
    rewrite O. simpl. rewrite C, S. simpl.
    apply (Block JUndefined (fun _ => "")). reflexivity.
Qed.

Lemma legacy_style_guide_witness :
  Api.build_system_prompt
    (JObj [ ("systemPrompt", JStr "refine"); ("styleGuide", JStr "Warm and direct.") ])
  = Normal (system_template Refine (Api.style_block_text "Verfeinerung" "Warm and direct."))
  /\
  Api.build_system_prompt
    (JObj [ ("systemPrompt", JStr "refine");
            ("styleGuide", JObj [ ("conciseGuide", JStr "Warm and direct.") ]) ])
  = Normal (system_template Refine "").
Proof.
  split.
  - refine (proj1 (legacy_style_guide
                     [ ("systemPrompt", JStr "refine"); ("styleGuide", JStr "Warm and direct.") ]
                     "Warm and direct." _) eq_refl).
    discriminate.
  - refine (proj2 (proj2 (legacy_style_guide
                     [ ("systemPrompt", JStr "refine");
                       ("styleGuide", JObj [ ("conciseGuide", JStr "Warm and direct.") ]) ]
                     "Warm and direct." _)
                     [ ("conciseGuide", JStr "Warm and direct.") ] eq_refl eq_refl) eq_refl).
    discriminate.
Defined.

(** ** The model registry *)

(** X5. [setModel] followed by [getCurrentModel] reads back what was set: an
    identifier whose text is a key of the registry is selected, and the
    current model is then that identifier with the metadata of the registry;
    an identifier whose text is neither a key of the registry nor a property
    name of [Object.prototype] is refused and leaves the instance, hence the
    current model, as it was.  Neither call changes the registry. *)
Theorem setModel_then_getCurrentModel :
  forall this modelId k,
    to_string modelId = Normal k ->
    (forall m,
       Api.availableModels this !! k = Some m ->
       exists this',
         Api.setModel this modelId = Normal (true, this')
         /\ Api.getCurrentModel this' = Normal {| Api.id := modelId; Api.info := Some m |}
         /\ Api.getAvailableModels this' = Api.getAvailableModels this)
    /\
    (Api.availableModels this !! k = None -> k ∉ Object_prototype ->
     Api.setModel this modelId = Normal (false, this)).
Proof.
  intros this modelId k T. split.
  - intros m M. unfold Api.setModel, Api.getCurrentModel, Api.lookup_model.
    rewrite T. simpl. rewrite M. simpl. eexists. split; [reflexivity|].
    simpl. rewrite T. simpl. rewrite M. split; reflexivity.
  - intros M N. unfold Api.setModel, Api.lookup_model. rewrite T. simpl. rewrite M.
    rewrite bool_decide_eq_false_2 by exact N. reflexivity.
Qed.

Lemma setModel_then_getCurrentModel_witness :
  (exists this',
     Api.setModel Api.constructor (JStr "claude-3-5-haiku-20241022") = Normal (true, this')
     /\ Api.getCurrentModel this'
        = Normal {| Api.id := JStr "claude-3-5-haiku-20241022";
                    Api.info := Some (MkModelInfo "Claude Haiku 3.5"
                                        "Fast & cost-effective for quick responses"
                                        "$0.80/$4 per MTok" None None (Some true)) |}
     /\ Api.getAvailableModels this' = Api.registry)
  /\ Api.setModel Api.constructor (JStr "gpt-4") = Normal (false, Api.constructor).
Proof.
  split.
  - refine (proj1 (setModel_then_getCurrentModel Api.constructor
                     (JStr "claude-3-5-haiku-20241022") "claude-3-5-haiku-20241022" eq_refl)
              _ _).
    vm_compute. reflexivity.
  - refine (proj2 (setModel_then_getCurrentModel Api.constructor
                     (JStr "gpt-4") "gpt-4" eq_refl) _ _).
    + vm_compute. reflexivity.
    + apply (bool_decide_eq_false_1 _). vm_compute. reflexivity.
Defined.

(** * Style-guide generation, further properties *)

(** ** Occurrences *)

Lemma find_plain u p s a b :
  plain u = true ->
  find (String "="%char p) s = Some (a, b) ->
  find (String "="%char p) (u ++ s) = Some (u ++ a, b).
Proof.
  intros P F. induction u as [|c u IH]; [exact F|].
  simpl in P. apply andb_true_iff in P as [C P].
  change (String c u ++ s) with (String c (u ++ s)).
  change (String c u ++ a) with (String c (u ++ a)).
  cbn [find strip]. rewrite Ascii.eqb_sym. apply negb_true_iff in C. rewrite C.
  rewrite (IH P). reflexivity.
Qed.

Lemma find_at p s : find p (p ++ s) = Some ("", s).
Proof. apply find_here, strip_app. Qed.

(** The first occurrence is the first one. *)
Lemma find_first_le p w : forall u1 u v,
  find p (u1 ++ p ++ w) = Some (u, v) -> (String.length u <= String.length u1)%nat.
Proof.
  induction u1 as [|c u1 IH]; intros u v F.
  - simpl in F. rewrite find_at in F. injection F as <- _. simpl. lia.
  - change (String c u1 ++ p ++ w) with (String c (u1 ++ p ++ w)) in F.
    cbn [find] in F.
    destruct (strip p (String c (u1 ++ p ++ w))); [injection F as <- _; simpl; lia|].
    destruct (find p (u1 ++ p ++ w)) as [[u' v']|] eqn:G; [|discriminate].
    injection F as <- _. specialize (IH _ _ eq_refl). simpl. lia.
Qed.

Lemma contains_infix p w x tail :
  contains p x = true -> contains p (w ++ x ++ tail) = true.
Proof.
  unfold contains. destruct (find p x) as [[u v]|] eqn:F; [|discriminate].
  intros _. apply find_Some in F. subst x.
  destruct (find p (w ++ (u ++ p ++ v) ++ tail)) eqn:G; [reflexivity|].
  exfalso. apply (find_occurrence p (v ++ tail) (w ++ u)).
  rewrite <- G. f_equal. rewrite !app_assoc_s. reflexivity.
Qed.

(** What comes before the first occurrence of a text has no occurrence of
    it. *)
Lemma before_lacks p b : p <> "" -> contains p (before p b) = false.
Proof.
  intros N. unfold before, contains.
  destruct (find p b) as [[u v]|] eqn:F; [|rewrite F; reflexivity].
  destruct (find p u) as [[u1 v1]|] eqn:G; [|reflexivity].
  exfalso. apply find_Some in G. apply find_Some in F as E.
  rewrite G in E. rewrite E in F. rewrite !app_assoc_s in F.
  apply find_first_le in F. rewrite G, !length_app_s in F.
  destruct p; [contradiction|]. simpl in F. lia.
Qed.

(** ** A trimmed text is a part of the text *)

Lemma trimStart_suffix s : exists w, s = w ++ trimStart s.
Proof.
  remember (String.length s) as n eqn:L. revert s L.
  induction n as [n IH] using lt_wf_ind. intros s ->.
  assert (Go : forall w r, s = w ++ r -> (String.length r < String.length s)%nat ->
                           exists w', s = w' ++ trimStart r).
  { intros w r E Lt. destruct (IH _ Lt r eq_refl) as [w' E'].
    exists (w ++ w'). rewrite app_assoc_s, <- E'. exact E. }
  rewrite (trimStart_unfold s).
  destruct s as [|a r]; [exists ""; reflexivity|].
  destruct (ws1 a); [apply (Go (String a "")); [reflexivity|simpl; lia]|].
  destruct r as [|b r2]; [exists ""; reflexivity|].
  destruct (ws2 a b); [apply (Go (String a (String b ""))); [reflexivity|simpl; lia]|].
  destruct r2 as [|c r3]; [exists ""; reflexivity|].
  destruct (ws3 a b c);
    [apply (Go (String a (String b (String c "")))); [reflexivity|simpl; lia]|].
  exists ""; reflexivity.
Qed.

Lemma trim_infix s : exists w tail, s = w ++ trim s ++ tail.
Proof.
  destruct (trimStart_suffix s) as [w E].
  destruct (trimEnd_prefix (trimStart s)) as (tail & E' & _).
  exists w, tail. unfold trim. rewrite <- E'. exact E.
Qed.

Lemma contains_trim p s : contains p (trim s) = true -> contains p s = true.
Proof.
  intros H. destruct (trim_infix s) as (w & tail & E).
  rewrite E. apply contains_infix. exact H.
Qed.

Lemma by_headings_trimmed full :
  trim full = full ->
  trim (comprehensive_by_headings full) = comprehensive_by_headings full
  /\ trim (concise_by_headings full) = concise_by_headings full.
Proof.
  intros F. unfold comprehensive_by_headings, concise_by_headings.
  destruct (after_heading "=== UMFASSENDER STYLE GUIDE" full);
    destruct (after_heading "=== PRÄZISER STYLE GUIDE" full);
    split; try apply trim_idempotent; try exact F; reflexivity.
Qed.

(** X6. [generateStyleGuide] never rejects and sends at most one request.
    The request names the model selected at the time and always has
    [max_tokens] 6000, the temperature 0.3 and the same system prompt.  A
    failure has an [error] and no guide; a success has both guides,
    [styleGuide] is the comprehensive guide, and none of its texts has white
    space at either end.  Both echo the example text. *)
Theorem generateStyleGuide_settles :
  forall this env exampleText additionalInstructions,
    let run := Api.generateStyleGuide this env exampleText additionalInstructions in
    exists r,
      fst run = Fulfilled r
      /\ Api.exampleText r = exampleText
      /\ (snd run = []
          \/ exists rq,
               snd run = [rq]
               /\ rq_model rq = Api.model this
               /\ rq_max_tokens rq = 6000
               /\ rq_temperature rq = JNum (MkNumber true "0.3")
               /\ rq_system rq = Api.style_guide_system)
      /\ (Api.sg_success r = false
          /\ (exists m, Api.sg_error r = Some m)
          /\ Api.styleGuide r = None
          /\ Api.comprehensiveGuide r = None
          /\ Api.conciseGuide r = None
          \/
          Api.sg_success r = true
          /\ Api.sg_error r = None
          /\ exists full comprehensive concise,
               Api.fullResponse r = Some full
               /\ Api.comprehensiveGuide r = Some comprehensive
               /\ Api.styleGuide r = Some comprehensive
               /\ Api.conciseGuide r = Some concise
               /\ trim full = full
               /\ trim comprehensive = comprehensive
               /\ trim concise = concise).
Proof.
  intros this env exampleText additionalInstructions. unfold Api.generateStyleGuide.
  destruct (Api.style_guide_request _ _ _) as [rq|e] eqn:Q.
  - assert (P : rq_model rq = Api.model this /\ rq_max_tokens rq = 6000
                /\ rq_temperature rq = JNum (MkNumber true "0.3")
                /\ rq_system rq = Api.style_guide_system).
    { unfold Api.style_guide_request in Q.
      destruct (Api.style_guide_user _ _); simpl in Q; [|discriminate].
      injection Q as <-. repeat split. }
    destruct (create env rq) as [m|e].
    + destruct (Api.response_text m) as [full|e] eqn:R; simpl.
      * rewrite parse_guides_by_headings. simpl.
        eexists. split; [reflexivity|]. split; [reflexivity|]. split; [right; eauto|].
        right. split; [reflexivity|]. split; [reflexivity|].
        pose proof (response_text_trimmed _ _ R) as T.
        destruct (by_headings_trimmed full T) as [Tc Ts].
        eexists _, _, _. simpl. repeat split; assumption.
      * eexists. split; [reflexivity|]. split; [reflexivity|]. split; [right; eauto|].
        left. simpl. eauto 10.
    + eexists. split; [reflexivity|]. split; [reflexivity|]. split; [right; eauto|].
      left. simpl. eauto 10.
  - eexists. split; [reflexivity|]. split; [reflexivity|]. split; [left; reflexivity|].
    left. simpl. eauto 10.
Qed.

(** ** Responses with the two headings *)

Lemma find_past_comprehensive_heading s a b :
  find "=== PRÄZISER STYLE GUIDE" s = Some (a, b) ->
  find "=== PRÄZISER STYLE GUIDE" ("=== UMFASSENDER STYLE GUIDE" ++ s)
  = Some ("=== UMFASSENDER STYLE GUIDE" ++ a, b).
Proof. intros F. simpl. rewrite F. reflexivity. Qed.

Lemma find_past_closed_heading s a b :
  find "=== PRÄZISER STYLE GUIDE" s = Some (a, b) ->
  find "=== PRÄZISER STYLE GUIDE" ("===" ++ nl ++ s) = Some ("===" ++ nl ++ a, b).
Proof. intros F. simpl. rewrite F. reflexivity. Qed.

Lemma trim_after_line_break s : trim (nl ++ s) = trim s.
Proof. reflexivity. Qed.

Lemma find_plain_None u p s :
  plain u = true ->
  find (String "="%char p) s = None ->
  find (String "="%char p) (u ++ s) = None.
Proof.
  intros P F. induction u as [|c u IH]; [exact F|].
  simpl in P. apply andb_true_iff in P as [C P].
  change (String c u ++ s) with (String c (u ++ s)).
  cbn [find strip]. rewrite Ascii.eqb_sym. apply negb_true_iff in C. rewrite C.
  rewrite (IH P). reflexivity.
Qed.

Lemma find_past_closed_heading_None s :
  find "=== PRÄZISER STYLE GUIDE" s = None ->
  find "=== PRÄZISER STYLE GUIDE" ("===" ++ nl ++ s) = None.
Proof. intros F. simpl. rewrite F. reflexivity. Qed.

Lemma find_in_plain p s : plain s = true -> find (String "="%char p) s = None.
Proof.
  intros P. rewrite <- (app_empty_r s). apply find_plain_None; [exact P|reflexivity].
Qed.

(** X7. The comprehensive guide holds the text [=== PRÄZISER STYLE GUIDE]
    only when it is the full response, which is what it is when the response
    has no heading of the comprehensive guide.  That does not keep the
    concise guide out of it: when the first heading is not closed by [===],
    the [===] that opens the second heading closes it, and the comprehensive
    guide is the rest of the second heading line together with the whole
    concise guide. *)
Theorem comprehensive_guide_and_concise_heading :
  (forall full comprehensive concise,
     Api.parse_guides full = Normal (comprehensive, concise) ->
     contains "=== PRÄZISER STYLE GUIDE" comprehensive = true ->
     comprehensive = full
     /\ after_heading "=== UMFASSENDER STYLE GUIDE" full = None)
  /\
  (forall pre b1 h2 b2,
     plain pre = true -> plain b1 = true -> plain h2 = true -> plain b2 = true ->
     Api.parse_guides (unclosed pre b1 h2 b2)
     = Normal (trim (" PRÄZISER STYLE GUIDE" ++ h2 ++ "===" ++ nl ++ b2), trim b2)).
Proof.
  split.
  - intros full comprehensive concise. rewrite parse_guides_by_headings.
    intros [= <- _]. unfold comprehensive_by_headings.
    destruct (after_heading "=== UMFASSENDER STYLE GUIDE" full) as [b|]; [|auto].
    intros C. apply contains_trim in C.
    rewrite before_lacks in C by discriminate. discriminate.
  - intros pre b1 h2 b2 Ppre Pb1 Ph2 Pb2.
    rewrite parse_guides_by_headings.
    set (Z := h2 ++ "===" ++ nl ++ b2).
    set (B := " PRÄZISER STYLE GUIDE" ++ Z).
    assert (A1 : after_heading "=== UMFASSENDER STYLE GUIDE" (unclosed pre b1 h2 b2)
                 = Some B).
    { unfold after_heading, unclosed. fold Z.
      rewrite (find_plain pre _ _ "" (b1 ++ "=== PRÄZISER STYLE GUIDE" ++ Z) Ppre)
        by apply (find_at "=== UMFASSENDER STYLE GUIDE").
      change (b1 ++ "=== PRÄZISER STYLE GUIDE" ++ Z) with (b1 ++ "===" ++ B).
      rewrite (find_plain b1 _ _ "" B Pb1) by apply (find_at "===").
      reflexivity. }
    assert (N : find "=== PRÄZISER STYLE GUIDE" B = None).
    { unfold B, Z. apply find_plain_None; [reflexivity|].
      apply find_plain_None; [exact Ph2|].
      apply find_past_closed_heading_None. apply find_in_plain. exact Pb2. }
    assert (A2 : after_heading "=== PRÄZISER STYLE GUIDE" (unclosed pre b1 h2 b2)
                 = Some (nl ++ b2)).
    { unfold after_heading, unclosed. fold Z.
      erewrite find_plain; [|exact Ppre|].
      2:{ apply find_past_comprehensive_heading. apply find_plain; [exact Pb1|].
          apply (find_at "=== PRÄZISER STYLE GUIDE"). }
      unfold Z. rewrite (find_plain h2 _ _ "" (nl ++ b2) Ph2) by apply (find_at "===").
      reflexivity. }
    unfold comprehensive_by_headings, concise_by_headings.
    rewrite A1, A2. unfold before. rewrite N, trim_after_line_break. reflexivity.
Qed.

Lemma comprehensive_guide_and_concise_heading_witness :
  (Api.parse_guides "=== PRÄZISER STYLE GUIDE === Kurz und warm."
   = Normal ("=== PRÄZISER STYLE GUIDE === Kurz und warm.", "Kurz und warm.")
   /\ after_heading "=== UMFASSENDER STYLE GUIDE"
        "=== PRÄZISER STYLE GUIDE === Kurz und warm." = None)
  /\ Api.parse_guides
       (unclosed "" (nl ++ "Warm und direkt." ++ nl) " (für Textverfeinerung) "
          "Kurz und warm.")
     = Normal ("PRÄZISER STYLE GUIDE (für Textverfeinerung) ===" ++ nl ++ "Kurz und warm.",
               "Kurz und warm.").
Proof.
  split.
  - split; [reflexivity|].
    refine (proj2 (proj1 comprehensive_guide_and_concise_heading
                     "=== PRÄZISER STYLE GUIDE === Kurz und warm."
                     "=== PRÄZISER STYLE GUIDE === Kurz und warm." "Kurz und warm."
                     eq_refl eq_refl)).
  - exact (proj2 comprehensive_guide_and_concise_heading
             "" (nl ++ "Warm und direkt." ++ nl) " (für Textverfeinerung) "
             "Kurz und warm." eq_refl eq_refl eq_refl eq_refl).
Defined.

(** X8. A response in the requested format is read back into its two guides,
    trimmed, when the text before the first heading, the rest of the two
    heading lines and the comprehensive guide have no [=]. *)
Theorem requested_format_is_read_back :
  forall pre h1 b1 h2 b2,
    plain pre = true -> plain h1 = true -> plain b1 = true -> plain h2 = true ->
    Api.parse_guides (formatted pre h1 b1 h2 b2) = Normal (trim b1, trim b2).
Proof.
  intros pre h1 b1 h2 b2 Ppre Ph1 Pb1 Ph2.
  rewrite parse_guides_by_headings.
  set (Z := h2 ++ "===" ++ b2).
  set (Y := nl ++ b1 ++ "=== PRÄZISER STYLE GUIDE" ++ Z).
  assert (Closed : forall h rest, plain h = true ->
            find "===" (h ++ "===" ++ rest) = Some (h ++ "", rest)).
  { intros h rest Ph. apply find_plain; [exact Ph|]. apply (find_at "==="). }
  assert (A1 : after_heading "=== UMFASSENDER STYLE GUIDE" (formatted pre h1 b1 h2 b2)
               = Some Y).
  { unfold after_heading, formatted.
    rewrite (find_plain pre _ _ "" (h1 ++ "===" ++ Y) Ppre)
      by apply (find_at "=== UMFASSENDER STYLE GUIDE").
    rewrite (Closed h1 Y Ph1). reflexivity. }
  assert (A2 : after_heading "=== PRÄZISER STYLE GUIDE" (formatted pre h1 b1 h2 b2)
               = Some b2).
  { unfold after_heading, formatted.
    erewrite find_plain; [|exact Ppre|].
    2:{ apply find_past_comprehensive_heading. apply find_plain; [exact Ph1|].
        apply find_past_closed_heading. apply find_plain; [exact Pb1|].
        apply (find_at "=== PRÄZISER STYLE GUIDE"). }
    fold Z. unfold Z. rewrite (Closed h2 b2 Ph2). reflexivity. }
  assert (B : before "=== PRÄZISER STYLE GUIDE" Y = nl ++ b1).
  { unfold before, Y.
    change (nl ++ b1 ++ "=== PRÄZISER STYLE GUIDE" ++ Z)
      with ((nl ++ b1) ++ "=== PRÄZISER STYLE GUIDE" ++ Z).
    rewrite (find_plain (nl ++ b1) _ _ "" Z)
      by (try apply (find_at "=== PRÄZISER STYLE GUIDE"); exact Pb1).
    apply app_empty_r. }
  unfold comprehensive_by_headings, concise_by_headings.
  rewrite A1, A2, B, trim_after_line_break. reflexivity.
Qed.

Lemma requested_format_is_read_back_witness :
  Api.parse_guides
    (formatted "" " (für Grund-Textentwicklung) " (nl ++ "● TON: warm" ++ nl ++ nl)
       " (für Textverfeinerung) " (nl ++ nl ++ "● TON: knapp"))
  = Normal ("● TON: warm", "● TON: knapp").
Proof.
  exact (requested_format_is_read_back
           "" " (für Grund-Textentwicklung) " (nl ++ "● TON: warm" ++ nl ++ nl)
           " (für Textverfeinerung) " (nl ++ nl ++ "● TON: knapp")
           eq_refl eq_refl eq_refl eq_refl).
Defined.

(** * The Relay Server, further properties *)

Lemma transform_settles this env text i params :
  exists r sent,
    Api.transform this env text i params = (Fulfilled r, sent)
    /\ (length sent <= 1)%nat
    /\ Api.originalText r = text.
Proof.
  destruct (transform_cases this env text i params)
    as [(e & _ & ->) | (rq & r & _ & -> & O & _)]; eexists _, _;
    (split; [reflexivity|]); simpl; split; auto.
Qed.

Lemma relayed_failure {A} (wrap : A -> Server.Body) (c : Z) (m : string) :
  c = 400 \/ c = 500 ->
  relayed wrap ({| Server.code := c; Server.body := Server.Failure m |}, []).
Proof. intros C. right. simpl. eauto. Qed.

Lemma relayed_transform this env text i params :
  relayed Server.Transformed (Server.respond Server.Transformed (Api.transform this env text i params)).
Proof.
  destruct (transform_settles this env text i params) as (r & sent & -> & L & _).
  left. simpl. eauto.
Qed.

Lemma generateStyleGuide_run this env exampleText extra :
  exists r sent,
    Api.generateStyleGuide this env exampleText extra = (Fulfilled r, sent)
    /\ (length sent <= 1)%nat.
Proof.
  unfold Api.generateStyleGuide.
  destruct (Api.style_guide_request _ _ _) as [rq|e]; [|eexists _, _; split; [reflexivity|simpl; lia]].
  destruct (create env rq) as [m|e]; [|eexists _, _; split; [reflexivity|simpl; lia]].
  destruct (bind (Api.response_text m) _) as [[full [c s]]|e];
    eexists _, _; (split; [reflexivity|simpl; lia]).
Qed.

(** X9. Whatever the body of a request to [/api/transform], the handler
    answers with status 200, 400 or 500.  With status 200 the body is the
    result of the Transform Client and at most one request went to the
    provider; with status 400 or 500 the body is a failure and no request
    went to the provider. *)
Theorem transform_route_sends_only_with_200 :
  forall claudeAPI env req_body,
    relayed Server.Transformed (Server.post_transform claudeAPI env req_body).
Proof.
  intros claudeAPI env req_body. unfold Server.post_transform.
  destruct (bind (Server.destructure "text" req_body) _) as [[[text action] options]|e];
    [|apply relayed_failure; auto].
  destruct (negb (truthy text) || negb (truthy action)); [apply relayed_failure; auto|].
  destruct (is_str "ARTICULATE" action); [apply relayed_transform|].
  destruct (is_str "REFINE" action); [apply relayed_transform|].
  destruct (is_str "EDIT" action).
  - destruct (get "instruction" options) as [instruction|e]; [|apply relayed_failure; auto].
    destruct (negb (truthy instruction)); [apply relayed_failure; auto|].
    unfold Api.edit. destruct (Api.edit_instruction instruction) as [trimmed|e].
    + apply relayed_transform.
    + apply relayed_failure; auto.
  - destruct (to_string action); apply relayed_failure; auto.
Qed.

(** X10. Whatever the body of a request to [/api/generate-style-guide], the
    handler answers with status 200, 400 or 500.  With status 200 the body is
    the result of style-guide generation and at most one request went to the
    provider; with status 400 or 500 the body is a failure and no request
    went to the provider. *)
Theorem style_guide_route_sends_only_with_200 :
  forall claudeAPI env req_body,
    relayed Server.StyleGuide (Server.post_generate_style_guide claudeAPI env req_body).
Proof.
  intros claudeAPI env req_body. unfold Server.post_generate_style_guide.
  destruct (bind (Server.destructure "exampleText" req_body) _) as [[exampleText extra]|e];
    [|apply relayed_failure; auto].
  destruct (negb (truthy exampleText)); [apply relayed_failure; auto|].
  destruct (call_trim "exampleText" exampleText) as [trimmed|e];
    [|apply relayed_failure; auto].
  destruct (trimmed =? "")%string; [apply relayed_failure; auto|].
  destruct (generateStyleGuide_run claudeAPI env (JStr trimmed) extra)
    as (r & sent & -> & L).
  left. simpl. eauto.
Qed.

(** X11. The handler of [/api/transform] answers a request with a text and
    the action ARTICULATE or REFINE with status 200, whatever the options
    and whatever the provider does: a failure of the provider is reported
    inside the body, as a result with [success: false], never by the status.
    The result echoes the text of the request. *)
Theorem articulate_and_refine_answer_200 :
  forall claudeAPI env fields text action,
    own "text" fields = Some text -> truthy text = true ->
    own "action" fields = Some (JStr action) ->
    action = "ARTICULATE" \/ action = "REFINE" ->
    exists r sent,
      Server.post_transform claudeAPI env (JObj fields)
      = ({| Server.code := 200; Server.body := Server.Transformed r |}, sent)
      /\ Api.originalText r = text
      /\ (upstream_fails env -> Api.success r = false).
Proof.
  intros claudeAPI env fields text action T Tt A Act.
  unfold Server.post_transform. simpl. rewrite T, A. simpl. rewrite Tt. simpl.
  assert (Go : forall i params,
            exists r sent,
              Server.respond Server.Transformed (Api.transform claudeAPI env text i params)
              = ({| Server.code := 200; Server.body := Server.Transformed r |}, sent)
              /\ Api.originalText r = text
              /\ (upstream_fails env -> Api.success r = false)).
  { intros i params.
    destruct (transform_cases claudeAPI env text i params)
      as [(e & _ & ->) | (rq & r & _ & -> & O & _ & [(S & _) | (m & s & C & _)])];
      eexists _, _; (split; [reflexivity|]); (split; [auto|]); intros F; auto.
    destruct (F rq) as (e & C' & _). congruence. }
  destruct Act as [-> | ->]; simpl; apply Go.
Qed.

Lemma articulate_and_refine_answer_200_witness :
  exists r sent,
    Server.post_transform Api.constructor overloaded
      (JObj [ ("text", JStr "Draft notes about Q3 sales"); ("action", JStr "REFINE") ])
    = ({| Server.code := 200; Server.body := Server.Transformed r |}, sent)
    /\ Api.success r = false.
Proof.
  destruct (articulate_and_refine_answer_200 Api.constructor overloaded
              [ ("text", JStr "Draft notes about Q3 sales"); ("action", JStr "REFINE") ]
              (JStr "Draft notes about Q3 sales") "REFINE" eq_refl eq_refl eq_refl
              (or_intror eq_refl)) as (r & sent & E & _ & F).
  exists r, sent. split; [exact E|]. apply F.
  intros rq. eexists. split; [reflexivity|discriminate].
Defined.

(** ** The model routes *)

Lemma post_models_set_cases claudeAPI req_body :
  (exists c m,
     (c = 400 \/ c = 500)
     /\ Server.post_models_set claudeAPI req_body
        = ({| Server.code := c; Server.body := Server.Failure m |}, claudeAPI))
  \/
  (exists modelId k i,
     get "modelId" req_body = Normal modelId
     /\ truthy modelId = true
     /\ to_string modelId = Normal k
     /\ Server.post_models_set claudeAPI req_body
        = ({| Server.code := 200;
              Server.body := Server.ModelSet {| Api.id := modelId; Api.info := i |} |},
           {| Api.availableModels := Api.availableModels claudeAPI;
              Api.model := modelId;
              Api.max_tokens := Api.max_tokens claudeAPI;
              Api.temperature := Api.temperature claudeAPI |})).
Proof.
  unfold Server.post_models_set.
  assert (D : forall v, Server.destructure "modelId" req_body = Normal v -> v = req_body).
  { destruct req_body; simpl; congruence. }
  destruct (Server.destructure "modelId" req_body) as [b|e] eqn:Db; simpl;
    [rewrite (D b eq_refl) | left; eauto 6].
  destruct (get "modelId" req_body) as [modelId|e] eqn:G; simpl; [|left; eauto 6].
  destruct (truthy modelId) eqn:T; simpl; [|left; eauto 6].
  unfold Api.setModel, Api.getCurrentModel, Api.lookup_model.
  destruct (to_string modelId) as [k|e] eqn:K; simpl; [|left; eauto 6].
  destruct (member_truthy _) eqn:M; simpl.
  - rewrite K. simpl. right. eauto 10.
  - left; eauto 6.
Qed.

(** X12. A request to [/api/models/set] never changes the registry.  When
    it is answered with status 200, the current model is the [modelId] of the
    request and the body reports that model; when it is answered with status
    400 or 500, the body is a failure and the instance is left exactly as it
    was. *)
Theorem models_set_route_state :
  forall claudeAPI req_body,
    let answer := Server.post_models_set claudeAPI req_body in
    Api.availableModels (snd answer) = Api.availableModels claudeAPI
    /\ (Server.code (fst answer) = 200
        /\ (exists modelId i,
              get "modelId" req_body = Normal modelId
              /\ truthy modelId = true
              /\ Api.model (snd answer) = modelId
              /\ Server.body (fst answer)
                 = Server.ModelSet {| Api.id := modelId; Api.info := i |})
        \/
        (Server.code (fst answer) = 400 \/ Server.code (fst answer) = 500)
        /\ (exists m, Server.body (fst answer) = Server.Failure m)
        /\ snd answer = claudeAPI).
Proof.
  intros claudeAPI req_body.
  destruct (post_models_set_cases claudeAPI req_body)
    as [(c & m & C & E) | (modelId & k & i & G & T & _ & E)]; cbv zeta; rewrite E; simpl.
  - split; [reflexivity|]. right. eauto.
  - split; [reflexivity|]. left. split; [reflexivity|]. eauto 10.
Qed.

Lemma after_model_requests_invariant bodies : forall claudeAPI,
  (exists k, to_string (Api.model claudeAPI) = Normal k) ->
  Api.availableModels (after_model_requests claudeAPI bodies) = Api.availableModels claudeAPI
  /\ exists k, to_string (Api.model (after_model_requests claudeAPI bodies)) = Normal k.
Proof.
  induction bodies as [|b r IH]; intros claudeAPI K; simpl; [auto|].
  destruct (post_models_set_cases claudeAPI b)
    as [(c & m & C & E) | (modelId & k & i & G & T & Q & E)]; rewrite E; simpl.
  - apply IH. exact K.
  - destruct (IH {| Api.availableModels := Api.availableModels claudeAPI;
                    Api.model := modelId;
                    Api.max_tokens := Api.max_tokens claudeAPI;
                    Api.temperature := Api.temperature claudeAPI |}) as [R K'];
      [simpl; eauto|].
    split; [exact R|exact K'].
Qed.

(** X13. Whatever requests [/api/models/set] has served since the server
    started, [/api/models] answers with status 200 and lists the four models
    of the registry: the registry is never changed and the current model can
    always be reported. *)
Theorem models_route_after_any_requests :
  forall bodies,
    exists current,
      Server.get_models (after_model_requests Api.constructor bodies)
      = {| Server.code := 200; Server.body := Server.Models Api.registry current |}.
Proof.
  intros bodies.
  destruct (after_model_requests_invariant bodies Api.constructor) as [R (k & K)];
    [eexists; reflexivity|].
  unfold Server.get_models, Api.getCurrentModel, Api.lookup_model, Api.getAvailableModels.
  rewrite K, R. simpl. eexists. reflexivity.
Qed.

(** ** The health route *)

(** X14. The probe of [validateConnection] is one request for the current
    model with [max_tokens] 10, and its promise is never rejected; so
    [/api/health] always answers with status 200 and the status text [ok],
    also when the provider cannot be reached: the state of the provider is
    only in the member [claude], whose [success] tells whether the provider
    answered the probe.  The model it reports with a success is the model
    selected when the answer arrives. *)
Theorem health_route_is_always_ok :
  forall claudeAPI probe meanwhile now,
    let request := {| pb_model := Api.model claudeAPI; pb_max_tokens := 10;
                      pb_user := "Hello" |} in
    exists validation,
      Server.get_health claudeAPI probe meanwhile now
      = ({| Server.health_code := 200;
            Server.health_status := "ok";
            Server.health_timestamp := now;
            Server.claude := Some validation;
            Server.health_error := None |}, [request])
      /\ Api.validateConnection claudeAPI probe meanwhile
         = (Fulfilled validation, [request])
      /\ match probe request with
         | Fulfilled _ =>
             Api.cn_success validation = true
             /\ Api.cn_model validation
                = Some (Api.model (Api.resumed claudeAPI meanwhile))
             /\ Api.cn_error validation = None
         | Rejected e =>
             Api.cn_success validation = false
             /\ Api.cn_model validation = None
             /\ Api.cn_error validation = Some (message e)
         end.
Proof.
  intros claudeAPI probe meanwhile now request.
  unfold Server.get_health, Api.validateConnection. fold request.
  destruct (probe request); eexists; repeat split.
Qed.

(** * The browser client, further properties *)

Lemma browser_transform_cases this env text i params :
  (exists e,
     Browser.transform_request this text i (or_default params (JObj [])) = Throw e
     /\ Browser.transform this env text i params
        = (Fulfilled (Browser.failure env e text i), []))
  \/
  (exists rq r,
     Browser.transform_request this text i (or_default params (JObj [])) = Normal rq
     /\ Browser.transform this env text i params = (Fulfilled r, [rq])).
Proof.
  unfold Browser.transform.
  destruct (Browser.transform_request _ _ _ _) as [rq|e]; [right|left; eauto].
  exists rq. destruct (Browser.fetch env rq) as [response|e]; [|eauto].
  destruct (negb (ok response)); [eauto|].
  destruct (json response) as [data|e]; [|eauto].
  destruct (Browser.response_text data); eauto.
Qed.

(** X15. When the provider answers the browser client with a status outside
    200-299, the result is a failure whose [error] starts with [API Error],
    the status and a colon; what follows is the message of the provider's
    error body when the body has one, and the status text when the body
    cannot be parsed or has no [error]. *)
Theorem browser_error_names_the_status :
  forall this env text instruction additionalParams rq response,
    Browser.transform_request this text instruction (or_default additionalParams (JObj []))
      = Normal rq ->
    Browser.fetch env rq = Fulfilled response ->
    ok response = false ->
    let line := fun detail => "API Error " ++ index_key (status response) ++ ": " ++ detail in
    Browser.transform this env text instruction additionalParams
      = (Fulfilled (Browser.failure env (Browser.api_error response) text instruction), [rq])
    /\ (forall fields err m,
          json response = Fulfilled (JObj fields) ->
          own "error" fields = Some (JObj err) ->
          own "message" err = Some (JStr m) -> m <> "" ->
          message (Browser.api_error response) = line m)
    /\ (forall fields,
          json response = Fulfilled (JObj fields) -> own "error" fields = None ->
          message (Browser.api_error response) = line (statusText response))
    /\ (forall e,
          json response = Rejected e ->
          message (Browser.api_error response) = line (statusText response)).
Proof.
  intros this env text instruction additionalParams rq response Q F O line.
  split; [|split; [|split]].
  - unfold Browser.transform. rewrite Q, F, O. reflexivity.
  - intros fields err m J E M N. unfold Browser.api_error. rewrite J. simpl.
    rewrite E. simpl. rewrite M. unfold js_or. simpl.
    apply String.eqb_neq in N. rewrite N. reflexivity.
  - intros fields J E. unfold Browser.api_error. rewrite J. simpl. rewrite E.
    unfold js_or. simpl. reflexivity.
  - intros e J. unfold Browser.api_error. rewrite J. reflexivity.
Qed.

Lemma browser_error_names_the_status_witness :
  let response := {| status := 401; statusText := "Unauthorized";
                     json := Fulfilled invalid_key |} in
  exists rq,
    Browser.transform (Browser.constructor (JStr "key"))
      (responding 401 "Unauthorized" invalid_key)
      (JStr "Draft notes about Q3 sales") (JStr "Make it formal") JUndefined
    = (Fulfilled (Browser.failure (responding 401 "Unauthorized" invalid_key)
                    (Browser.api_error response)
                    (JStr "Draft notes about Q3 sales") (JStr "Make it formal")), [rq])
    /\ message (Browser.api_error response) = "API Error 401: invalid x-api-key".
Proof.
  intros response.
  destruct (browser_error_names_the_status (Browser.constructor (JStr "key"))
              (responding 401 "Unauthorized" invalid_key)
              (JStr "Draft notes about Q3 sales") (JStr "Make it formal") JUndefined
              _ response eq_refl eq_refl eq_refl) as (T & M & _).
  eexists. split; [exact T|].
  refine (M _ _ "invalid x-api-key" eq_refl eq_refl eq_refl _). discriminate.
Defined.

(** ** shorten, elongate, simplify *)

Lemma get_throws k v e : get k v = Throw e -> v = JUndefined \/ v = JNull.
Proof. destruct v; simpl; auto; discriminate. Qed.

Lemma get_twice k k' v x : get k v = Normal x -> exists y, get k' v = Normal y.
Proof. destruct v; simpl; try discriminate; eauto. Qed.

Lemma or_default_null v d : or_default v d = JUndefined \/ or_default v d = JNull ->
  d <> JUndefined -> d <> JNull -> v = JNull.
Proof. destruct v; simpl; intros [H|H] N1 N2; congruence. Qed.

Lemma arguments_throw (build : jsval -> completion (jsval * jsval)) hint options e :
  (forall p,
     build p = Throw e ->
     get hint p = Throw e
     \/ exists x, get hint p = Normal x /\ exists v, to_string v = Throw e) ->
  build (or_default options (JObj [])) = Throw e ->
  options = JNull \/ e = cannot_convert.
Proof.
  intros B H. destruct (B _ H) as [G | (x & _ & v & T)].
  - left. apply get_throws in G. apply (or_default_null _ _ G); discriminate.
  - right. eapply to_string_throw. exact T.
Qed.

Lemma shorten_arguments_throw p e :
  Browser.shorten_arguments p = Throw e ->
  get "targetReduction" p = Throw e
  \/ exists x, get "targetReduction" p = Normal x /\ exists v, to_string v = Throw e.
Proof.
  unfold Browser.shorten_arguments.
  destruct (get "targetReduction" p) as [x|e'] eqn:G; simpl; [|intros [= ->]; auto].
  destruct (get_twice _ "targetLength" _ _ G) as [y ->].
  destruct (truthy x); simpl; [|discriminate].
  destruct (to_string x) eqn:T; simpl; [discriminate|]. intros [= ->]. eauto.
Qed.

Lemma elongate_arguments_throw p e :
  Browser.elongate_arguments p = Throw e ->
  get "expansionType" p = Throw e
  \/ exists x, get "expansionType" p = Normal x /\ exists v, to_string v = Throw e.
Proof.
  unfold Browser.elongate_arguments.
  destruct (get "expansionType" p) as [x|e'] eqn:G; simpl; [|intros [= ->]; auto].
  destruct (get_twice _ "targetLength" _ _ G) as [y ->].
  destruct (to_string _) eqn:T; simpl; [discriminate|]. intros [= ->]. eauto.
Qed.

Lemma simplify_arguments_throw p e :
  Browser.simplify_arguments p = Throw e ->
  get "targetAudience" p = Throw e
  \/ exists x, get "targetAudience" p = Normal x /\ exists v, to_string v = Throw e.
Proof.
  unfold Browser.simplify_arguments.
  destruct (get "targetAudience" p) as [x|e'] eqn:G; simpl; [|intros [= ->]; auto].
  destruct (get_twice _ "tone" _ _ G) as [y ->].
  destruct (truthy x); simpl; [|discriminate].
  destruct (to_string x) eqn:T; simpl; [discriminate|]. intros [= ->]. eauto.
Qed.

Lemma transform_with_rejected arguments this env text e :
  fst (Browser.transform_with arguments this env text) = Rejected e ->
  arguments = Throw e /\ snd (Browser.transform_with arguments this env text) = [].
Proof.
  unfold Browser.transform_with. destruct arguments as [[i params]|e'].
  - destruct (browser_transform_cases this env text i params)
      as [(x & _ & ->) | (rq & r & _ & ->)]; discriminate.
  - simpl. intros [= ->]. auto.
Qed.

(** X16. Unlike [transform] and [custom], the methods [shorten], [elongate]
    and [simplify] can reject: they read their options before the [try] of
    [transform].  They reject only when the options are [null] or when the
    hint they put into the instruction has no text form, and then nothing
    has been sent. *)
Theorem browser_actions_reject_before_sending :
  forall this env text options e,
    (fst (Browser.shorten this env text options) = Rejected e ->
     snd (Browser.shorten this env text options) = []
     /\ (options = JNull \/ e = cannot_convert))
    /\ (fst (Browser.elongate this env text options) = Rejected e ->
        snd (Browser.elongate this env text options) = []
        /\ (options = JNull \/ e = cannot_convert))
    /\ (fst (Browser.simplify this env text options) = Rejected e ->
        snd (Browser.simplify this env text options) = []
        /\ (options = JNull \/ e = cannot_convert)).
Proof.
  intros this env text options e.
  unfold Browser.shorten, Browser.elongate, Browser.simplify.
  split; [|split]; intros R; apply transform_with_rejected in R as [A S];
    (split; [exact S|]).
  - apply (arguments_throw Browser.shorten_arguments "targetReduction");
      [intros p; apply shorten_arguments_throw|exact A].
  - apply (arguments_throw Browser.elongate_arguments "expansionType");
      [intros p; apply elongate_arguments_throw|exact A].
  - apply (arguments_throw Browser.simplify_arguments "targetAudience");
      [intros p; apply simplify_arguments_throw|exact A].
Qed.

Lemma browser_actions_reject_before_sending_witness :
  fst (Browser.shorten (Browser.constructor (JStr "key")) offline
         (JStr "Draft notes about Q3 sales") JNull)
    = Rejected (TypeError "Cannot read properties of null (reading 'targetReduction')")
  /\ snd (Browser.shorten (Browser.constructor (JStr "key")) offline
            (JStr "Draft notes about Q3 sales") JNull) = []
  /\ exists r,
       fst (Browser.custom (Browser.constructor (JStr "key")) offline
              (JStr "Draft notes about Q3 sales") (JStr "Make it formal") JNull)
       = Fulfilled r.
Proof.
  split; [reflexivity|]. split; [|eexists; reflexivity].
  exact (proj1 (proj1 (browser_actions_reject_before_sending
                         (Browser.constructor (JStr "key")) offline
                         (JStr "Draft notes about Q3 sales") JNull _) eq_refl)).
Defined.

Lemma truthy_js_or v d : truthy d = true -> truthy (js_or v d) = true.
Proof. intros D. unfold js_or. destruct (truthy v) eqn:V; [exact V|exact D]. Qed.

(** The last lines of the user prompt of the browser client. *)
Lemma browser_user_prompt_hints text i params up :
  Browser.user_prompt text i params = Normal up ->
  exists head c o l tone targetLength,
    up = head ++ nl ++ c ++ nl ++ o ++ nl ++ l
    /\ get "tone" params = Normal tone
    /\ Browser.hint "Desired tone: " tone = Normal o
    /\ get "targetLength" params = Normal targetLength
    /\ Browser.hint "Target length: " targetLength = Normal l.
Proof.
  unfold Browser.user_prompt.
  destruct (to_string text) as [t|]; simpl; [|discriminate].
  destruct (to_string i) as [i'|]; simpl; [|discriminate].
  destruct (get "context" params) as [context|]; simpl; [|discriminate].
  destruct (Browser.hint "Additional context: " _) as [c|]; simpl; [|discriminate].
  destruct (get "tone" params) as [tone|]; simpl; [|discriminate].
  destruct (Browser.hint "Desired tone: " tone) as [o|] eqn:O; simpl; [|discriminate].
  destruct (get "targetLength" params) as [targetLength|]; simpl; [|discriminate].
  destruct (Browser.hint "Target length: " targetLength) as [l|] eqn:L; simpl;
    [|discriminate].
  intros [= <-]. unfold lines. cbn [String.concat].
  exists ("Transform this text: " ++ quoted t ++ nl ++ "" ++ nl ++ "Instruction: " ++ i'
          ++ nl ++ ""), c, o, l, tone, targetLength.
  split; [rewrite !app_assoc_s; reflexivity|]. repeat split; assumption.
Qed.

Lemma hint_given label v d :
  truthy d = true ->
  Browser.hint label (js_or v d)
  = (let* s := to_string (js_or v d) in Normal (label ++ s)).
Proof. intros D. unfold Browser.hint. rewrite (truthy_js_or v d D). reflexivity. Qed.

Lemma sent_with arguments this env text rq :
  snd (Browser.transform_with arguments this env text) = [rq] ->
  exists i params,
    arguments = Normal (i, params)
    /\ Browser.transform_request this text i (or_default params (JObj [])) = Normal rq.
Proof.
  unfold Browser.transform_with. destruct arguments as [[i params]|e]; [|discriminate].
  destruct (browser_transform_cases this env text i params)
    as [(x & _ & ->) | (rq' & r & Q & ->)]; simpl; [discriminate|].
  intros [= <-]. eauto.
Qed.

Lemma browser_request_user this text i params rq :
  Browser.transform_request this text i params = Normal rq ->
  Browser.user_prompt text i params = Normal (rq_user rq).
Proof.
  unfold Browser.transform_request.
  destruct (Browser.user_prompt text i params) as [up|]; simpl; [|discriminate].
  destruct (get "temperature" params); simpl; [|discriminate].
  intros [= <-]. reflexivity.
Qed.

Lemma shorten_arguments_normal p i params :
  Browser.shorten_arguments p = Normal (i, params) ->
  exists given,
    get "targetLength" p = Normal given
    /\ params = spread_with p "targetLength" (js_or given (JStr "significantly shorter")).
Proof.
  unfold Browser.shorten_arguments.
  destruct (get "targetReduction" p) as [x|]; simpl; [|discriminate].
  destruct (truthy x); simpl; [destruct (to_string x); simpl; [|discriminate]|].
  all: destruct (get "targetLength" p) as [given|]; simpl; [|discriminate].
  all: intros [= <- <-]; eauto.
Qed.

Lemma elongate_arguments_normal p i params :
  Browser.elongate_arguments p = Normal (i, params) ->
  exists given,
    get "targetLength" p = Normal given
    /\ params = spread_with p "targetLength" (js_or given (JStr "significantly longer")).
Proof.
  unfold Browser.elongate_arguments.
  destruct (get "expansionType" p) as [x|]; simpl; [|discriminate].
  destruct (to_string _) as [how|]; simpl; [|discriminate].
  destruct (get "targetLength" p) as [given|]; simpl; [|discriminate].
  intros [= <- <-]. eauto.
Qed.

Lemma simplify_arguments_normal p i params :
  Browser.simplify_arguments p = Normal (i, params) ->
  exists given,
    get "tone" p = Normal given
    /\ params = spread_with p "tone" (js_or given (JStr "clear and accessible")).
Proof.
  unfold Browser.simplify_arguments.
  destruct (get "targetAudience" p) as [x|]; simpl; [|discriminate].
  destruct (truthy x); simpl; [destruct (to_string x); simpl; [|discriminate]|].
  all: destruct (get "tone" p) as [given|]; simpl; [|discriminate].
  all: intros [= <- <-]; eauto.
Qed.

Lemma hint_text label v d l :
  truthy d = true ->
  Browser.hint label (js_or v d) = Normal l ->
  exists s, to_string (js_or v d) = Normal s /\ l = label ++ s.
Proof.
  intros D. rewrite (hint_given label v d D).
  destruct (to_string (js_or v d)) as [s|]; simpl; [|discriminate].
  intros [= <-]. eauto.
Qed.

(** X17. Every request [shorten] and [elongate] send ends with a line that
    states a target length, and every request [simplify] sends has a line
    that states a tone: the value of the caller when it is truthy, and
    otherwise the default of the method ([significantly shorter],
    [significantly longer], [clear and accessible]). *)
Theorem browser_actions_state_their_default :
  forall this env text options rq,
    let params := or_default options (JObj []) in
    (snd (Browser.shorten this env text options) = [rq] ->
     exists head given length,
       rq_user rq = head ++ nl ++ "Target length: " ++ length
       /\ get "targetLength" params = Normal given
       /\ to_string (js_or given (JStr "significantly shorter")) = Normal length)
    /\ (snd (Browser.elongate this env text options) = [rq] ->
        exists head given length,
          rq_user rq = head ++ nl ++ "Target length: " ++ length
          /\ get "targetLength" params = Normal given
          /\ to_string (js_or given (JStr "significantly longer")) = Normal length)
    /\ (snd (Browser.simplify this env text options) = [rq] ->
        exists head given tone rest,
          rq_user rq = head ++ nl ++ "Desired tone: " ++ tone ++ nl ++ rest
          /\ get "tone" params = Normal given
          /\ to_string (js_or given (JStr "clear and accessible")) = Normal tone).
Proof.
  intros this env text options rq params.
  unfold Browser.shorten, Browser.elongate, Browser.simplify. fold params.
  split; [|split]; intros S; apply sent_with in S as (i & ps & A & Q);
    apply browser_request_user in Q.
  - apply shorten_arguments_normal in A as (given & G & ->).
    rewrite or_default_spread_with in Q.
    apply browser_user_prompt_hints in Q as (head & c & o & l & tn & tl & -> & _ & _ & Gl & L).
    rewrite get_spread_with_same in Gl. injection Gl as <-.
    apply hint_text in L as (s & T & ->); [|reflexivity].
    exists (head ++ nl ++ c ++ nl ++ o), given, s.
    split; [rewrite !app_assoc_s; reflexivity|]. split; assumption.
  - apply elongate_arguments_normal in A as (given & G & ->).
    rewrite or_default_spread_with in Q.
    apply browser_user_prompt_hints in Q as (head & c & o & l & tn & tl & -> & _ & _ & Gl & L).
    rewrite get_spread_with_same in Gl. injection Gl as <-.
    apply hint_text in L as (s & T & ->); [|reflexivity].
    exists (head ++ nl ++ c ++ nl ++ o), given, s.
    split; [rewrite !app_assoc_s; reflexivity|]. split; assumption.
  - apply simplify_arguments_normal in A as (given & G & ->).
    rewrite or_default_spread_with in Q.
    apply browser_user_prompt_hints in Q as (head & c & o & l & tn & tl & -> & Gt & O & _).
    rewrite get_spread_with_same in Gt. injection Gt as <-.
    apply hint_text in O as (s & T & ->); [|reflexivity].
    exists (head ++ nl ++ c), given, s, l.
    split; [rewrite !app_assoc_s; reflexivity|]. split; assumption.
Qed.

Lemma browser_actions_state_their_default_witness :
  exists rq head,
    snd (Browser.shorten (Browser.constructor (JStr "key")) offline
           (JStr "Draft notes about Q3 sales") (JObj [ ("targetLength", JStr "") ]))
      = [rq]
    /\ rq_user rq = head ++ nl ++ "Target length: significantly shorter".
Proof.
  destruct (proj1 (browser_actions_state_their_default
                     (Browser.constructor (JStr "key")) offline
                     (JStr "Draft notes about Q3 sales")
                     (JObj [ ("targetLength", JStr "") ]) _) eq_refl)
    as (head & given & length & U & G & T).
  injection G as <-. injection T as <-.
  eexists _, head. split; [reflexivity|exact U].
Defined.

(** ** validateConnection *)

(** X18. [validateConnection] of the browser client sends one probe for its
    model with [max_tokens] 10 and never rejects.  It reports success exactly
    when [fetch] gave a response with a status in 200-299; otherwise the
    result has an [error] and no model: the message of the network failure,
    or the status followed by a colon and then, when the body cannot be
    parsed, the status text. *)
Theorem browser_validateConnection_settles :
  forall this probe,
    let request := {| pb_model := JStr (Browser.model this); pb_max_tokens := 10;
                      pb_user := "Hello" |} in
    exists v,
      Browser.validateConnection this probe = (Fulfilled v, [request])
      /\ match probe request with
         | Rejected e => v = Browser.disconnected (message e)
         | Fulfilled response =>
             if ok response then
               Browser.cn_success v = true
               /\ Browser.cn_model v = Some (Browser.model this)
               /\ Browser.cn_error v = None
             else
               Browser.cn_success v = false
               /\ Browser.cn_model v = None
               /\ (exists m, Browser.cn_error v = Some m)
               /\ match json response with
                  | Rejected _ =>
                      Browser.cn_error v
                      = Some (index_key (status response) ++ ": " ++ statusText response)
                  | Fulfilled _ => True
                  end
         end.
Proof.
  intros this probe request. unfold Browser.validateConnection. fold request.
  destruct (probe request) as [response|e]; [|eexists; split; reflexivity].
  destruct (ok response).
  - eexists. split; [reflexivity|]. repeat split.
  - destruct (Browser.status_line response) as [line|e] eqn:L;
      (eexists; split; [reflexivity|]); simpl; (split; [reflexivity|]);
      (split; [reflexivity|]); (split; [eauto|]);
      unfold Browser.status_line in L; destruct (json response); try exact I;
      simpl in L; [injection L as <-; reflexivity|discriminate].
Qed.

(** ** The functions the module exports *)

(** X19. Before [initializeAPI] has been called, each of the four functions
    the browser module exports returns a promise rejected with the
    uninitialized-client error, and sends nothing.  After
    [initializeAPI(key)], [customTransform] never rejects, whatever its
    arguments. *)
Theorem browser_exports_before_and_after_initializeAPI :
  forall env text instruction options apiKey,
    let e := Browser.Exports.uninitialized in
    rejected_unsent e (Browser.Exports.shortenText None env text options)
    /\ rejected_unsent e (Browser.Exports.elongateText None env text options)
    /\ rejected_unsent e (Browser.Exports.simplifyText None env text options)
    /\ rejected_unsent e (Browser.Exports.customTransform None env text instruction options)
    /\ exists r,
         call_async (Browser.Exports.customTransform (Browser.Exports.initializeAPI apiKey)
                       env text instruction options)
         = Normal (Fulfilled r).
Proof.
  intros env text instruction options apiKey e. repeat split.
  unfold Browser.Exports.customTransform, Browser.Exports.initializeAPI, Browser.custom,
    call_async.
  destruct (browser_transform_cases (Browser.constructor (or_default apiKey JNull)) env text
              instruction (or_default (or_default options (JObj [])) (JObj [])))
    as [(x & _ & ->) | (rq & r & _ & ->)]; eexists; reflexivity.
Qed.

(** * The frontend client, further properties *)



Lemma call_sends_once env url payload on_error :
  sends_once (Frontend.call env url payload on_error) url payload.
Proof.
  unfold sends_once, Frontend.call.
  destruct (Frontend.fetch env url payload) as [response|e]; [|simpl; eauto].
  destruct (Frontend.checked response); simpl; eauto.
Qed.

(** X21. Every method of the frontend client sends exactly one request, to
    its own route of the Relay Server, and its promise is never rejected: a
    failure of the network or of the Relay Server comes back as a value.
    The options [edit] sends are those of the call with the instruction of
    the call as their one property [instruction], in place of any
    instruction the options had; every other property reads as in the
    options of the call. *)
Theorem frontend_methods_send_one_request :
  forall this env text instruction options exampleText additionalInstructions modelId,
    let base := Frontend.baseURL this in
    sends_once (Frontend.articulate this env text options)
      (base ++ "/api/transform")
      (Some (JObj [ ("text", text); ("action", JStr "ARTICULATE");
                    ("options", or_default options (JObj [])) ]))
    /\ sends_once (Frontend.refine this env text options)
         (base ++ "/api/transform")
         (Some (JObj [ ("text", text); ("action", JStr "REFINE");
                       ("options", or_default options (JObj [])) ]))
    /\ (exists sent,
          sends_once (Frontend.edit this env text instruction options)
            (base ++ "/api/transform")
            (Some (JObj [ ("text", text); ("action", JStr "EDIT");
                          ("options", JObj sent) ]))
          /\ own "instruction" sent = Some instruction
          /\ (exists front back,
                sent = (front ++ ("instruction", instruction) :: back)%list
                /\ Forall (fun b => fst b <> "instruction") front
                /\ Forall (fun b => fst b <> "instruction") back)
          /\ (forall k, k <> "instruction" ->
              own k sent = own k (own_props (or_default options (JObj [])))))
    /\ sends_once (Frontend.generateStyleGuide this env exampleText additionalInstructions)
         (base ++ "/api/generate-style-guide")
         (Some (JObj [ ("exampleText", exampleText);
                       ("additionalInstructions",
                        or_default additionalInstructions (JStr "")) ]))
    /\ sends_once (Frontend.getModels this env) (base ++ "/api/models") None
    /\ sends_once (Frontend.setModel this env modelId)
         (base ++ "/api/models/set") (Some (JObj [ ("modelId", modelId) ]))
    /\ sends_once (Frontend.checkHealth this env) (base ++ "/api/health") None.
Proof.
  intros this env text instruction options exampleText additionalInstructions modelId base.
  assert (D : or_default (or_default options (JObj [])) (JObj [])
              = or_default options (JObj [])) by (destruct options; reflexivity).
  split; [|split; [|split; [|split; [|split; [|split]]]]].
  - unfold Frontend.articulate, Frontend.callAPI. rewrite D. apply call_sends_once.
  - unfold Frontend.refine, Frontend.callAPI. rewrite D. apply call_sends_once.
  - exists (assign "instruction" instruction (own_props (or_default options (JObj [])))).
    split; [apply call_sends_once|]. split; [apply own_assign_same|].
    split; [apply assign_once|]. intros k N. apply own_assign_other. exact N.
  - apply call_sends_once.
  - apply call_sends_once.
  - apply call_sends_once.
  - unfold sends_once, Frontend.checkHealth. fold base.
    destruct (Frontend.fetch env (base ++ "/api/health") None) as [response|e];
      [|simpl; eauto].
    destruct (json response); simpl; eauto.
Qed.

Lemma frontend_methods_send_one_request_witness :
  exists sent,
    sends_once
      (Frontend.edit Frontend.constructor
         (relay_answering 200 (JObj [ ("success", JBool true) ]))
         (JStr "Hello wrld") (JStr "Fix the typo")
         (JObj [ ("instruction", JStr "Make it formal"); ("context", JStr "A greeting") ]))
      "/api/transform"
      (Some (JObj [ ("text", JStr "Hello wrld"); ("action", JStr "EDIT");
                    ("options", JObj sent) ]))
    /\ own "instruction" sent = Some (JStr "Fix the typo")
    /\ own "context" sent = Some (JStr "A greeting").
Proof.
  destruct (proj1 (proj2 (proj2 (frontend_methods_send_one_request Frontend.constructor
              (relay_answering 200 (JObj [ ("success", JBool true) ]))
              (JStr "Hello wrld") (JStr "Fix the typo")
              (JObj [ ("instruction", JStr "Make it formal");
                      ("context", JStr "A greeting") ])
              JUndefined JUndefined JUndefined))))
    as (sent & S & I & _ & O).
  exists sent. split; [exact S|]. split; [exact I|].
  refine (O "context" _). discriminate.
Defined.

(** * The revision with the JSON template mode, further properties *)

Lemma revision_transform_cases this env text i params :
  (exists e,
     ApiJsonMode.transform_request this text i (or_default params (JObj [])) = Throw e
     /\ ApiJsonMode.transform this env text i params
        = (Fulfilled (ApiJsonMode.failure env e text i), []))
  \/
  (exists rq r,
     ApiJsonMode.transform_request this text i (or_default params (JObj [])) = Normal rq
     /\ ApiJsonMode.transform this env text i params = (Fulfilled r, [rq])
     /\ (Api.success r = false
         \/ Api.success r = true /\ exists u, ApiJsonMode.length_change text = Normal u)).
Proof.
  unfold ApiJsonMode.transform.
  destruct (ApiJsonMode.transform_request _ _ _ _) as [rq|e]; [right|left; eauto].
  exists rq. destruct (ApiJsonMode.create env rq) as [m|e]; [|eauto].
  destruct (Api.response_text m) as [s|e]; simpl; [|eauto].
  destruct (ApiJsonMode.length_change text) as [u|e]; simpl; eauto 10.
Qed.

Lemma revision_request_max_tokens this text i params rq :
  ApiJsonMode.transform_request this text i params = Normal rq ->
  exists m,
    get "max_tokens" params = Normal m
    /\ ApiJsonMode.rq_max_tokens rq
       = (if truthy m then m else JNum (ApiJsonMode.max_tokens this))
    /\ ApiJsonMode.rq_model rq = ApiJsonMode.model this.
Proof.
  unfold ApiJsonMode.transform_request.
  destruct (ApiJsonMode.build_system_prompt params); simpl; [|discriminate].
  destruct (ApiJsonMode.user_prompt text i params); simpl; [|discriminate].
  destruct (get "max_tokens" params) as [m|]; simpl; [|discriminate].
  destruct (get "temperature" params); simpl; [|discriminate].
  intros [= <-]. exists m. repeat split.
Qed.

Lemma revision_sent this env text i params rq :
  In rq (snd (ApiJsonMode.transform this env text i params)) ->
  ApiJsonMode.transform_request this text i (or_default params (JObj [])) = Normal rq.
Proof.
  destruct (revision_transform_cases this env text i params)
    as [(e & _ & ->) | (rq' & r & Q & -> & _)]; simpl; [tauto|].
  intros [<- | []]. exact Q.
Qed.

(** X22. In the revision a request takes [max_tokens] from the parameters of
    [transform] when that value is truthy, and the default of the instance
    otherwise.  The three actions overwrite it: whatever [max_tokens] the
    caller of [articulate], [refine] or [edit] puts into the options, the
    request is sent with 8000. *)
Theorem revision_max_tokens :
  forall this env text instruction options rq,
    let eight_thousand := JNum (MkNumber true "8000") in
    (In rq (snd (ApiJsonMode.transform this env text instruction options)) ->
     exists m,
       get "max_tokens" (or_default options (JObj [])) = Normal m
       /\ ApiJsonMode.rq_max_tokens rq
          = (if truthy m then m else JNum (ApiJsonMode.max_tokens this)))
    /\ (In rq (snd (ApiJsonMode.articulate this env text options)) ->
        ApiJsonMode.rq_max_tokens rq = eight_thousand)
    /\ (In rq (snd (ApiJsonMode.refine this env text options)) ->
        ApiJsonMode.rq_max_tokens rq = eight_thousand)
    /\ (In rq (snd (ApiJsonMode.edit this env text instruction options)) ->
        ApiJsonMode.rq_max_tokens rq = eight_thousand).
Proof.
  intros this env text instruction options rq eight_thousand.
  assert (Kind : forall i kind,
            In rq (snd (ApiJsonMode.transform this env text i
                          (ApiJsonMode.with_kind (or_default options (JObj [])) kind))) ->
            ApiJsonMode.rq_max_tokens rq = eight_thousand).
  { intros i kind S. apply revision_sent in S.
    apply revision_request_max_tokens in S as (m & G & -> & _).
    unfold ApiJsonMode.with_kind in G.
    rewrite or_default_spread_with, get_spread_with_same in G.
    injection G as <-. reflexivity. }
  split; [|split; [|split]].
  - intros S. apply revision_sent in S.
    apply revision_request_max_tokens in S as (m & G & M & _). eauto.
  - apply Kind.
  - apply Kind.
  - unfold ApiJsonMode.edit. destruct (Api.edit_instruction instruction); [apply Kind|].
    intros [].
Qed.

Lemma revision_max_tokens_witness :
  exists rq,
    snd (ApiJsonMode.refine ApiJsonMode.constructor
           (revision_answering (Fulfilled (text_message "Notes on third-quarter sales."))
              "2025-01-01T00:00:00.000Z")
           (JStr "Draft notes about Q3 sales")
           (JObj [ ("max_tokens", JNum (MkNumber true "200")) ]))
      = [rq]
    /\ ApiJsonMode.rq_max_tokens rq = JNum (MkNumber true "8000").
Proof.
  eexists. split; [reflexivity|].
  refine (proj1 (proj2 (proj2 (revision_max_tokens ApiJsonMode.constructor
            (revision_answering (Fulfilled (text_message "Notes on third-quarter sales."))
               "2025-01-01T00:00:00.000Z")
            (JStr "Draft notes about Q3 sales") JUndefined
            (JObj [ ("max_tokens", JNum (MkNumber true "200")) ]) _))) _).
  left. reflexivity.
Defined.

(** X23. The revision builds a log line from [text.length] after the
    provider has answered, inside the [try].  So a call of its [transform]
    whose text is [undefined] or [null] is never a success: when the provider
    answers, the request has been sent and answered and the result is still
    a failure. *)
Theorem revision_needs_a_text :
  forall this env text instruction additionalParams r,
    fst (ApiJsonMode.transform this env text instruction additionalParams) = Fulfilled r ->
    Api.success r = true ->
    text <> JUndefined /\ text <> JNull.
Proof.
  intros this env text instruction additionalParams r.
  destruct (revision_transform_cases this env text instruction additionalParams)
    as [(e & _ & ->) | (rq & r' & _ & -> & [F | (_ & u & L)])]; simpl; intros [= <-].
  - discriminate.
  - congruence.
  - intros _. destruct text; simpl in L; try discriminate; split; discriminate.
Qed.

Lemma revision_needs_a_text_witness :
  let env := revision_answering (Fulfilled (text_message "Notes on third-quarter sales."))
               "2025-01-01T00:00:00.000Z" in
  (exists r rq,
     ApiJsonMode.transform ApiJsonMode.constructor env JNull (JStr "Make it formal") JUndefined
     = (Fulfilled r, [rq])
     /\ Api.success r = false
     /\ Api.error r = Some "Cannot read properties of null (reading 'length')")
  /\ JStr "Draft notes about Q3 sales" <> JNull.
Proof.
  intros env. split.
  - eexists _, _. split; [reflexivity|]. split; reflexivity.
  - refine (proj2 (revision_needs_a_text ApiJsonMode.constructor env
                     (JStr "Draft notes about Q3 sales") (JStr "Make it formal") JUndefined
                     _ eq_refl eq_refl)).
Defined.

(** * Requests across the routes *)

Lemma transform_request_model this text i params rq :
  Api.transform_request this text i params = Normal rq -> rq_model rq = Api.model this.
Proof.
  unfold Api.transform_request.
  destruct (Api.build_system_prompt params); simpl; [|discriminate].
  destruct (Api.user_prompt text i params); simpl; [|discriminate].
  destruct (get "temperature" params); simpl; [|discriminate].
  intros [= <-]. reflexivity.
Qed.

Lemma transform_sent_model this env text i params rq :
  In rq (snd (Api.transform this env text i params)) -> rq_model rq = Api.model this.
Proof.
  destruct (transform_cases this env text i params)
    as [(e & _ & ->) | (rq' & r & Q & -> & _)]; simpl; [tauto|].
  intros [<- | []]. eapply transform_request_model. exact Q.
Qed.

Lemma respond_sent {A} (wrap : A -> Server.Body) (p : promise A * trace) :
  snd (Server.respond wrap p) = snd p.
Proof. destruct p as [[r|e] t]; reflexivity. Qed.

Lemma post_transform_sent_model claudeAPI env req_body rq :
  In rq (snd (Server.post_transform claudeAPI env req_body)) ->
  rq_model rq = Api.model claudeAPI.
Proof.
  unfold Server.post_transform.
  destruct (bind (Server.destructure "text" req_body) _) as [[[text action] options]|e];
    [|intros []].
  destruct (negb (truthy text) || negb (truthy action)); [intros []|].
  destruct (is_str "ARTICULATE" action);
    [rewrite respond_sent; apply transform_sent_model|].
  destruct (is_str "REFINE" action);
    [rewrite respond_sent; apply transform_sent_model|].
  destruct (is_str "EDIT" action).
  - destruct (get "instruction" options) as [instruction|e]; [|intros []].
    destruct (negb (truthy instruction)); [intros []|].
    rewrite respond_sent. unfold Api.edit.
    destruct (Api.edit_instruction instruction); [apply transform_sent_model|intros []].
  - destruct (to_string action); intros [].
Qed.

Lemma generateStyleGuide_sent_model this env exampleText extra rq :
  In rq (snd (Api.generateStyleGuide this env exampleText extra)) ->
  rq_model rq = Api.model this.
Proof.
  unfold Api.generateStyleGuide.
  destruct (Api.style_guide_request _ _ _) as [rq'|e] eqn:Q; [|intros []].
  assert (M : rq_model rq' = Api.model this).
  { unfold Api.style_guide_request in Q.
    destruct (Api.style_guide_user _ _); simpl in Q; [|discriminate].
    injection Q as <-. reflexivity. }
  destruct (create env rq') as [m|e]; [destruct (bind (Api.response_text m) _) as [[full [c s]]|e]|];
    simpl; intros [<- | []]; exact M.
Qed.

Lemma post_generate_style_guide_sent_model claudeAPI env req_body rq :
  In rq (snd (Server.post_generate_style_guide claudeAPI env req_body)) ->
  rq_model rq = Api.model claudeAPI.
Proof.
  unfold Server.post_generate_style_guide.
  destruct (bind (Server.destructure "exampleText" req_body) _) as [[exampleText extra]|e];
    [|intros []].
  destruct (negb (truthy exampleText)); [intros []|].
  destruct (call_trim "exampleText" exampleText) as [trimmed|e]; [|intros []].
  destruct (trimmed =? "")%string; [intros []|].
  rewrite respond_sent. apply generateStyleGuide_sent_model.
Qed.

(** X24. A switch of the model reaches the provider: after a request to
    [/api/models/set] that was answered with status 200, every request the
    routes [/api/transform] and [/api/generate-style-guide] send to the
    provider names the [modelId] of that request; after one that was answered
    with another status, they name the model that was selected before. *)
Theorem model_switch_reaches_the_provider :
  forall claudeAPI set_body env req_body rq,
    let answer := Server.post_models_set claudeAPI set_body in
    In rq (snd (Server.post_transform (snd answer) env req_body))
    \/ In rq (snd (Server.post_generate_style_guide (snd answer) env req_body)) ->
    (Server.code (fst answer) = 200 -> get "modelId" set_body = Normal (rq_model rq))
    /\ (Server.code (fst answer) <> 200 -> rq_model rq = Api.model claudeAPI).
Proof.
  intros claudeAPI set_body env req_body rq answer S.
  assert (M : rq_model rq = Api.model (snd answer)).
  { destruct S as [S|S];
      [eapply post_transform_sent_model|eapply post_generate_style_guide_sent_model];
      exact S. }
  rewrite M. subst answer.
  destruct (post_models_set_cases claudeAPI set_body)
    as [(c & m & C & ->) | (modelId & k & i & G & _ & _ & ->)]; simpl.
  - split; [|reflexivity]. destruct C as [-> | ->]; discriminate.
  - split; [intros _; exact G|]. intros N. contradiction.
Qed.

Lemma model_switch_reaches_the_provider_witness :
  exists rq,
    snd (Server.post_transform
           (snd (Server.post_models_set Api.constructor
                   (JObj [ ("modelId", JStr "claude-3-5-haiku-20241022") ])))
           overloaded
           (JObj [ ("text", JStr "Draft notes about Q3 sales"); ("action", JStr "REFINE") ]))
      = [rq]
    /\ get "modelId" (JObj [ ("modelId", JStr "claude-3-5-haiku-20241022") ])
       = Normal (rq_model rq).
Proof.
  eexists. split; [reflexivity|].
  exact (proj1 (model_switch_reaches_the_provider Api.constructor
                  (JObj [ ("modelId", JStr "claude-3-5-haiku-20241022") ])
                  overloaded
                  (JObj [ ("text", JStr "Draft notes about Q3 sales");
                          ("action", JStr "REFINE") ])
                  _ (or_introl (or_introl eq_refl))) eq_refl).
Defined.

(** X25. The actions of [/api/transform] are compared as they are written:
    a request with a truthy text and a truthy action that is none of the
    strings ARTICULATE, REFINE and EDIT (the same word in lower case, say)
    is refused and nothing is sent.  When the action has a text form, as
    every string, number and boolean has, the answer has status 400 and a
    message that names the action; when it has none (an object with a member
    [toString]), building that message throws and the answer has status
    500. *)
Theorem unknown_action_is_refused :
  forall claudeAPI env fields text action,
    own "text" fields = Some text -> truthy text = true ->
    own "action" fields = Some action -> truthy action = true ->
    (forall s, action = JStr s -> s ∉ [ "ARTICULATE"; "REFINE"; "EDIT" ]) ->
    Server.post_transform claudeAPI env (JObj fields)
    = (match to_string action with
       | Normal a =>
           Server.bad_request
             ("Unknown action: " ++ a ++ ". Supported actions: ARTICULATE, REFINE, EDIT.")
       | Throw _ => Server.internal_error cannot_convert
       end, [])
    /\ (forall s, action = JStr s -> to_string action = Normal s)
    /\ (forall n, action = JNum n -> to_string action = Normal (num_text n))
    /\ (action = JBool true -> to_string action = Normal "true")
    /\ (forall l, action = JObj l -> is_Some (own "toString" l) ->
        exists e, to_string action = Throw e).
Proof.
  intros claudeAPI env fields text action T Tt A At N.
  split; [|split; [|split; [|split]]].
  - unfold Server.post_transform. simpl. rewrite T, A. simpl. rewrite Tt, At. simpl.
    assert (I : forall lit, lit ∈ [ "ARTICULATE"; "REFINE"; "EDIT" ] ->
                            is_str lit action = false).
    { intros lit L. destruct action; try reflexivity. simpl.
      apply String.eqb_neq. intros ->. exact (N _ eq_refl L). }
    rewrite !I by set_solver.
    destruct (to_string action) as [a|e] eqn:S; [reflexivity|].
    rewrite (to_string_throw _ _ S). reflexivity.
  - intros s ->. reflexivity.
  - intros n ->. reflexivity.
  - intros ->. reflexivity.
  - intros l -> [v V]. simpl. rewrite V. eauto.
Qed.

Lemma unknown_action_is_refused_witness :
  Server.post_transform Api.constructor overloaded
    (JObj [ ("text", JStr "Draft notes about Q3 sales"); ("action", JStr "refine") ])
  = (Server.bad_request
       "Unknown action: refine. Supported actions: ARTICULATE, REFINE, EDIT.", [])
  /\ Server.post_transform Api.constructor overloaded
       (JObj [ ("text", JStr "Draft notes about Q3 sales");
               ("action", JObj [ ("toString", JNum (MkNumber true "1")) ]) ])
     = (Server.internal_error cannot_convert, []).
Proof.
  split.
  - refine (proj1 (unknown_action_is_refused Api.constructor overloaded
              [ ("text", JStr "Draft notes about Q3 sales"); ("action", JStr "refine") ]
              (JStr "Draft notes about Q3 sales") (JStr "refine")
              eq_refl eq_refl eq_refl eq_refl _)).
    intros s [= <-]. apply (bool_decide_eq_false_1 _). vm_compute. reflexivity.
  - refine (proj1 (unknown_action_is_refused Api.constructor overloaded
              [ ("text", JStr "Draft notes about Q3 sales");
                ("action", JObj [ ("toString", JNum (MkNumber true "1")) ]) ]
              (JStr "Draft notes about Q3 sales")
              (JObj [ ("toString", JNum (MkNumber true "1")) ])
              eq_refl eq_refl eq_refl eq_refl _)).
    intros s [=].
Defined.

